(** * BEAST physics model: prior weights and grid backends

    A shallow embedding of [beast/physicsmodel/priormodel.py] and
    [beast/physicsmodel/helpers/gridbackends.py].

    Conventions of the embedding.
    - A Python float is an exact rational ([Q]); rounding is not modelled.
      Arrays computed by the code may hold the IEEE special values produced
      by a division by zero, so computed arrays range over [fval].
    - A Python [dict] with string keys is a [gmap string _]; a missing key
      raises [KeyError].
    - A Python exception is a value of [exn]; a computation that may raise
      returns a [result].
    - Routines of numpy, scipy and of modules of the package that are not
      part of the two embedded files are taken as parameters ([library]),
      except [numpy.max], [numpy.min], [numpy.full], [numpy.argsort] and
      [numpy.interp], which are written out; of [numpy.interp] the search
      among control points that do not increase is a parameter. *)

From Stdlib Require Import QArith Qminmax Qround Lqa Ascii.
From stdpp Require Import gmap strings list.

(** ** Python runtime values *)

Inductive exn :=
  | ValueError (msg : string)
  | TypeError (msg : string)
  | KeyError (key : string)
  | IndexError (msg : string)
  | AttributeError (msg : string)
  | NotImplementedError (msg : string)
  | UnboundLocalError (name : string)
  | UnicodeDecodeError (msg : string)
  | RecursionError (msg : string)
  | Exception (msg : string)
  | OSError (msg : string).

Inductive result (A : Type) :=
  | Ok (a : A)
  | Raise (e : exn).
Arguments Ok {A} a.
Arguments Raise {A} e.

Definition bind {A B} (r : result A) (k : A -> result B) : result B :=
  match r with
  | Ok a => k a
  | Raise e => Raise e
  end.

Declare Scope py_scope.
Delimit Scope py_scope with py.
Notation "x <- r ;; k" := (bind r (fun x => k))
  (at level 100, r at next level, right associativity) : py_scope.
Open Scope py_scope.

(** A float as numpy computes it: finite, or one of the IEEE special values. *)
Inductive fval :=
  | Fin (q : Q)
  | PInf
  | NInf
  | NaN.

(** An array returned by a prior model. [numpy.full] keeps the type of its
    fill value, so an array of strings can come out of a [flat] model whose
    amplitude is a string. *)
Inductive ndarray :=
  | FloatArray (a : list fval)
  | StrArray (a : list string).

(** The values a model specification holds: the kind (a string), numeric
    parameters, and lists of numbers (break points, bin heights). *)
Inductive pyval :=
  | PStr (s : string)
  | PNum (q : Q)
  | PList (l : list Q).

(** [d[k]] *)
Definition getitem (d : gmap string pyval) (k : string) : result pyval :=
  match d !! k with
  | Some v => Ok v
  | None => Raise (KeyError k)
  end.

(** [v == s] for a string literal [s] *)
Definition eq_str (v : pyval) (s : string) : bool :=
  match v with
  | PStr t => String.eqb t s
  | _ => false
  end.

(** [v in names] for a list of string literals *)
Definition in_names (v : pyval) (names : list string) : bool :=
  existsb (eq_str v) names.

(** ** IEEE arithmetic on [fval] (exact on finite values) *)

Definition fdiv (a b : fval) : fval :=
  match a, b with
  | NaN, _ | _, NaN => NaN
  | Fin x, Fin y =>
      if Qeq_bool y 0 then
        (if Qeq_bool x 0 then NaN else if Qle_bool 0 x then PInf else NInf)
      else Fin (x / y)
  | Fin _, (PInf | NInf) => Fin 0
  | PInf, Fin y => if Qle_bool 0 y then PInf else NInf
  | NInf, Fin y => if Qle_bool 0 y then NInf else PInf
  | (PInf | NInf), (PInf | NInf) => NaN
  end.

Definition fadd (a b : fval) : fval :=
  match a, b with
  | NaN, _ | _, NaN => NaN
  | Fin x, Fin y => Fin (x + y)
  | PInf, NInf | NInf, PInf => NaN
  | PInf, _ | _, PInf => PInf
  | NInf, _ | _, NInf => NInf
  end.

Definition fsub (a b : fval) : fval :=
  match a, b with
  | NaN, _ | _, NaN => NaN
  | Fin x, Fin y => Fin (x - y)
  | PInf, PInf | NInf, NInf => NaN
  | PInf, _ | _, NInf => PInf
  | NInf, _ | _, PInf => NInf
  end.

(** [numpy.sum] of a 1-D array, accumulated from the left *)
Definition np_sum (a : list fval) : fval := fold_left fadd a (Fin 0).

(** [numpy.average] of a 1-D array: the sum divided by the number of
    elements (0/0 on an empty array). *)
Definition np_average (a : list fval) : fval :=
  fdiv (np_sum a) (Fin (inject_Z (Z.of_nat (length a)))).

(** [a /= s] and [a / s] for an array and a scalar *)
Definition div_scalar (a : list fval) (s : fval) : list fval :=
  map (fun w => fdiv w s) a.

(** [numpy.diff] *)
Fixpoint np_diff (a : list fval) : list fval :=
  match a with
  | x :: ((y :: _) as r) => fsub y x :: np_diff r
  | _ => []
  end.

(** [numpy.max] and [numpy.min]: a reduction of an empty array raises. *)
Definition np_max (x : list Q) : result Q :=
  match x with
  | [] => Raise (ValueError "zero-size array to reduction operation maximum which has no identity")
  | a :: r => Ok (fold_left Qmax r a)
  end.

Definition np_min (x : list Q) : result Q :=
  match x with
  | [] => Raise (ValueError "zero-size array to reduction operation minimum which has no identity")
  | a :: r => Ok (fold_left Qmin r a)
  end.

(** [numpy.full(x.shape, v)] for a 1-D [x] of [n] elements: the fill value
    is broadcast, so a list fits when it has [n] elements or one. *)
Definition np_full (n : nat) (v : pyval) : result ndarray :=
  match v with
  | PNum a => Ok (FloatArray (repeat (Fin a) n))
  | PStr s => Ok (StrArray (repeat s n))
  | PList l =>
      if (length l =? n)%nat then Ok (FloatArray (map Fin l))
      else match l with
           | [a] => Ok (FloatArray (repeat (Fin a) n))
           | _ => Raise (ValueError "could not broadcast input array")
           end
  end.

(** ** [numpy.interp]

    [numpy.interp(x, xp, fp)] with the default [left] and [right]. For each
    sample [v] numpy first tests the ends: above [xp[-1]] the value is
    [fp[-1]], and otherwise below [xp[0]] it is [fp[0]]. Between the ends it
    searches the [j] with [xp[j] <= v < xp[j+1]] and returns [fp[j]] when
    [v] is [xp[j]] or [j] is the last index, and
    [slope * (v - xp[j]) + fp[j]] otherwise. numpy does not check that [xp]
    increases. When it does, the [j] is the one a scan from the left finds,
    which [interp_scan] writes out; when it does not, what the search (a
    bisection that starts from the index of the sample before) arrives at
    is taken as a parameter, [search xp fp v]. *)

Fixpoint interp_scan (x0 f0 : Q) (rest : list (Q * Q)) (v : Q) : Q :=
  match rest with
  | [] => f0
  | (x1, f1) :: rest' =>
      if Qle_bool x1 v then interp_scan x1 f1 rest' v
      else if Qeq_bool x0 v then f0
      else ((f1 - f0) / (x1 - x0)) * (v - x0) + f0
  end%Q.

(** The interpolant on control points that increase. *)
Definition interp_at (xp fp : list Q) (v : Q) : Q :=
  match zip xp fp with
  | [] => 0%Q
  | (x0, f0) :: rest => if Qle_bool x0 v then interp_scan x0 f0 rest v else f0
  end.

(** [xp] increases from each element to the next. *)
Fixpoint ascending (xp : list Q) : bool :=
  match xp with
  | a :: ((b :: _) as r) => negb (Qle_bool b a) && ascending r
  | _ => true
  end.

(** The value for one sample, on control points of equal, non-zero number. *)
Definition interp_value (search : list Q -> list Q -> Q -> fval)
    (xp fp : list Q) (v : Q) : fval :=
  match head xp, head fp, last xp, last fp with
  | Some x0, Some f0, Some xn, Some fn =>
      if negb (Qle_bool v xn) then Fin fn
      else if negb (Qle_bool x0 v) then Fin f0
      else if ascending xp then Fin (interp_at xp fp v)
      else search xp fp v
  | _, _, _, _ => NaN
  end.

Definition np_interp (search : list Q -> list Q -> Q -> fval)
    (x : list Q) (xp fp : pyval) : result ndarray :=
  match xp, fp with
  | PList xs, PList fs =>
      if (length xs =? 0)%nat then Raise (ValueError "array of sample points is empty")
      else if negb (length fs =? length xs)%nat then
        Raise (ValueError "fp and xp are not of the same length.")
      else Ok (FloatArray (map (interp_value search xs fs) x))
  | _, _ => Raise (ValueError "object of too small depth for desired array")
  end.

(** ** Prior models ([priormodel.py]) *)

Module Prior.

(** Routines the module calls and does not define. [interp1d_zero xs vs x]
    is [interp1d(xs, vs, kind="zero")(x)] of scipy; [interp_search] is the
    search of [numpy.interp] among control points that do not increase;
    [_lognorm], [_two_lognorm] and [_exponential] are the densities of
    [priormodel_functions], the last one also called on powers of ten;
    [pow10 v] is [10.0 ** v], which overflows to [inf] on large exponents;
    [str_float] is Python's [str] of a float, used when a value is
    formatted into a message. *)
Record library := {
  str_float : Q -> string;
  interp1d_zero : pyval -> pyval -> list Q -> result ndarray;
  interp_search : list Q -> list Q -> Q -> fval;
  _lognorm : list Q -> pyval -> pyval -> result ndarray;
  _two_lognorm : list Q -> pyval -> pyval -> pyval -> pyval -> pyval -> Q -> result ndarray;
  _exponential : list fval -> pyval -> result ndarray;
  pow10 : Q -> fval
}.

(** A model specification: the dict handed to the constructor and kept,
    by reference, as [self.model]. *)
Abbreviation model := (gmap string pyval).

(** [f"{v}"] *)
Definition format (L : library) (v : pyval) : string :=
  match v with
  | PStr s => s
  | PNum q => str_float L q
  | PList l => "[" +:+ String.concat ", " (map (str_float L) l) +:+ "]"
  end.

Definition not_allowed (L : library) (name : pyval) : exn :=
  NotImplementedError (format L name +:+ " is not an allowed model").

(** [PriorModel.__init__(self, model, allowed_models=None)]: the result is
    the value of [self.model]. *)
Definition PriorModel_init (L : library) (m : model)
    (allowed_models : option (list string)) : result model :=
  match allowed_models with
  | None => Ok m
  | Some allowed =>
      name <- getitem m "name";;
      if negb (in_names name allowed) then Raise (not_allowed L name)
      else Ok m
  end.

(** The five subclasses, one per physical quantity. *)
Inductive quantity := Dust | Age | Mass | Metallicity | Distance.

(** The allow-list each subclass passes to [PriorModel.__init__]. *)
Definition allowed_models (q : quantity) : list string :=
  match q with
  | Dust => ["flat"; "lognormal"; "two_lognormal"; "exponential"]
  | Age => ["flat"; "flat_log"; "bins_histo"; "bins_interp"; "exponential"]
  | Metallicity => ["flat"]
  | Distance => ["flat"]
  | Mass => ["flat"; "salpeter"; "kroupa"]
  end.

Definition PriorDustModel_init L m := PriorModel_init L m (Some (allowed_models Dust)).
Definition PriorAgeModel_init L m := PriorModel_init L m (Some (allowed_models Age)).
Definition PriorMetallicityModel_init L m := PriorModel_init L m (Some (allowed_models Metallicity)).
Definition PriorDistanceModel_init L m := PriorModel_init L m (Some (allowed_models Distance)).
Definition PriorMassModel_init L m := PriorModel_init L m (Some (allowed_models Mass)).

(** Construction of the prior model of a quantity. *)
Definition construct (L : library) (q : quantity) (m : model) : result model :=
  match q with
  | Dust => PriorDustModel_init L m
  | Age => PriorAgeModel_init L m
  | Mass => PriorMassModel_init L m
  | Metallicity => PriorMetallicityModel_init L m
  | Distance => PriorDistanceModel_init L m
  end.

(** [np.all([np.max(x) <= cval <= np.min(x) for cval in values])]: the list
    comprehension iterates over [self.model["values"]]; [np.max(x)] is
    evaluated for each element, and [np.min(x)] only when the first
    comparison holds. A float is not iterable, and a float does not compare
    with the characters of a string. *)
Definition all_between_max_min (x : list Q) (values : pyval) : result bool :=
  match values with
  | PNum _ => Raise (TypeError "'float' object is not iterable")
  | PStr EmptyString => Ok true
  | PStr _ =>
      _ <- np_max x;;
      Raise (TypeError "'<=' not supported between instances of 'float' and 'str'")
  | PList [] => Ok true
  | PList l =>
      mx <- np_max x;;
      mn <- np_min x;;
      Ok (forallb (fun cval => Qle_bool mx cval && Qle_bool cval mn) l)
  end.

(** [len(v)] *)
Definition len (v : pyval) : result Z :=
  match v with
  | PList l => Ok (Z.of_nat (length l))
  | PStr s => Ok (Z.of_nat (String.length s))
  | PNum _ => Raise (TypeError "object of type 'float' has no len()")
  end.

(** The [bins_histo] branch of [PriorModel.__call__]. The second component
    is the model after the call: [self.model["values"].append(0.0)] changes
    the list the dict holds. *)
Definition bins_histo (L : library) (m : model) (x : list Q) : result ndarray * model :=
  match getitem m "values" with
  | Raise e => (Raise e, m)
  | Ok values =>
      match all_between_max_min x values with
      | Raise e => (Raise e, m)
      | Ok true =>
          (Raise (ValueError "bins_histo requested bins outside of model range"), m)
      | Ok false =>
          match len values with
          | Raise e => (Raise e, m)
          | Ok nvalues =>
              match getitem m "x" with
              | Raise e => (Raise e, m)
              | Ok xs =>
                  match len xs with
                  | Raise e => (Raise e, m)
                  | Ok nx =>
                      let m' :=
                        match values with
                        | PList l =>
                            if (nvalues =? nx - 1)%Z
                            then <["values" := PList (l ++ [0%Q])]> m
                            else m
                        | _ => m
                        end in
                      match getitem m' "values" with
                      | Raise e => (Raise e, m')
                      | Ok values' => (interp1d_zero L xs values' x, m')
                      end
                  end
              end
          end
      end
  end.

(** [PriorModel.__call__(self, x)] *)
Definition PriorModel_call (L : library) (m : model) (x : list Q) : result ndarray * model :=
  match getitem m "name" with
  | Raise e => (Raise e, m)
  | Ok name =>
      if eq_str name "flat" then
        (np_full (length x) (default (PNum 1) (m !! "amp")), m)
      else if eq_str name "bins_histo" then bins_histo L m x
      else if eq_str name "bins_interp" then
        (xs <- getitem m "x";; values <- getitem m "values";;
         np_interp (interp_search L) x xs values, m)
      else if eq_str name "lognormal" then
        (mean <- getitem m "mean";; sigma <- getitem m "sigma";;
         _lognorm L x mean sigma, m)
      else if eq_str name "two_lognormal" then
        (mean1 <- getitem m "mean1";; mean2 <- getitem m "mean2";;
         sigma1 <- getitem m "sigma1";; sigma2 <- getitem m "sigma2";;
         N1 <- getitem m "N1_to_N2";;
         _two_lognorm L x mean1 mean2 sigma1 sigma2 N1 1, m)
      else if eq_str name "exponential" then
        (tau <- getitem m "tau";; _exponential L (map Fin x) tau, m)
      else (Raise (not_allowed L name), m)
  end.

(** The boundaries above the sample [cur], whose lower neighbour is [prev]:
    the midpoints up to the last sample, then the upper outer boundary. *)
Fixpoint upper_boundaries (prev cur : Q) (rest : list Q) : list Q :=
  match rest with
  | [] => [(cur + (cur - prev) / 2)%Q]
  | next :: rest' => ((cur + next) / 2)%Q :: upper_boundaries cur next rest'
  end.

(** Modelled from the spec: [compute_bin_boundaries] lives in
    [grid_weights_stars], which is not among the embedded files. For [n]
    samples it returns [n+1] boundaries: each interior boundary is the
    midpoint of two adjacent samples, and each outer boundary lies as far
    outside its end sample as the nearest interior boundary lies inside.
    Adjacent samples are consecutive elements, which on an ascending array
    are also the samples adjacent by value. With fewer than two samples
    there is no adjacent sample to take a width from, and the model raises. *)
Definition compute_bin_boundaries (tab : list Q) : result (list Q) :=
  match tab with
  | t0 :: t1 :: rest =>
      Ok ((t0 - (t1 - t0) / 2)%Q :: ((t0 + t1) / 2)%Q :: upper_boundaries t0 t1 rest)
  | _ => Raise (IndexError "index 0 is out of bounds for axis 0 with size 0")
  end.

(** [v * 1e9] *)
Definition mul_float (v : pyval) (c : Q) : result pyval :=
  match v with
  | PNum q => Ok (PNum (q * c))
  | _ => Raise (TypeError "can't multiply sequence by non-int of type 'float'")
  end.

(** [PriorAgeModel.__call__(self, x)] *)
Definition PriorAgeModel_call (L : library) (m : model) (x : list Q) : result ndarray * model :=
  match getitem m "name" with
  | Raise e => (Raise e, m)
  | Ok name =>
      if eq_str name "flat_log" then
        (bounds <- compute_bin_boundaries x;;
         let weights := map (fdiv (Fin 1)) (np_diff (map (pow10 L) bounds)) in
         Ok (FloatArray (div_scalar weights (np_sum weights))), m)
      else if eq_str name "exponential" then
        (tau <- getitem m "tau";;
         tau_yr <- mul_float tau 1000000000;;
         _exponential L (map (pow10 L) x) tau_yr, m)
      else PriorModel_call L m x
  end.

(** [numpy.argsort]: the indices that sort [x] ascending. numpy leaves the
    order of equal elements open; the model keeps them in index order. *)
Fixpoint insert_sorted (p : nat * Q) (l : list (nat * Q)) : list (nat * Q) :=
  match l with
  | [] => [p]
  | h :: t =>
      if Qle_bool (snd p) (snd h) then p :: l else h :: insert_sorted p t
  end.

Definition sort_indexed (x : list Q) : list (nat * Q) :=
  foldr insert_sorted [] (zip (seq 0 (length x)) x).

Definition np_argsort (x : list Q) : list nat := map fst (sort_indexed x).

(** [x[idxs]] for an array of indices *)
Fixpoint take_indices (x : list Q) (idxs : list nat) : result (list Q) :=
  match idxs with
  | [] => Ok []
  | i :: rest =>
      match x !! i with
      | None => Raise (IndexError "index out of bounds")
      | Some v => r <- take_indices x rest;; Ok (v :: r)
      end
  end.

(** The initial mass functions of [priormodel_functions]. *)
Inductive imf := _imf_kroupa | _imf_salpeter | _imf_flat.

Section MassPrior.

(** [quad f a b] is [quad(f, a, b)[0]] of scipy: the integral of the mass
    function [f] over [[a, b]] as the quadrature returns it, which need not
    be finite. *)
Variable quad : imf -> Q -> Q -> fval.

(** The loop over [enumerate(sindxs)]: bin [i] lies between
    [mass_bounds[i]] and [mass_bounds[i + 1]], and its average goes to
    [mass_weights[sindxs[i]]]. [mass_bounds] is passed from position [i]
    on. [imf_func] is [None] when no branch assigned it. *)
Fixpoint fill_mass_weights (imf_func : option imf) (sindxs : list nat)
    (mass_bounds : list Q) (mass_weights : list fval) : result (list fval) :=
  match sindxs with
  | [] => Ok mass_weights
  | cindx :: rest =>
      match imf_func with
      | None => Raise (UnboundLocalError "imf_func")
      | Some f =>
          match mass_bounds with
          | lo :: ((hi :: _) as bounds') =>
              if (cindx <? length mass_weights)%nat then
                let integral := quad f lo hi in
                let average := fdiv integral (Fin (hi - lo)) in
                fill_mass_weights imf_func rest bounds' (<[cindx := average]> mass_weights)
              else Raise (IndexError "index out of bounds")
          | _ => Raise (IndexError "index out of bounds")
          end
      end
  end.

(** The weights before the final normalization. *)
Definition mass_weights_raw (m : model) (x : list Q) : result (list fval) :=
  let sindxs := np_argsort x in
  sorted <- take_indices x sindxs;;
  mass_bounds <- compute_bin_boundaries sorted;;
  name <- getitem m "name";;
  let imf_func :=
    if eq_str name "kroupa" then Some _imf_kroupa
    else if eq_str name "salpeter" then Some _imf_salpeter
    else if eq_str name "flat" then Some _imf_flat
    else None in
  fill_mass_weights imf_func sindxs mass_bounds (repeat (Fin 0) (length x)).

(** [PriorMassModel.__call__(self, x)] *)
Definition PriorMassModel_call (m : model) (x : list Q) : result ndarray * model :=
  (mass_weights <- mass_weights_raw m x;;
   Ok (FloatArray (div_scalar mass_weights (np_average mass_weights))), m).

(** Evaluation of the prior model of a quantity on the samples [x]; the
    second component is the model specification after the call. *)
Definition call (L : library) (q : quantity) (m : model) (x : list Q) : result ndarray * model :=
  match q with
  | Age => PriorAgeModel_call L m x
  | Mass => PriorMassModel_call m x
  | Dust | Metallicity | Distance => PriorModel_call L m x
  end.

End MassPrior.

(** ** Specifications used in the statements *)

(** [{"name": "bins_histo", "x": xs, "values": values}] *)
Definition histo (xs values : list Q) : model :=
  <["name" := PStr "bins_histo"]> (<["x" := PList xs]> (<["values" := PList values]> ∅)).

(** [{"name": "bins_interp", "x": xs, "values": values}] *)
Definition interp (xs values : list Q) : model :=
  <["name" := PStr "bins_interp"]> (<["x" := PList xs]> (<["values" := PList values]> ∅)).

(** Equality of computed floats: the same special value, or equal rationals. *)
Definition feq (a b : fval) : Prop :=
  match a, b with
  | Fin x, Fin y => (x == y)%Q
  | PInf, PInf | NInf, NInf | NaN, NaN => True
  | _, _ => False
  end.

(** A strictly increasing array. *)
Fixpoint increasing (l : list Q) : Prop :=
  match l with
  | a :: ((b :: _) as r) => (a < b)%Q /\ increasing r
  | _ => True
  end.

(** A linear age that is far from the ends of the range of a float: where
    the ages are in this range, neither the inverse of a bin width nor its
    quotient by the sum of the inverses leaves the floats. *)
Definition moderate (p : Q) : Prop := (Qpower 10 (-100) <= p /\ p <= Qpower 10 100)%Q.




(** The integral over [[a, b]] of the density that is 1 everywhere, the
    flat mass function: an instance of [quad] for the examples. *)
Definition quad_unit_density (f : imf) (a b : Q) : fval := Fin (b - a).


(** A library for the examples: [10.0 ** v] is the power of the whole
    part of [v], exact on whole exponents, and [inf] from the exponent 309
    on; the densities and the step interpolation are not provided, the
    search among control points that do not increase gives [NaN], and a
    float is formatted as nothing. *)
Definition example_library : library :=
  {| str_float := fun _ => EmptyString;
     interp1d_zero := fun _ _ _ => Raise (Exception "not provided");
     interp_search := fun _ _ _ => NaN;
     _lognorm := fun _ _ _ => Raise (Exception "not provided");
     _two_lognorm := fun _ _ _ _ _ _ _ => Raise (Exception "not provided");
     _exponential := fun _ _ => Raise (Exception "not provided");
     pow10 := fun v => if Qle_bool 309 v then PInf else Fin (Qpower 10 (Qfloor v)) |}.

(** The kinds [PriorModel.__call__] handles. *)
Definition handled : list string :=
  ["flat"; "bins_histo"; "bins_interp"; "lognormal"; "two_lognormal"; "exponential"].

(** [{"name": kind}] *)
Definition kind_only (kind : string) : model := {["name" := PStr kind]}.

End Prior.

(** ** Grid backends ([helpers/gridbackends.py]) *)

Module Grid.

(** *** Strings *)

(** [s.split(sep)] for a one-character separator: the segments between
    the separators, at least one. *)
Fixpoint split (sep : ascii) (s : string) : list string :=
  match s with
  | EmptyString => [EmptyString]
  | String c r =>
      if Ascii.eqb c sep then EmptyString :: split sep r
      else match split sep r with
           | h :: t => String c h :: t
           | [] => [String c EmptyString]
           end
  end.

Definition upper_ascii (c : ascii) : ascii :=
  let n := nat_of_ascii c in
  if ((97 <=? n) && (n <=? 122))%nat then ascii_of_nat (n - 32) else c.

Definition lower_ascii (c : ascii) : ascii :=
  let n := nat_of_ascii c in
  if ((65 <=? n) && (n <=? 90))%nat then ascii_of_nat (n + 32) else c.

Fixpoint map_string (f : ascii -> ascii) (s : string) : string :=
  match s with
  | EmptyString => EmptyString
  | String c r => String (f c) (map_string f r)
  end.

(** [c in s] for a character [c] *)
Fixpoint has_char (c : ascii) (s : string) : bool :=
  match s with
  | EmptyString => false
  | String d r => Ascii.eqb d c || has_char c r
  end.

(** [s.upper()] and [s.lower()] *)
Definition upper : string -> string := map_string upper_ascii.
Definition lower : string -> string := map_string lower_ascii.

(** A [str] is held as its UTF-8 encoding, a [bytes] as it is. The
    separators ["."] and ["="] and the five characters of [k[:5]] that
    are compared with an ASCII word are found in the encoding as they are
    in the text; [upper] and [lower] change the ASCII letters, which is
    all there is in the names of FITS extensions and keywords. *)

(** The white space of [bytes.split()]: the ASCII characters 9 to 13
    and 32. *)
Definition is_space (c : ascii) : bool :=
  let n := nat_of_ascii c in ((n =? 32) || ((9 <=? n) && (n <=? 13)))%nat.

(** [b.split()] for [bytes]: the words of [b], separated by runs of white
    space. [cur] is the word being read. *)
Fixpoint bytes_words_from (cur : string) (s : string) : list string :=
  match s with
  | EmptyString => if String.eqb cur "" then [] else [cur]
  | String c r =>
      if is_space c then
        (if String.eqb cur "" then bytes_words_from "" r else cur :: bytes_words_from "" r)
      else bytes_words_from (cur +:+ String c EmptyString) r
  end.

Definition bytes_words (s : string) : list string := bytes_words_from "" s.

(** The white space of [str.split()]: the characters U+0009 to U+000D,
    U+001C to U+0020, U+0085, U+00A0, U+1680, U+2000 to U+200A, U+2028,
    U+2029, U+202F, U+205F and U+3000. [space_len s] is the number of
    bytes of the white space character [s] starts with, 0 when it starts
    with another character. *)
Definition space_len (s : string) : nat :=
  match s with
  | String c0 r0 =>
      let n0 := N_of_ascii c0 in
      if (((9 <=? n0) && (n0 <=? 13)) || ((28 <=? n0) && (n0 <=? 32)))%N then 1
      else
        match r0 with
        | String c1 r1 =>
            let n1 := N_of_ascii c1 in
            if ((n0 =? 194) && ((n1 =? 133) || (n1 =? 160)))%N then 2
            else
              match r1 with
              | String c2 _ =>
                  let n2 := N_of_ascii c2 in
                  if (((n0 =? 225) && (n1 =? 154) && (n2 =? 128))
                      || ((n0 =? 226) && (n1 =? 128)
                          && (((128 <=? n2) && (n2 <=? 138))
                              || (n2 =? 168) || (n2 =? 169) || (n2 =? 175)))
                      || ((n0 =? 226) && (n1 =? 129) && (n2 =? 159))
                      || ((n0 =? 227) && (n1 =? 128) && (n2 =? 128)))%N
                  then 3 else 0
              | EmptyString => 0
              end
        | EmptyString => 0
        end
  | EmptyString => 0
  end%nat.

(** [s.split()] for a [str]: the words of [s], separated by runs of white
    space. [cur] is the word being read and [skip] the number of bytes
    still to pass of the white space character being read. *)
Fixpoint words_from (skip : nat) (cur : string) (s : string) : list string :=
  match s with
  | EmptyString => if String.eqb cur "" then [] else [cur]
  | String c r =>
      match skip with
      | S k => words_from k cur r
      | O =>
          match space_len s with
          | S k =>
              if String.eqb cur "" then words_from k "" r else cur :: words_from k "" r
          | O => words_from 0 (cur +:+ String c EmptyString) r
          end
      end
  end.

Definition words (s : string) : list string := words_from 0 "" s.

(** Well-formed UTF-8: [k] is the number of bytes still expected of the
    character being read, and [lo] to [hi] the range of the next of them.
    Encodings longer than needed, the surrogates and the code points above
    U+10FFFF are not well formed. *)
Fixpoint utf8_from (k : nat) (lo hi : N) (s : string) : bool :=
  match s with
  | EmptyString => (k =? 0)%nat
  | String c r =>
      let n := N_of_ascii c in
      match k with
      | O =>
          (if n <? 128 then utf8_from 0 128 191 r
           else if (194 <=? n) && (n <=? 223) then utf8_from 1 128 191 r
           else if n =? 224 then utf8_from 2 160 191 r
           else if ((225 <=? n) && (n <=? 236)) || (n =? 238) || (n =? 239)
                then utf8_from 2 128 191 r
           else if n =? 237 then utf8_from 2 128 159 r
           else if n =? 240 then utf8_from 3 144 191 r
           else if (241 <=? n) && (n <=? 243) then utf8_from 3 128 191 r
           else if n =? 244 then utf8_from 3 128 143 r
           else false)%N
      | S k' => ((lo <=? n) && (n <=? hi))%N && utf8_from k' 128 191 r
      end
  end.

Definition valid_utf8 (s : string) : bool := utf8_from 0 128 191 s.

(** [b.decode()]: the [str] with the encoding [b], when [b] is one. *)
Definition undecodable : exn := UnicodeDecodeError "'utf-8' codec can't decode bytes".

Definition decode (b : string) : result string :=
  if valid_utf8 b then Ok b else Raise undecodable.

(** *** Objects, files and the state *)

Definition loc := nat.

(** A Python value held in an attribute, a dict or a list: a constant, or
    a reference to an object on the heap. *)
Inductive value :=
  | VNone
  | VStr (s : string)
  | VBytes (s : string)
  | VRef (l : loc).

(** The contents of a numeric array, of one or two dimensions. *)
Inductive array :=
  | Vec (v : list Q)
  | Mat (rows : list (list Q)).

(** The columns of a table. *)
Abbreviation columns := (list (string * list Q)).

Inductive class := GridBackend | MemoryBackend | CacheBackend | HDFBackend.

(** The objects the backends handle. An [Instance] is a backend with its
    [__dict__]; a [Table] is an astropy table with its [meta]; a
    [Recarray] is the [data] of a FITS table; a [Node] is a node of an open
    HDF store. *)
Inductive obj :=
  | Ndarray (a : array)
  | Table (cols : columns) (meta : value)
  | Recarray (cols : columns)
  | Dict (d : gmap string value)
  | PyList (l : list value)
  | Node (fname path : string)
  | Instance (cls : class) (attrs : gmap string value).

(** A FITS file of one of the two layouts the module reads: the data of
    the primary HDU, the image extensions [SEDS], [COVDIAG] and
    [COVOFFDIAG] when present, and at most one binary table with its
    [EXTNAME] (kept in upper case by astropy), its columns and the cards
    of its header other than [EXTNAME] and the cards that describe the
    layout of the table (keywords in upper case). Names and keywords are
    ASCII text. *)
Record fits := {
  primary : array;
  seds_hdu : option array;
  covdiag_hdu : option array;
  covoffdiag_hdu : option array;
  table_hdu : option (string * columns * gmap string value)
}.

(** An HDF5 file: its top-level datasets by name, and the table at the
    path [grid], when present, with those of its attributes that hold a
    text, each as the [str] or [bytes] it is read back as. *)
Record hdf := {
  datasets : gmap string array;
  grid_table : option (columns * list (string * value))
}.

Inductive file :=
  | FitsFile (f : fits)
  | HdfFile (f : hdf).

Record state := { heap : list obj; disk : gmap string file }.

(** A method: it reads and changes the heap and the disk, and returns or
    raises. What it changed before raising stays changed. *)
Definition M (A : Type) : Type := state -> result A * state.

Definition ret {A} (a : A) : M A := fun st => (Ok a, st).
Definition raise {A} (e : exn) : M A := fun st => (Raise e, st).
Definition mbind {A B} (c : M A) (k : A -> M B) : M B :=
  fun st =>
    match c st with
    | (Ok a, st') => k a st'
    | (Raise e, st') => (Raise e, st')
    end.
Definition lift {A} (r : result A) : M A := fun st => (r, st).

Declare Scope st_scope.
Delimit Scope st_scope with st.
Notation "x <- c ;; k" := (mbind c (fun x => k))
  (at level 100, c at next level, right associativity) : st_scope.
Notation "c ;;; k" := (mbind c (fun _ => k))
  (at level 100, right associativity) : st_scope.
Local Open Scope st_scope.

(** A new object. *)
Definition alloc (o : obj) : M value :=
  fun st => (Ok (VRef (length (heap st))), {| heap := heap st ++ [o]; disk := disk st |}).

(** The object a value refers to, if it refers to one. *)
Definition deref (v : value) : M (option obj) :=
  fun st =>
    (Ok match v with
        | VRef l => heap st !! l
        | _ => None
        end, st).

Definition update (l : loc) (o : obj) : M unit :=
  fun st => (Ok tt, {| heap := <[l := o]> (heap st); disk := disk st |}).

Definition read_disk (fname : string) : M (option file) :=
  fun st => (Ok (disk st !! fname), st).

Definition write_disk (fname : string) (f : file) : M unit :=
  fun st => (Ok tt, {| heap := heap st; disk := <[fname := f]> (disk st) |}).

Definition is_none (v : value) : bool :=
  match v with
  | VNone => true
  | _ => false
  end.


(** [self.__dict__[name]]: an attribute that is not a property. *)
Definition getattr_raw (self : value) (name : string) : M value :=
  o <- deref self;;
  match o with
  | Some (Instance _ attrs) =>
      match attrs !! name with
      | Some v => ret v
      | None => raise (AttributeError ("object has no attribute '" +:+ name +:+ "'"))
      end
  | _ => raise (AttributeError ("object has no attribute '" +:+ name +:+ "'"))
  end.

Definition setattr_raw (self : value) (name : string) (v : value) : M unit :=
  o <- deref self;;
  match self, o with
  | VRef l, Some (Instance cls attrs) => update l (Instance cls (<[name := v]> attrs))
  | _, _ => raise (AttributeError ("object has no attribute '" +:+ name +:+ "'"))
  end.

Definition class_of (self : value) : M class :=
  o <- deref self;;
  match o with
  | Some (Instance cls _) => ret cls
  | _ => raise (TypeError "not a grid backend")
  end.

(** [isinstance(v, Table)] *)
Definition is_table (v : value) : M bool :=
  o <- deref v;;
  ret match o with
      | Some (Table _ _) => true
      | _ => false
      end.

(** [d.get(k, None)] for a value [d]; [None] has no [get]. *)
Definition dict_get (d : value) (k : string) : M value :=
  o <- deref d;;
  match o with
  | Some (Dict m) => ret (default VNone (m !! k))
  | _ => raise (AttributeError "object has no attribute 'get'")
  end.

(** [d[k] = v] *)
Definition dict_setitem (d : value) (k : string) (v : value) : M unit :=
  o <- deref d;;
  match d, o with
  | VRef l, Some (Dict m) => update l (Dict (<[k := v]> m))
  | _, _ => raise (TypeError "object does not support item assignment")
  end.

(** The entries of a dict, for [d.items()], [d.keys()] and [d.update]. *)
Definition dict_entries (d : value) (attr : string) : M (gmap string value) :=
  o <- deref d;;
  match o with
  | Some (Dict m) => ret m
  | _ => raise (AttributeError ("object has no attribute '" +:+ attr +:+ "'"))
  end.

(** [a or b] on values: [None] and the empty string are false. *)
Definition py_or (a b : value) : value :=
  match a with
  | VNone | VStr EmptyString | VBytes EmptyString => b
  | _ => a
  end.

(** [r.split()] *)
Definition py_split (r : value) : M (list value) :=
  match r with
  | VStr s => ret (map VStr (words s))
  | VBytes s => ret (map VBytes (bytes_words s))
  | _ => raise (AttributeError "object has no attribute 'split'")
  end.

(** [[tr.decode() for tr in r]]: the first word that cannot be decoded
    ends the comprehension. *)
Fixpoint decode_all (r : list value) : result (list value) :=
  match r with
  | [] => Ok []
  | VBytes b :: rest =>
      bind (decode b) (fun d => bind (decode_all rest) (fun ds => Ok (VStr d :: ds)))
  | _ :: _ => Raise (AttributeError "object has no attribute 'decode'")
  end.

(** *** File types *)

(** The [types] dict of [_get_type]. *)
Definition types : gmap string string :=
  list_to_map [("fits", "fits"); ("hdf", "hdf"); ("hd5", "hdf"); ("hdf5", "hdf")].

(** [fname.split(".")[-1]] *)
Definition extension (fname : string) : string :=
  default EmptyString (last (split "." fname)).

(** [GridBackend._get_type(self, fname)]; only a [str] splits on a [str]. *)
Definition _get_type (fname : value) : result string :=
  match fname with
  | VStr s =>
      let fext := extension s in
      match types !! fext with
      | None => Raise (ValueError (fext +:+ " file type not supported"))
      | Some t => Ok t
      end
  | VBytes _ => Raise (TypeError "a bytes-like object is required, not 'str'")
  | _ => Raise (AttributeError "object has no attribute 'split'")
  end.

(** *** Reading files (astropy and h5py on the files of [disk]) *)

Definition no_such_file : exn := OSError "No such file or directory".

(** [fits.open(fname)] *)
Definition fits_open (fname : value) : M fits :=
  match fname with
  | VStr s =>
      f <- read_disk s;;
      match f with
      | Some (FitsFile f) => ret f
      | Some (HdfFile _) => raise (OSError "No SIMPLE card found, this file does not appear to be a valid FITS file")
      | None => raise no_such_file
      end
  | _ => raise (OSError "File-like object does not have a 'write' method")
  end.

(** [h5py.File(fname, "r")] *)
Definition h5_open (fname : value) : M hdf :=
  match fname with
  | VStr s =>
      f <- read_disk s;;
      match f with
      | Some (HdfFile f) => ret f
      | Some (FitsFile _) => raise (OSError "Unable to open file (file signature not found)")
      | None => raise no_such_file
      end
  | _ => raise (TypeError "expected str, bytes or os.PathLike object")
  end.

Definition present {A} (o : option A) : bool :=
  match o with
  | Some _ => true
  | None => false
  end.

(** [f[k].header["EXTNAME"].lower() for k in range(1, len(f))] *)
Definition extnames (f : fits) : list string :=
  (if present (seds_hdu f) then ["seds"] else [])
  ++ (if present (covdiag_hdu f) then ["covdiag"] else [])
  ++ (if present (covoffdiag_hdu f) then ["covoffdiag"] else [])
  ++ match table_hdu f with
     | Some (name, _, _) => [lower name]
     | None => []
     end.

(** [f[name].data]: a new array for an image, a new record array for the
    table. The name is matched without regard to case. *)
Definition fits_data (f : fits) (name : string) : M value :=
  let image :=
    if String.eqb (upper name) "SEDS" then seds_hdu f
    else if String.eqb (upper name) "COVDIAG" then covdiag_hdu f
    else if String.eqb (upper name) "COVOFFDIAG" then covoffdiag_hdu f
    else None in
  match image, table_hdu f with
  | Some a, _ => alloc (Ndarray a)
  | None, Some (tname, cols, _) =>
      if String.eqb (upper name) (upper tname) then alloc (Recarray cols)
      else raise (KeyError ("Extension " +:+ name +:+ " not found."))
  | None, None => raise (KeyError ("Extension " +:+ name +:+ " not found."))
  end.

(** The cards of the header of a table that do not describe its layout:
    its name, and the cards kept with it. *)
Definition table_cards (tname : string) (header : gmap string value) : gmap string value :=
  <["EXTNAME" := VStr tname]> header.

(** [f[name].header.get(key, None)]: only the table carries cards beyond
    the structural ones. *)
Definition fits_header_get (f : fits) (name key : string) : M value :=
  let is_image :=
    (String.eqb (upper name) "SEDS" && present (seds_hdu f))
    || (String.eqb (upper name) "COVDIAG" && present (covdiag_hdu f))
    || (String.eqb (upper name) "COVOFFDIAG" && present (covoffdiag_hdu f)) in
  if is_image then ret VNone
  else match table_hdu f with
       | Some (tname, _, header) =>
           if String.eqb (upper name) (upper tname)
           then ret (default VNone (table_cards tname header !! upper key))
           else raise (KeyError ("Extension " +:+ name +:+ " not found."))
       | None => raise (KeyError ("Extension " +:+ name +:+ " not found."))
       end.

(** [Table(data)] for the data of a FITS table: the columns, and a new,
    empty [meta]. *)
Definition Table_of (data : value) : M value :=
  o <- deref data;;
  match o with
  | Some (Recarray cols) => meta <- alloc (Dict ∅);; alloc (Table cols meta)
  | Some (Table cols meta) => alloc (Table cols meta)
  | _ => raise (TypeError "data is not a table")
  end.

(** [Table.read(fname)] on a FITS file: the first table of the file; its
    [meta] holds the cards of the header that do not describe the layout
    of the table, [EXTNAME] among them. *)
Definition Table_read_fits (fname : value) : M value :=
  f <- fits_open fname;;
  match table_hdu f with
  | Some (tname, cols, header) =>
      meta <- alloc (Dict (table_cards tname header));; alloc (Table cols meta)
  | None => raise (ValueError "No table found")
  end.

(** [Table.read(fname, path="grid", format="hdf5")] *)
Definition Table_read_hdf5 (fname : value) : M value :=
  f <- h5_open fname;;
  match grid_table f with
  | Some (cols, attrs) => meta <- alloc (Dict (list_to_map attrs));; alloc (Table cols meta)
  | None => raise (OSError "Path grid does not exist")
  end.

(** [s[name][()]] *)
Definition h5_dataset (s : hdf) (name : string) : M value :=
  match datasets s !! name with
  | Some a => alloc (Ndarray a)
  | None => raise (KeyError ("Unable to open object (object '" +:+ name +:+ "' doesn't exist)"))
  end.

(** [name in s.keys()] *)
Definition h5_has (s : hdf) (name : string) : bool :=
  present (datasets s !! name) || (String.eqb name "grid" && present (grid_table s)).

(** [t.meta] *)
Definition table_meta (t : value) : M value :=
  o <- deref t;;
  match o with
  | Some (Table _ meta) => ret meta
  | _ => raise (AttributeError "object has no attribute 'meta'")
  end.

(** *** [GridBackend] *)

(** [GridBackend.__init__(self)] *)
Definition GridBackend_init (self : value) : M unit :=
  setattr_raw self "_filters" VNone;;;
  setattr_raw self "_header" VNone;;;
  setattr_raw self "fname" VNone;;;
  aliases <- alloc (Dict ∅);;
  setattr_raw self "_aliases" aliases.

(** The properties [GridBackend.header] and [GridBackend.filters] *)
Definition GridBackend_header (self : value) : M value := getattr_raw self "_header".
Definition GridBackend_filters (self : value) : M value := getattr_raw self "_filters".

(** *** [CacheBackend]: loading on first access *)

(** The shape shared by [_load_seds], [_load_cov_diag], [_load_cov_offdiag]
    and [_load_lamb]: when the slot holds [None], read the array from the
    file of the bound type. *)
Definition load_array (self : value) (slot : string)
    (from_fits : fits -> M value) (from_hdf : hdf -> M value) : M unit :=
  cur <- getattr_raw self slot;;
  if is_none cur then
    ty <- getattr_raw self "_type";;
    match ty with
    | VStr "fits" =>
        fname <- getattr_raw self "fname";;
        f <- fits_open fname;;
        v <- from_fits f;;
        setattr_raw self slot v
    | VStr "hdf" =>
        fname <- getattr_raw self "fname";;
        s <- h5_open fname;;
        v <- from_hdf s;;
        setattr_raw self slot v
    | _ => ret tt
    end
  else ret tt.

Definition _load_seds (self : value) : M unit :=
  load_array self "_seds" (fun f => fits_data f "seds") (fun s => h5_dataset s "seds").

Definition _load_cov_diag (self : value) : M unit :=
  load_array self "_cov_diag" (fun f => fits_data f "covdiag") (fun s => h5_dataset s "covdiag").

Definition _load_cov_offdiag (self : value) : M unit :=
  load_array self "_cov_offdiag" (fun f => fits_data f "covoffdiag")
    (fun s => h5_dataset s "covoffdiag").

Definition _load_lamb (self : value) : M unit :=
  load_array self "_lamb" (fun f => alloc (Ndarray (primary f))) (fun s => h5_dataset s "lamb").

(** [CacheBackend._load_grid]. The last line reads [self.grid], the
    property, which loads again: when the bound type is neither [fits] nor
    [hdf] the slot is still [None] and the property recurses without end. *)
Definition _load_grid (self : value) : M unit :=
  cur <- getattr_raw self "_grid";;
  if is_none cur then
    ty <- getattr_raw self "_type";;
    match ty with
    | VStr "fits" =>
        fname <- getattr_raw self "fname";;
        t <- Table_read_fits fname;;
        setattr_raw self "_grid" t
    | VStr "hdf" =>
        fname <- getattr_raw self "fname";;
        t <- Table_read_hdf5 fname;;
        setattr_raw self "_grid" t
    | _ => ret tt
    end;;;
    grid <- getattr_raw self "_grid";;
    if is_none grid then raise (RecursionError "maximum recursion depth exceeded")
    else
      meta <- table_meta grid;;
      setattr_raw self "_header" meta
  else ret tt.

(** The properties of [CacheBackend] *)
Definition CacheBackend_seds (self : value) : M value :=
  _load_seds self;;; getattr_raw self "_seds".

Definition CacheBackend_lamb (self : value) : M value :=
  _load_lamb self;;; getattr_raw self "_lamb".

Definition CacheBackend_cov_diag (self : value) : M value :=
  _load_cov_diag self;;; getattr_raw self "_cov_diag".

Definition CacheBackend_cov_offdiag (self : value) : M value :=
  _load_cov_offdiag self;;; getattr_raw self "_cov_offdiag".

Definition CacheBackend_grid (self : value) : M value :=
  _load_grid self;;; getattr_raw self "_grid".

(** [CacheBackend.header] returns [self._grid.header]: the grid is an
    astropy table, which has no attribute [header], or whatever the
    setter stored; a backend stored there is not followed. *)
Definition CacheBackend_header (self : value) : M value :=
  _load_grid self;;;
  grid <- getattr_raw self "_grid";;
  o <- deref grid;;
  match o with
  | Some (Table _ _) => raise (AttributeError "'Table' object has no attribute 'header'")
  | _ => raise (AttributeError "object has no attribute 'header'")
  end.

(** [CacheBackend._load_filters] *)
Definition _load_filters (self : value) : M unit :=
  cur <- getattr_raw self "_filters";;
  if is_none cur then
    ty <- getattr_raw self "_type";;
    tries <-
      match ty with
      | VStr "fits" =>
          fname <- getattr_raw self "fname";;
          f <- fits_open fname;;
          try1 <- fits_header_get f "grid" "FILTERS";;
          try2 <- fits_header_get f "grid" "filters";;
          ret (try1, try2)
      | VStr "hdf" =>
          h1 <- CacheBackend_header self;;
          try1 <- dict_get h1 "FILTERS";;
          h2 <- CacheBackend_header self;;
          try2 <- dict_get h2 "filters";;
          ret (try1, try2)
      | _ => raise (UnboundLocalError "try1")
      end;;
    let filters := py_or tries.1 tries.2 in
    setattr_raw self "_filters" filters;;;
    if is_none filters then ret tt
    else
      ws <- py_split filters;;
      l <- alloc (PyList ws);;
      setattr_raw self "_filters" l
  else ret tt.

Definition CacheBackend_filters (self : value) : M value :=
  _load_filters self;;; getattr_raw self "_filters".

(** [CacheBackend.clear(self, attrname=None)] *)
Definition clear (self : value) (attrname : option string) : M unit :=
  match attrname with
  | None =>
      setattr_raw self "_seds" VNone;;;
      setattr_raw self "_lamb" VNone;;;
      setattr_raw self "_cov_diag" VNone;;;
      setattr_raw self "_cov_offdiag" VNone;;;
      setattr_raw self "_filters" VNone;;;
      setattr_raw self "_grid" VNone;;;
      setattr_raw self "_header" VNone
  | Some name => setattr_raw self ("_" +:+ name) VNone
  end.

(** [CacheBackend.__init__(self, fname)] *)
Definition CacheBackend_init (self : value) (fname : value) : M unit :=
  GridBackend_init self;;;
  setattr_raw self "fname" fname;;;
  ty <- lift (_get_type fname);;
  setattr_raw self "_type" (VStr ty);;;
  clear self None.

(** [CacheBackend(fname)] *)
Definition CacheBackend_new (fname : value) : M value :=
  self <- alloc (Instance CacheBackend ∅);;
  CacheBackend_init self fname;;;
  ret self.

(** *** [HDFBackend]: header and filters *)

(** [node.attrs]: the attributes of a node of an open store, in the order
    of [_v_attrnames]. Only the table at [/grid] carries attributes. *)
Definition node_attrs (node : value) : M (list (string * value)) :=
  o <- deref node;;
  match o with
  | Some (Node fname path) =>
      f <- read_disk fname;;
      match f with
      | Some (HdfFile f) =>
          if String.eqb path "/grid" then ret (default [] (snd <$> grid_table f))
          else ret []
      | _ => raise no_such_file
      end
  | _ => raise (AttributeError "object has no attribute 'attrs'")
  end.

Definition exclude : list string := ["NROWS"; "VERSION"; "CLASS"; "EXTNAME"].

(** [k[:5]] *)
Definition prefix5 (k : string) : string := String.substring 0 5 k.

(** [v in ["", "None", "Noname", None]] *)
Definition empty_name (v : value) : bool :=
  match v with
  | VNone | VStr "" | VStr "None" | VStr "Noname" => true
  | _ => false
  end.

(** The loop of [HDFBackend.header] over the attribute names: [header] is
    the dict under construction; an [ALIAS] attribute ["old=new"] goes to
    [self._aliases]. *)
Fixpoint header_loop (self : value) (attrs : list (string * value))
    (header : gmap string value) : M (gmap string value) :=
  match attrs with
  | [] => ret header
  | (k, v) :: rest =>
      let header' :=
        if negb (bool_decide (k ∈ exclude)) && negb (String.eqb (prefix5 k) "FIELD")
           && negb (String.eqb (prefix5 k) "ALIAS")
        then <[k := v]> header else header in
      (if String.eqb (prefix5 k) "ALIAS" then
         match v with
         | VStr s =>
             match split "=" s with
             | [c0; c1] =>
                 aliases <- getattr_raw self "_aliases";;
                 dict_setitem aliases c0 (VStr c1)
             | _ => raise (ValueError "wrong number of values to unpack")
             end
         | VBytes _ => raise (TypeError "a bytes-like object is required, not 'str'")
         | _ => raise (AttributeError "object has no attribute 'split'")
         end
       else ret tt);;;
      header_loop self rest header'
  end.

(** The property [HDFBackend.header] *)
Definition HDFBackend_header (self : value) : M value :=
  cur <- getattr_raw self "_header";;
  if is_none cur then
    grid <- getattr_raw self "grid";;
    attrs <- node_attrs grid;;
    header <- header_loop self attrs ∅;;
    match header !! "NAME" with
    | None => raise (KeyError "NAME")
    | Some name =>
        let title := default VNone (header !! "TITLE") in
        let header' :=
          if empty_name name && negb (empty_name title)
          then <["NAME" := title]> header else header in
        h <- alloc (Dict header');;
        setattr_raw self "_header" h;;;
        getattr_raw self "_header"
    end
  else getattr_raw self "_header".

(** The property [HDFBackend.filters] *)
Definition HDFBackend_filters (self : value) : M value :=
  cur <- getattr_raw self "_filters";;
  (if is_none cur then
     h1 <- HDFBackend_header self;;
     try1 <- dict_get h1 "FILTERS";;
     h2 <- HDFBackend_header self;;
     try2 <- dict_get h2 "filters";;
     let filters := py_or try1 try2 in
     setattr_raw self "_filters" filters;;;
     if is_none filters then ret tt
     else
       ws <- py_split filters;;
       l <- alloc (PyList ws);;
       setattr_raw self "_filters" l
   else ret tt);;;
  getattr_raw self "_filters".

(** *** [MemoryBackend]: filters *)

(** The property [MemoryBackend.filters] *)
Definition MemoryBackend_filters (self : value) : M value :=
  h1 <- getattr_raw self "_header";;
  try1 <- dict_get h1 "filters";;
  h2 <- getattr_raw self "_header";;
  try2 <- dict_get h2 "FILTERS";;
  let r := py_or try1 try2 in
  if is_none r then ret r
  else
    ws <- py_split r;;
    match ws with
    | [] => raise (IndexError "list index out of range")
    | VBytes _ :: _ => ds <- lift (decode_all ws);; alloc (PyList ds)
    | _ => alloc (PyList ws)
    end.

(** *** Attribute access

    [self.name] and [self.name = v]: a property of the class of [self]
    comes before the instance's [__dict__]. *)

Definition getattr (self : value) (name : string) : M value :=
  cls <- class_of self;;
  match cls, name with
  | CacheBackend, "seds" => CacheBackend_seds self
  | CacheBackend, "lamb" => CacheBackend_lamb self
  | CacheBackend, "cov_diag" => CacheBackend_cov_diag self
  | CacheBackend, "cov_offdiag" => CacheBackend_cov_offdiag self
  | CacheBackend, "grid" => CacheBackend_grid self
  | CacheBackend, "header" => CacheBackend_header self
  | CacheBackend, "filters" => CacheBackend_filters self
  | MemoryBackend, "filters" => MemoryBackend_filters self
  | HDFBackend, "header" => HDFBackend_header self
  | HDFBackend, "filters" => HDFBackend_filters self
  | _, "header" => GridBackend_header self
  | _, "filters" => GridBackend_filters self
  | _, _ => getattr_raw self name
  end.

Definition setattr (self : value) (name : string) (v : value) : M unit :=
  cls <- class_of self;;
  match cls, name with
  | CacheBackend, ("seds" | "lamb" | "cov_diag" | "cov_offdiag" | "grid" | "header" | "filters") =>
      setattr_raw self ("_" +:+ name) v
  | _, ("header" | "filters") => raise (AttributeError "can't set attribute")
  | _, _ => setattr_raw self name v
  end.

(** [getattr(self, name, None)]: an [AttributeError] gives the default. *)
Definition getattr_default (self : value) (name : string) : M value :=
  fun st =>
    match getattr self name st with
    | (Raise (AttributeError _), st') => (Ok VNone, st')
    | r => r
    end.

(** *** The store of [helpers/hdfstore.py]

    [HDFStore] and the nodes it hands out are not part of the embedded
    file; the operations the backends use are parameters. [node_read n] is
    [n.read()] and [n[:]]; [store_open fname] is
    [HDFStore(fname, mode="a")]; [store_setitem hd key v] is [hd[key] = v];
    [store_get_node hd key] is [hd.get_node(key)] and [node_append n v] is
    [n.append(v)];
    [store_write hd data header append] is
    [hd.write(data, group="/", tablename="grid", header=header, append=append)];
    [store_close] is what leaving the [with] block does.

    The last parameter is of the HDF5 library below the store and the
    table writer: [h5_attr k v] is what it makes of an attribute [k] with
    the value [v], where the writer of the model does not say it (see
    [attr_of]). It raises an error, or it gives [Some c] when it stores a
    text, [c] being the [str] or [bytes] the attribute is read back as,
    or [None] when it stores something else, or refuses the value with a
    [TypeError]. *)
Record hdfstore := {
  node_read : value -> M value;
  store_open : value -> M value;
  store_setitem : value -> string -> value -> M unit;
  store_get_node : value -> string -> M value;
  node_append : value -> value -> M unit;
  store_write : value -> value -> value -> bool -> M unit;
  store_close : value -> M unit;
  h5_attr : string -> value -> M (option value)
}.

(** [try: c except Exception: handler] *)
Definition try_except {A} (c : M A) (handler : M A) : M A :=
  fun st =>
    match c st with
    | (Raise _, st') => handler st'
    | r => r
    end.

(** [with ... as hd: body]: the block is left through [close] on every path. *)
Definition with_block {A} (close : M unit) (body : M A) : M A :=
  fun st =>
    match body st with
    | (Raise e, st') => (Raise e, (close st').2)
    | (Ok a, st') =>
        match close st' with
        | (Ok _, st'') => (Ok a, st'')
        | (Raise e, st'') => (Raise e, st'')
        end
    end.

(** [v[:]] *)
Definition slice_all (S : hdfstore) (v : value) : M value :=
  o <- deref v;;
  match o with
  | Some (Ndarray _) => ret v
  | Some (PyList l) => alloc (PyList l)
  | Some (Node _ _) => node_read S v
  | Some (Table cols meta) => alloc (Table cols meta)
  | _ =>
      match v with
      | VStr _ | VBytes _ => ret v
      | _ => raise (TypeError "object is not subscriptable")
      end
  end.

(** The contents of an array, for the calls that need array data. *)
Definition array_data (v : value) : M array :=
  o <- deref v;;
  match o with
  | Some (Ndarray a) => ret a
  | _ => raise (TypeError "data object is not an array")
  end.

(** *** Conversions between backends *)

(** [GridBackend._from_HDFBackend(self, b)] *)
Definition _from_HDFBackend (S : hdfstore) (self b : value) : M unit :=
  n <- getattr b "lamb";; lamb <- node_read S n;; setattr self "lamb" lamb;;;
  n <- getattr b "seds";; seds <- node_read S n;; setattr self "seds" seds;;;
  n <- getattr b "grid";; data <- node_read S n;; grid <- Table_of data;;
  setattr self "grid" grid;;;
  f <- getattr_raw b "_filters";; filters <- slice_all S f;;
  setattr_raw self "_filters" filters;;;
  header <- getattr b "header";; setattr_raw self "_header" header;;;
  aliases <- getattr_raw b "_aliases";; setattr_raw self "_aliases" aliases.

(** [GridBackend._from_GridBackend(self, b)]: the new backend is bound to
    the objects of [b]. *)
Definition _from_GridBackend (self b : value) : M unit :=
  lamb <- getattr b "lamb";; setattr self "lamb" lamb;;;
  seds <- getattr b "seds";; setattr self "seds" seds;;;
  grid <- getattr b "grid";; setattr self "grid" grid;;;
  filters <- getattr_raw b "_filters";; setattr_raw self "_filters" filters;;;
  header <- getattr b "header";; setattr_raw self "_header" header;;;
  aliases <- getattr_raw b "_aliases";; setattr_raw self "_aliases" aliases.

(** *** [MemoryBackend] *)

(** [data[:-1]] and [data[-1]] of the primary HDU in the old layout: all
    rows but the last, and the last row. *)
Definition old_format_seds (a : array) : array :=
  match a with
  | Mat rows => Mat (removelast rows)
  | Vec v => Vec (removelast v)
  end.

Definition old_format_lamb (a : array) : result array :=
  match a with
  | Mat rows =>
      match last rows with
      | Some r => Ok (Vec r)
      | None => Raise (IndexError "index -1 is out of bounds for axis 0 with size 0")
      end
  | Vec v =>
      match last v with
      | Some x => Ok (Vec [x])
      | None => Raise (IndexError "index -1 is out of bounds for axis 0 with size 0")
      end
  end.

(** [MemoryBackend._from_File(self, fname)] *)
Definition _from_File (self fname : value) : M unit :=
  ty <- lift (_get_type fname);;
  (if String.eqb ty "fits" then
     f <- fits_open fname;;
     if bool_decide ("seds" ∈ extnames f) then
       lamb <- alloc (Ndarray (primary f));; setattr self "lamb" lamb;;;
       seds <- fits_data f "seds";; setattr self "seds" seds;;;
       (if bool_decide ("covdiag" ∈ extnames f)
        then c <- fits_data f "covdiag";; setattr self "cov_diag" c
        else setattr self "cov_diag" VNone);;;
       (if bool_decide ("covoffdiag" ∈ extnames f)
        then c <- fits_data f "covoffdiag";; setattr self "cov_offdiag" c
        else setattr self "cov_offdiag" VNone);;;
       data <- fits_data f "grid";; grid <- Table_of data;;
       setattr self "grid" grid
     else
       f' <- fits_open fname;;
       seds <- alloc (Ndarray (old_format_seds (primary f')));; setattr self "seds" seds;;;
       l <- lift (old_format_lamb (primary f'));;
       lamb <- alloc (Ndarray l);; setattr self "lamb" lamb;;;
       grid <- Table_read_fits fname;; setattr self "grid" grid
   else if String.eqb ty "hdf" then
     s <- h5_open fname;;
     seds <- h5_dataset s "seds";; setattr self "seds" seds;;;
     lamb <- h5_dataset s "lamb";; setattr self "lamb" lamb;;;
     (if h5_has s "covdiag"
      then c <- h5_dataset s "covdiag";; setattr self "cov_diag" c
      else setattr self "cov_diag" VNone);;;
     (if h5_has s "covdiag"
      then c <- h5_dataset s "covoffdiag";; setattr self "cov_offdiag" c
      else setattr self "cov_offdiag" VNone);;;
     grid <- Table_read_hdf5 fname;; setattr self "grid" grid
   else ret tt);;;
  grid <- getattr self "grid";;
  meta <- table_meta grid;;
  setattr_raw self "_header" meta;;;
  header <- getattr_raw self "_header";;
  entries <- dict_entries header "keys";;
  match entries !! "filters" with
  | Some (VBytes b) => d <- lift (decode b);; dict_setitem header "filters" (VStr d)
  | _ => ret tt
  end.

(** [MemoryBackend.__init__]. [isNestedInstance(lamb, GridBackend)] of
    [gridhelpers] holds of the instances of [GridBackend] and of its
    subclasses. The class has no method [_fromHDFBackend]. *)
Definition MemoryBackend_init (self lamb seds grid cov_diag cov_offdiag header aliases : value)
    : M unit :=
  GridBackend_init self;;;
  o <- deref lamb;;
  match o, lamb with
  | Some (Instance HDFBackend _), _ =>
      raise (AttributeError "'MemoryBackend' object has no attribute '_fromHDFBackend'")
  | Some (Instance _ _), _ => _from_GridBackend self lamb
  | _, (VStr _ | VBytes _) => _from_File self lamb
  | _, _ =>
      if is_none seds || is_none grid then raise (ValueError "Wrong number of arguments")
      else
        setattr self "lamb" lamb;;;
        setattr self "seds" seds;;;
        setattr self "grid" grid;;;
        if negb (is_none cov_diag) && negb (is_none cov_offdiag) then
          setattr self "cov_diag" cov_diag;;;
          setattr self "cov_offdiag" cov_offdiag
        else
          setattr self "cov_diag" VNone;;;
          setattr self "cov_offdiag" VNone
  end;;;
  cur <- getattr_raw self "_header";;
  (if is_none cur then setattr_raw self "_header" header
   else
     entries <- dict_entries header "items";;
     if bool_decide (entries = ∅) then ret tt
     else
       h <- getattr self "header";;
       o <- deref h;;
       match h, o with
       | VRef l, Some (Dict d) => update l (Dict (entries ∪ d))
       | _, _ => raise (TypeError "object does not support item assignment")
       end);;;
  own <- getattr_raw self "_aliases";;
  o <- deref own;;
  match own, o with
  | VRef l, Some (Dict d) =>
      entries <- dict_entries aliases "keys";;
      update l (Dict (entries ∪ d))
  | _, _ => raise (AttributeError "object has no attribute 'update'")
  end;;;
  setattr_raw self "fname" (VStr ":memory:").

(** [MemoryBackend(lamb, seds, grid, cov_diag, cov_offdiag, header, aliases)] *)
Definition MemoryBackend_new (lamb seds grid cov_diag cov_offdiag header aliases : value)
    : M value :=
  self <- alloc (Instance MemoryBackend ∅);;
  MemoryBackend_init self lamb seds grid cov_diag cov_offdiag header aliases;;;
  ret self.

(** *** Writing *)

Definition incomplete : exn := ValueError "Full data set not specified (lamb, seds, grid)".
Definition not_a_table : exn := TypeError "Only astropy.Table are supported".

(** [(self.lamb is not None) & (self.seds is not None) & (self.grid is not None)]:
    the three attributes are read, in this order, whatever they hold. *)
Definition full_data_set (self : value) : M bool :=
  lamb <- getattr self "lamb";;
  seds <- getattr self "seds";;
  grid <- getattr self "grid";;
  ret (negb (is_none lamb) && negb (is_none seds) && negb (is_none grid)).

(** The cards astropy writes for the [meta] of a table: one per entry,
    the keyword in upper case. *)
Definition header_cards (meta : gmap string value) : gmap string value :=
  list_to_map (prod_map upper id <$> map_to_list meta).

(** The columns and the [meta] entries of the table [t]. *)
Definition table_contents (t : value) : M (columns * gmap string value) :=
  o <- deref t;;
  match o with
  | Some (Table cols meta) =>
      m <- deref meta;;
      ret (cols, match m with
                 | Some (Dict d) => d
                 | _ => ∅
                 end)
  | _ => raise not_a_table
  end.

(** [fits.ImageHDU(self.<name>, name=...)] when the attribute is not [None] *)
Definition optional_image (self : value) (name : string) : M (option array) :=
  c <- getattr self name;;
  if is_none c then ret None
  else
    c' <- getattr self name;;
    a <- array_data c';;
    ret (Some a).

(** [hdulist.writeto(fname, overwrite=overwrite)] *)
Definition writeto (fname : value) (overwrite : bool) (f : fits) : M unit :=
  match fname with
  | VStr s =>
      old <- read_disk s;;
      if present old && negb overwrite
      then raise (OSError ("File " +:+ s +:+ " already exists."))
      else write_disk s (FitsFile f)
  | _ => raise (OSError "File-like object does not have a 'write' method")
  end.

(** [GridBackend.writeFITS(self, fname, overwrite=False)] *)
Definition writeFITS (self fname : value) (overwrite : bool) : M unit :=
  full <- full_data_set self;;
  if full then
    grid <- getattr self "grid";;
    is_t <- is_table grid;;
    if negb is_t then raise not_a_table
    else
      lamb <- getattr self "lamb";; primary <- array_data lamb;;
      seds <- getattr self "seds";; seds_data <- array_data seds;;
      covdiag <- optional_image self "cov_diag";;
      covoffdiag <- optional_image self "cov_offdiag";;
      grid <- getattr self "grid";;
      t <- table_contents grid;;
      writeto fname overwrite
        {| primary := primary;
           seds_hdu := Some seds_data;
           covdiag_hdu := covdiag;
           covoffdiag_hdu := covoffdiag;
           table_hdu := Some ("GRID", t.1, header_cards t.2) |}
  else raise incomplete.

(** [hd[name] = data] on the file opened by [h5py.File(fname, "w")] *)
Definition h5_setitem (fname : string) (name : string) (data : array) : M unit :=
  f <- read_disk fname;;
  match f with
  | Some (HdfFile f) =>
      write_disk fname
        (HdfFile {| datasets := <[name := data]> (datasets f); grid_table := grid_table f |})
  | _ => raise no_such_file
  end.

(** [hd[name] = self.<attr>[:]] when the attribute is not [None] *)
Definition optional_dataset (S : hdfstore) (self : value) (fname attr name : string) : M unit :=
  c <- getattr self attr;;
  if is_none c then ret tt
  else
    c' <- getattr self attr;;
    v <- slice_all S c';;
    a <- array_data v;;
    h5_setitem fname name a.

(** [t.meta = header]: [None] gives a new, empty dict; anything but a
    dict is refused. *)
Definition set_table_meta (t header : value) : M unit :=
  o <- deref t;;
  match t, o with
  | VRef l, Some (Table cols _) =>
      if is_none header then meta <- alloc (Dict ∅);; update l (Table cols meta)
      else
        h <- deref header;;
        match h with
        | Some (Dict _) => update l (Table cols header)
        | _ => raise (TypeError "meta attribute must be dict-like")
        end
  | _, _ => raise (AttributeError "object has no attribute 'meta'")
  end.

(** The character U+0000, which a text of HDF5 cannot hold. *)
Definition has_nul (s : string) : bool := has_char "000"%char s.

(** A name of an attribute that needs no care: not empty, without
    U+0000. *)
Definition plain_key (k : string) : bool := negb (String.eqb k "") && negb (has_nul k).

(** What the library answers, as far as the file of the model goes: a
    text, or nothing. *)
Definition kept_text (c : option value) : option value :=
  match c with
  | Some (VStr t) => Some (VStr t)
  | Some (VBytes t) => Some (VBytes t)
  | _ => None
  end.

(** What the file holds for the entry [k], [v] of the [meta] of a table.
    Under a plain name, [None] has no HDF5 type: the [TypeError] is
    caught by the writer, which skips the entry; and a [str] without
    U+0000 is held as it is. Everything else is left to the library. *)
Definition attr_of (S : hdfstore) (k : string) (v : value) : M (option value) :=
  if plain_key k then
    match v with
    | VNone => ret None
    | VStr s => if has_nul s then c <- h5_attr S k v;; ret (kept_text c) else ret (Some v)
    | _ => c <- h5_attr S k v;; ret (kept_text c)
    end
  else c <- h5_attr S k v;; ret (kept_text c).

(** [dset.attrs[k] = c] on the table of the file *)
Definition h5_set_attr (fname k : string) (c : value) : M unit :=
  f <- read_disk fname;;
  match f with
  | Some (HdfFile f) =>
      match grid_table f with
      | Some (cols, attrs) =>
          write_disk fname
            (HdfFile {| datasets := datasets f; grid_table := Some (cols, attrs ++ [(k, c)]) |})
      | None => raise (KeyError "Unable to open object (object 'grid' doesn't exist)")
      end
  | _ => raise no_such_file
  end.

(** The loop of the table writer over the entries of [meta]. *)
Fixpoint write_attrs (S : hdfstore) (fname : string) (entries : list (string * value))
    : M unit :=
  match entries with
  | [] => ret tt
  | (k, v) :: rest =>
      c <- attr_of S k v;;
      match c with
      | Some c => h5_set_attr fname k c
      | None => ret tt
      end;;;
      write_attrs S fname rest
  end.

(** [t.write(fname, path="grid", format="hdf5", append=True)]: the table
    is added to the file, which must not hold one, and then the entries of
    its [meta] are written as attributes, one by one. *)
Definition Table_write_hdf5 (S : hdfstore) (t : value) (fname : string) : M unit :=
  c <- table_contents t;;
  f <- read_disk fname;;
  match f with
  | Some (HdfFile f) =>
      if present (grid_table f) then raise (OSError "Table grid already exists")
      else
        write_disk fname (HdfFile {| datasets := datasets f; grid_table := Some (c.1, []) |});;;
        write_attrs S fname (map_to_list c.2)
  | Some (FitsFile _) => raise (OSError "Unable to open file (file signature not found)")
  | None =>
      write_disk fname (HdfFile {| datasets := ∅; grid_table := Some (c.1, []) |});;;
      write_attrs S fname (map_to_list c.2)
  end.

(** [" ".join(l)] for a list of strings *)
Definition join_words (l : value) : M value :=
  o <- deref l;;
  match o with
  | Some (PyList vs) =>
      if forallb (fun v => match v with VStr _ => true | _ => false end) vs
      then ret (VStr (String.concat " " (omap (fun v => match v with VStr s => Some s | _ => None end) vs)))
      else raise (TypeError "sequence item: expected str instance")
  | _ => raise (TypeError "can only join an iterable")
  end.

(** [GridBackend.writeHDF(self, fname, append=False)]. The file is opened
    with mode ["w"], which empties it, so it never holds [seds] when
    [append] is tested. *)
Definition writeHDF (S : hdfstore) (self fname : value) (append : bool) : M unit :=
  full <- full_data_set self;;
  if full then
    grid <- getattr self "grid";;
    is_t <- is_table grid;;
    if negb is_t then raise not_a_table
    else
      match fname with
      | VStr name =>
          write_disk name (HdfFile {| datasets := ∅; grid_table := None |});;;
          seds <- getattr self "seds";; v <- slice_all S seds;; a <- array_data v;;
          h5_setitem name "seds" a;;;
          lamb <- getattr self "lamb";; v <- slice_all S lamb;; a <- array_data v;;
          h5_setitem name "lamb" a;;;
          optional_dataset S self name "cov_diag" "covdiag";;;
          optional_dataset S self name "cov_offdiag" "covoffdiag";;;
          filters <- getattr_default self "filters";;
          (if is_none filters then ret tt
           else
             header <- getattr self "header";;
             keys <- dict_entries header "keys";;
             if present (keys !! "filters") then ret tt
             else
               filters <- getattr self "filters";;
               joined <- join_words filters;;
               header <- getattr self "header";;
               dict_setitem header "filters" joined);;;
          grid <- getattr self "grid";;
          header <- getattr self "header";;
          set_table_meta grid header;;;
          grid <- getattr self "grid";;
          Table_write_hdf5 S grid name
      | _ => raise (TypeError "expected str, bytes or os.PathLike object")
      end
  else raise incomplete.

(** [HDFBackend.writeHDF(self, fname, append=False)]: nothing is done, and
    nothing is raised, when one of the three attributes is [None]. *)
Definition HDFBackend_writeHDF (S : hdfstore) (self fname : value) (append : bool) : M unit :=
  full <- full_data_set self;;
  if full then
    hd <- store_open S fname;;
    with_block (store_close S hd)
      (let set_both :=
         seds <- getattr self "seds";; v <- slice_all S seds;;
         store_setitem S hd "/seds" v;;;
         lamb <- getattr self "lamb";; v <- slice_all S lamb;;
         store_setitem S hd "/lamb" v in
       (if negb append then set_both
        else
          try_except
            (node <- store_get_node S hd "/seds";;
             seds <- getattr self "seds";; v <- slice_all S seds;;
             node_append S node v)
            set_both);;;
       grid <- getattr self "grid";; data <- slice_all S grid;;
       header <- getattr self "header";;
       store_write S hd data header append)
  else ret tt.

(** [GridBackend.write(self, fname)]; [HDFBackend] overrides [writeHDF]. *)
Definition write (S : hdfstore) (self fname : value) : M unit :=
  ty <- lift (_get_type fname);;
  if String.eqb ty "fits" then writeFITS self fname false
  else
    ty' <- lift (_get_type fname);;
    if String.eqb ty' "hdf" then
      cls <- class_of self;;
      match cls with
      | HDFBackend => HDFBackend_writeHDF S self fname false
      | _ => writeHDF S self fname false
      end
    else
      match fname with
      | VStr s => raise (ValueError (s +:+ " format not supported"))
      | _ => raise (ValueError "format not supported")
      end.

(** *** Notions used in the statements *)

(** The class of file [_get_type] answers for an extension. *)
Definition file_type (ext : string) : result string :=
  if String.eqb ext "fits" then Ok "fits"
  else if String.eqb ext "hdf" || String.eqb ext "hd5" || String.eqb ext "hdf5" then Ok "hdf"
  else Raise (ValueError (ext +:+ " file type not supported")).

(** The first argument of [MemoryBackend] is taken as the wavelength
    array: it is neither a file name nor a backend. *)
Definition from_arrays (st : state) (lamb : value) : bool :=
  match lamb with
  | VStr _ | VBytes _ => false
  | VNone => true
  | VRef l =>
      match heap st !! l with
      | Some (Instance _ _) | None => false
      | Some _ => true
      end
  end.

(** The covariance term a [MemoryBackend] made from arrays keeps: the one
    given when both are given, [None] otherwise. *)
Definition kept_cov (cov_diag cov_offdiag given : value) : value :=
  if negb (is_none cov_diag) && negb (is_none cov_offdiag) then given else VNone.



(** The attributes that are properties of [CacheBackend] only. *)
Definition plain : list string := ["lamb"; "seds"; "grid"; "cov_diag"; "cov_offdiag"].

(** The state [st] in which the instance at [l] holds [attrs] and the
    objects [t] were made since. *)
Definition with_self (st : state) (l : loc) (cls : class) (attrs : gmap string value)
    (t : list obj) : state :=
  {| heap := <[l := Instance cls attrs]> (heap st) ++ t; disk := disk st |}.

(** The array a file holds for a data attribute of a backend. *)
Definition stored_array (fl : file) (name : string) : option array :=
  match fl with
  | FitsFile f =>
      if String.eqb name "lamb" then Some (primary f)
      else if String.eqb name "seds" then seds_hdu f
      else if String.eqb name "cov_diag" then covdiag_hdu f
      else if String.eqb name "cov_offdiag" then covoffdiag_hdu f
      else None
  | HdfFile f =>
      if String.eqb name "lamb" then datasets f !! "lamb"
      else if String.eqb name "seds" then datasets f !! "seds"
      else if String.eqb name "cov_diag" then datasets f !! "covdiag"
      else if String.eqb name "cov_offdiag" then datasets f !! "covoffdiag"
      else None
  end.

(** The type [_get_type] gives for the names of the files of a format. *)
Definition type_of_file (fl : file) : string :=
  match fl with
  | FitsFile _ => "fits"
  | HdfFile _ => "hdf"
  end.

(** The four attributes that hold arrays. *)
Definition array_attrs : list string := ["lamb"; "seds"; "cov_diag"; "cov_offdiag"].

(** The header [_from_File] leaves: a [filters] entry given in bytes is
    decoded, when it can be. *)
Definition decodable (m : gmap string value) : bool :=
  match m !! "filters" with
  | Some (VBytes b) => valid_utf8 b
  | _ => true
  end.

Definition decoded (m : gmap string value) : gmap string value :=
  match m !! "filters" with
  | Some (VBytes b) => if valid_utf8 b then <["filters" := VStr b]> m else m
  | _ => m
  end.

(** What a backend with plain attributes holds: the wavelengths, the
    SEDs, the columns of the table and the entries of the header. *)
Definition array_at (st : state) (v : value) : option array :=
  match v with
  | VRef l => match heap st !! l with
              | Some (Ndarray a) => Some a
              | _ => None
              end
  | _ => None
  end.

Definition columns_at (st : state) (v : value) : option columns :=
  match v with
  | VRef l => match heap st !! l with
              | Some (Table cols _) => Some cols
              | _ => None
              end
  | _ => None
  end.

Definition dict_at (st : state) (v : value) : option (gmap string value) :=
  match v with
  | VRef l => match heap st !! l with
              | Some (Dict m) => Some m
              | _ => None
              end
  | _ => None
  end.

Definition attrs_at (st : state) (self : loc) : option (gmap string value) :=
  match heap st !! self with
  | Some (Instance _ attrs) => Some attrs
  | _ => None
  end.

Definition grid_contents (st : state) (self : loc)
    : option (array * array * columns * gmap string value) :=
  attrs ← attrs_at st self;
  la ← attrs !! "lamb" ≫= array_at st;
  sa ← attrs !! "seds" ≫= array_at st;
  cols ← attrs !! "grid" ≫= columns_at st;
  hm ← attrs !! "_header" ≫= dict_at st;
  Some (la, sa, cols, hm).

(** The name under which a file holds an array attribute other than
    [lamb], and whether a file holds something under a name. *)
Definition stored_name (name : string) : string :=
  if String.eqb name "cov_diag" then "covdiag"
  else if String.eqb name "cov_offdiag" then "covoffdiag"
  else name.

Definition file_has (fl : file) (key : string) : bool :=
  match fl with
  | FitsFile x => bool_decide (key ∈ extnames x)
  | HdfFile x => h5_has x key
  end.

(** A key [HDFBackend.header] keeps from the attributes of the table. *)
Definition header_key (k : string) : Prop :=
  (k ∉ exclude) /\ prefix5 k <> "FIELD" /\ prefix5 k <> "ALIAS".

(** A [str] without U+0000, which the table writer stores as it is under
    a plain name, and a header all of whose entries are such. *)
Definition plain_text (v : value) : bool :=
  match v with
  | VStr s => negb (has_nul s)
  | _ => false
  end.

Definition text_header (m : gmap string value) : Prop :=
  map_Forall (fun k v => plain_key k && plain_text v = true) m.

(** The slots of a [CacheBackend]. *)
Definition cache_slots : list string :=
  ["_seds"; "_lamb"; "_cov_diag"; "_cov_offdiag"; "_filters"; "_grid"; "_header"].

(** The attributes of an instance after [GridBackend.__init__], when the
    instance is the object [n] of the heap. *)
Definition init_attrs (n : nat) : gmap string value :=
  <["_aliases" := VRef (S n)]>
    (<["fname" := VNone]> (<["_header" := VNone]> (<["_filters" := VNone]> ∅))).

(** A state for the examples: a wavelength array, a block of SEDs, a
    header, a table of two models with that header as its [meta], a dict
    of aliases and a block of covariance terms; no file. *)
Definition example_heap : list obj :=
  [Ndarray (Vec [1%Q; 2%Q]);
   Ndarray (Mat [[1%Q; 2%Q]; [3%Q; 4%Q]]);
   Dict ∅;
   Table [("logA", [6%Q; 7%Q])] (VRef 2);
   Dict ∅;
   Ndarray (Mat [[1%Q; 1%Q]; [1%Q; 1%Q]])].

Definition example_state : state := {| heap := example_heap; disk := ∅ |}.

(** The attributes of a [MemoryBackend] made from the arrays of
    [example_heap] with the header of the object 2 and no covariance
    term, when it is the object 6. *)
Definition example_attrs : gmap string value :=
  <["fname" := VStr ":memory:"]>
    (<["_header" := VRef 2]>
       (<["cov_offdiag" := VNone]>
          (<["cov_diag" := VNone]>
             (<["grid" := VRef 3]>
                (<["seds" := VRef 1]>
                   (<["lamb" := VRef 0]> (init_attrs 6))))))).

(** The state with that backend, the same backend after [seds] was set
    to [None], and after [grid] was set to the wavelength array. *)
Definition example_grid (attrs : gmap string value) : state :=
  {| heap := example_heap ++ [Instance MemoryBackend attrs; Dict ∅]; disk := ∅ |}.

Definition example_no_seds : gmap string value := <["seds" := VNone]> example_attrs.
Definition example_no_table : gmap string value := <["grid" := VRef 0]> example_attrs.

(** The state of [example_grid example_attrs] with a name in the header,
    which is also the [meta] of the table. *)
Definition example_named : state :=
  {| heap := <[2%nat := Dict (<["NAME" := VStr "grid"]> ∅)]> (heap (example_grid example_attrs));
     disk := ∅ |}.


(** An [HDFBackend] bound to two nodes of a store, whose [seds] was set
    to [None]. *)
Definition example_hdf_backend : state :=
  {| heap := [Instance HDFBackend
                (<["grid" := VRef 2]>
                   (<["lamb" := VRef 1]>
                      (<["seds" := VNone]> (<["fname" := VStr "grid.hd5"]> (init_attrs 0)))));
              Node "grid.hd5" "/lamb";
              Node "grid.hd5" "/grid";
              Dict ∅];
     disk := ∅ |}.

(** A store none of whose operations succeeds. *)
Definition no_store : hdfstore :=
  {| node_read := fun _ => raise (OSError "no store");
     store_open := fun _ => raise (OSError "no store");
     store_setitem := fun _ _ _ => raise (OSError "no store");
     store_get_node := fun _ _ => raise (OSError "no store");
     node_append := fun _ _ => raise (OSError "no store");
     store_write := fun _ _ _ _ => raise (OSError "no store");
     store_close := fun _ => raise (OSError "no store");
     h5_attr := fun _ _ => raise (OSError "no store") |}.


(** Two files for the examples, with the same arrays and columns, in the
    two formats; no object yet. *)
Definition example_hdf : hdf :=
  {| datasets := <["lamb" := Vec [1%Q; 2%Q]]> (<["seds" := Mat [[1%Q; 2%Q]; [3%Q; 4%Q]]]> ∅);
     grid_table := Some ([("logA", [6%Q; 7%Q])],
                         [("NAME", VStr "grid"); ("filters", VStr "F1 F2")]) |}.

Definition example_fits : fits :=
  {| primary := Vec [1%Q; 2%Q];
     seds_hdu := Some (Mat [[1%Q; 2%Q]; [3%Q; 4%Q]]);
     covdiag_hdu := None;
     covoffdiag_hdu := None;
     table_hdu := Some ("GRID", [("logA", [6%Q; 7%Q])], <["FILTERS" := VStr "F1 F2"]> ∅) |}.

(** The HDF file with off-diagonal covariance terms and no diagonal
    ones, and the other way round. *)
Definition example_hdf_offdiag : hdf :=
  {| datasets := <["covoffdiag" := Mat [[1%Q; 1%Q]; [1%Q; 1%Q]]]> (datasets example_hdf);
     grid_table := grid_table example_hdf |}.

Definition example_hdf_diag : hdf :=
  {| datasets := <["covdiag" := Mat [[1%Q; 1%Q]; [1%Q; 1%Q]]]> (datasets example_hdf);
     grid_table := grid_table example_hdf |}.

(** A FITS file of the old layout: two SEDs, then the wavelengths. *)
Definition example_old_fits : fits :=
  {| primary := Mat [[1%Q; 2%Q]; [3%Q; 4%Q]; [10%Q; 20%Q]];
     seds_hdu := None;
     covdiag_hdu := None;
     covoffdiag_hdu := None;
     table_hdu := Some ("GRID", [("logA", [6%Q; 7%Q])], <["FILTERS" := VStr "F1 F2"]> ∅) |}.

Definition example_files : state :=
  {| heap := [];
     disk := <["grid.fits" := FitsFile example_fits]> (<["grid.hd5" := HdfFile example_hdf]> ∅) |}.

(** The state after a [MemoryBackend] was made from the backend of
    [example_grid]: the new backend is the object 8. *)
Definition example_converted : state :=
  (MemoryBackend_new (VRef 6) VNone VNone VNone VNone (VRef 4) (VRef 4)
     (example_grid example_attrs)).2.

(** An [HDFBackend] on a table with the attributes pytables and the
    writer leave on it. *)
Definition example_hdf_attrs : hdf :=
  {| datasets := datasets example_hdf;
     grid_table := Some ([("logA", [6%Q; 7%Q])],
                         [("CLASS", VStr "TABLE"); ("VERSION", VStr "2.7");
                          ("FIELD_0_NAME", VStr "logA"); ("NROWS", VStr "2");
                          ("NAME", VStr "None"); ("TITLE", VStr "grid");
                          ("ALIAS0", VStr "age=logA"); ("FILTERS", VStr "F1 F2")]) |}.

Definition example_hdf_header : state :=
  {| heap := [Instance HDFBackend
                (<["grid" := VRef 2]> (<["fname" := VStr "grid.hd5"]> (init_attrs 0)));
              Dict ∅;
              Node "grid.hd5" "/grid"];
     disk := {["grid.hd5" := HdfFile example_hdf_attrs]} |}.

(** A [MemoryBackend] whose header has an empty [filters] and a
    [FILTERS] in bytes. *)
Definition example_filters : state :=
  {| heap := [Instance MemoryBackend (<["_header" := VRef 1]> (init_attrs 0));
              Dict (<["FILTERS" := VBytes "F1  F2"]> (<["filters" := VStr ""]> ∅))];
     disk := ∅ |}.

Definition example_hdf_header_built : state :=
  (HDFBackend_header (VRef 0) example_hdf_header).2.

(** A [CacheBackend] on the HDF file, as made and after its [grid] was
    read. *)
Definition example_cache : state := (CacheBackend_new (VStr "grid.hd5") example_files).2.
Definition example_cache_loaded : state := (CacheBackend_grid (VRef 0) example_cache).2.

(** A [CacheBackend] on the FITS file, as made. *)
Definition example_cache_fits : state := (CacheBackend_new (VStr "grid.fits") example_files).2.

(** [MemoryBackend(fname).header], as the dict it refers to. *)
Definition memory_header (fname header aliases : value) : M (option obj) :=
  new <- MemoryBackend_new fname VNone VNone VNone VNone header aliases;;
  h <- getattr new "header";;
  deref h.

End Grid.

(** * Properties of the prior models *)

Module PriorTheory.
Import Prior.
Local Open Scope Q_scope.

(** ** Construction and the allow-lists *)

Lemma in_names_str (kind : string) (names : list string) :
  in_names (PStr kind) names = bool_decide (kind ∈ names).
Proof.
  unfold in_names.
  induction names as [|n names IH]; cbn [existsb eq_str].
  - symmetry. apply bool_decide_eq_false_2, not_elem_of_nil.
  - destruct (String.eqb_spec kind n) as [->|Hne]; cbn [orb].
    + symmetry. apply bool_decide_eq_true_2. left.
    + rewrite IH. apply bool_decide_ext. rewrite elem_of_cons.
      split; [auto | intros [?|?]; [contradiction | assumption]].
Qed.

Lemma construct_unfold (L : library) (q : quantity) (m : model) :
  construct L q m = PriorModel_init L m (Some (allowed_models q)).
Proof. by destruct q. Qed.

(** C7. Constructing the prior model of a quantity from a specification
    whose kind is in the quantity's allow-list succeeds and keeps the
    specification; with any other kind it fails with the
    [NotImplementedError] "<kind> is not an allowed model". In particular
    the mass model rejects [lognormal] and the dust model accepts it. *)
Theorem construct_allow_list (L : library) :
  (forall (q : quantity) (m : model) (kind : string),
      construct L q (<["name" := PStr kind]> m) =
        if bool_decide (kind ∈ allowed_models q)
        then Ok (<["name" := PStr kind]> m)
        else Raise (NotImplementedError (kind +:+ " is not an allowed model")))
  /\ PriorMassModel_init L {["name" := PStr "lognormal"]} =
       Raise (NotImplementedError "lognormal is not an allowed model")
  /\ PriorDustModel_init L {["name" := PStr "lognormal"]} =
       Ok {["name" := PStr "lognormal"]}.
Proof.
  split; [|split; reflexivity].
  intros q m kind. rewrite construct_unfold. unfold PriorModel_init, getitem.
  rewrite lookup_insert_eq. simpl. rewrite in_names_str.
  by destruct (bool_decide (kind ∈ allowed_models q)).
Qed.

(** ** The bounds check of [bins_histo] *)

(** The check raises exactly when the list of heights is empty or every
    height [c] satisfies [max(x) <= c <= min(x)]. *)
Lemma bins_histo_check (x l : list Q) (mx mn : Q) :
  np_max x = Ok mx -> np_min x = Ok mn ->
  all_between_max_min x (PList l) =
    Ok (forallb (fun cval => Qle_bool mx cval && Qle_bool cval mn) l).
Proof.
  intros Hmx Hmn. destruct l as [|c l]; [reflexivity|].
  unfold all_between_max_min. rewrite Hmx, Hmn. reflexivity.
Qed.

(** C1. The check of [bins_histo] does not compare the break points with
    the sample range. With break points 1, 2, 3 and samples in
    [[1.5, 2.5]] two break points lie outside the range, and the call goes
    on to build and evaluate the interpolator; with the single break point
    2 and the single sample 2 the break point lies within the range, and
    the call raises the bounds error. *)
Theorem bins_histo_check_inverted (L : library) :
  PriorAgeModel_call L (histo [1; 2; 3] [5; 5; 5]) [1.5; 2.5] =
    (interp1d_zero L (PList [1; 2; 3]) (PList [5; 5; 5]) [1.5; 2.5],
     histo [1; 2; 3] [5; 5; 5])
  /\ PriorAgeModel_call L (histo [2] [2]) [2] =
    (Raise (ValueError "bins_histo requested bins outside of model range"),
     histo [2] [2]).
Proof. split; reflexivity. Qed.

(** ** What a call does to the stored specification *)










(** ** [numpy.interp] on increasing control points *)

Lemma Qle_bool_false (a b : Q) : Qle_bool a b = false -> b < a.
Proof.
  intros H. apply Qnot_le_lt. rewrite <- Qle_bool_iff. congruence.
Qed.

Lemma increasing_tail (a : Q) (l : list Q) : increasing (a :: l) -> increasing l.
Proof. destruct l; simpl; tauto. Qed.

Lemma increasing_head_lt (l : list Q) :
  forall (a b : Q) (j : nat), increasing (a :: l) -> l !! j = Some b -> a < b.
Proof.
  induction l as [|c l IH]; intros a b j Hinc Hj; [done|].
  destruct Hinc as [Hac Hinc]. destruct j as [|j]; simpl in Hj.
  - by inversion Hj; subst.
  - apply Qlt_trans with c; [done|]. by apply (IH c b j).
Qed.

Lemma increasing_last_le (l : list Q) (a b : Q) :
  increasing (a :: l) -> last (a :: l) = Some b -> a <= b.
Proof.
  intros Hinc Hlast. rewrite last_lookup in Hlast. simpl in Hlast.
  destruct l as [|c l]; simpl in Hlast.
  - inversion Hlast. apply Qle_refl.
  - apply Qlt_le_weak. by apply (increasing_head_lt (c :: l) a b (length l)).
Qed.

(** At a control point the scan returns the control value. *)
Lemma scan_at_start (x0 f0 : Q) (rest : list (Q * Q)) (v : Q) :
  x0 == v -> increasing (x0 :: rest.*1) -> interp_scan x0 f0 rest v = f0.
Proof.
  intros Hv Hinc. destruct rest as [|[x1 f1] rest]; [done|].
  destruct Hinc as [Hlt _]. simpl in *.
  destruct (Qle_bool x1 v) eqn:Hle.
  - apply Qle_bool_iff in Hle. exfalso. lra.
  - apply Qeq_bool_iff in Hv. by rewrite Hv.
Qed.

(** At or above the last control point the scan returns the last value. *)
Lemma scan_last (rest : list (Q * Q)) :
  forall (x0 f0 v b fb : Q),
    increasing (x0 :: rest.*1) -> last ((x0, f0) :: rest) = Some (b, fb) ->
    b <= v -> interp_scan x0 f0 rest v = fb.
Proof.
  induction rest as [|[x1 f1] rest IH]; intros x0 f0 v b fb Hinc Hlast Hv.
  - by inversion Hlast.
  - change (last ((x1, f1) :: rest) = Some (b, fb)) in Hlast.
    assert (Hx1 : x1 <= b).
    { apply (increasing_last_le (rest.*1)); [by apply increasing_tail in Hinc|].
      change (last (((x1, f1) :: rest).*1) = Some b).
      rewrite fmap_last, Hlast. done. }
    simpl. assert (Hle : Qle_bool x1 v = true) by (apply Qle_bool_iff; lra).
    rewrite Hle. apply (IH x1 f1 v b fb); [by apply increasing_tail in Hinc|done|done].
Qed.

(** Between two consecutive control points the scan returns the value of
    the line through them. *)
Lemma scan_interval (rest : list (Q * Q)) :
  forall (x0 f0 v : Q) (j : nat) (a fa b fb : Q),
    increasing (x0 :: rest.*1) ->
    ((x0, f0) :: rest) !! j = Some (a, fa) ->
    ((x0, f0) :: rest) !! S j = Some (b, fb) ->
    a <= v -> v <= b ->
    interp_scan x0 f0 rest v == fa + (fb - fa) * ((v - a) / (b - a)).
Proof.
  induction rest as [|[x1 f1] rest IH]; intros x0 f0 v j a fa b fb Hinc Hj HSj Hav Hvb.
  - by destruct j.
  - destruct j as [|j].
    + inversion Hj; subst a fa. inversion HSj; subst b fb. clear Hj HSj.
      pose proof Hinc as [Hlt Hinc']. simpl in Hlt.
      cbn [interp_scan]. destruct (Qle_bool x1 v) eqn:Hle.
      * apply Qle_bool_iff in Hle.
        assert (Hv : x1 == v) by lra.
        rewrite (scan_at_start x1 f1 rest v Hv Hinc').
        rewrite <- Hv. field. lra.
      * destruct (Qeq_bool x0 v) eqn:Heq.
        -- apply Qeq_bool_iff in Heq. rewrite <- Heq. field. lra.
        -- field. lra.
    + assert (Hx1 : x1 <= a).
      { destruct j as [|j].
        - inversion Hj. apply Qle_refl.
        - apply Qlt_le_weak.
          apply (increasing_head_lt (rest.*1) x1 a j); [by apply increasing_tail in Hinc|].
          simpl in Hj. by rewrite list_lookup_fmap, Hj. }
      cbn [interp_scan].
      assert (Hle : Qle_bool x1 v = true) by (apply Qle_bool_iff; lra).
      rewrite Hle.
      apply (IH x1 f1 v j a fa b fb); [by apply increasing_tail in Hinc|done|done|done|done].
Qed.

Lemma ascending_increasing (xp : list Q) : ascending xp = true <-> increasing xp.
Proof.
  induction xp as [|a [|b r] IH]; [done|done|].
  change (ascending (a :: b :: r)) with (negb (Qle_bool b a) && ascending (b :: r)).
  change (increasing (a :: b :: r)) with (a < b /\ increasing (b :: r)).
  rewrite andb_true_iff, IH, negb_true_iff. split.
  - intros [Hab Hr]. split; [by apply Qle_bool_false|done].
  - intros [Hab Hr]. split; [|done].
    apply not_true_is_false. rewrite Qle_bool_iff. lra.
Qed.

(** The interpolant on increasing control points: the first value at or
    below the first point, the last value at or above the last point, and
    in between the value of the line through two consecutive points. *)
Lemma interp_at_below (xp fp : list Q) (v a fa : Q) :
  increasing xp -> length fp = length xp ->
  head xp = Some a -> head fp = Some fa -> v <= a -> interp_at xp fp v = fa.
Proof.
  intros Hinc Hlen Ha Hfa Hv.
  destruct xp as [|x0 xp]; destruct fp as [|f0 fp]; try discriminate.
  assert (Hfst : (zip xp fp).*1 = xp) by (apply fst_zip; simpl in Hlen; lia).
  assert (Hinc' : increasing (x0 :: (zip xp fp).*1)) by by rewrite Hfst.
  unfold interp_at. cbn [zip zip_with].
  inversion Ha; subst a. inversion Hfa; subst fa.
  destruct (Qle_bool x0 v) eqn:Hle; [|done].
  apply Qle_bool_iff in Hle. apply scan_at_start; [lra|done].
Qed.

Lemma interp_at_above (xp fp : list Q) (v b fb : Q) :
  increasing xp -> length fp = length xp ->
  last xp = Some b -> last fp = Some fb -> b <= v -> interp_at xp fp v = fb.
Proof.
  intros Hinc Hlen Hb Hfb Hv.
  destruct xp as [|x0 xp]; destruct fp as [|f0 fp]; try discriminate.
  assert (Hfst : (zip xp fp).*1 = xp) by (apply fst_zip; simpl in Hlen; lia).
  assert (Hinc' : increasing (x0 :: (zip xp fp).*1)) by by rewrite Hfst.
  unfold interp_at. cbn [zip zip_with].
  assert (Hx0 : x0 <= b) by by apply (increasing_last_le xp).
  assert (Hle : Qle_bool x0 v = true) by (apply Qle_bool_iff; lra).
  rewrite Hle. apply (scan_last _ _ _ _ b); [done| |done].
  change (last (zip (x0 :: xp) (f0 :: fp)) = Some (b, fb)).
  rewrite last_lookup in Hb. rewrite last_lookup in Hfb. rewrite last_lookup.
  rewrite length_zip_with, Hlen, Nat.min_id. rewrite Hlen in Hfb.
  apply lookup_zip_with_Some. eauto.
Qed.

Lemma interp_at_between (xp fp : list Q) (v : Q) (j : nat) (a b fa fb : Q) :
  increasing xp -> length fp = length xp ->
  xp !! j = Some a -> xp !! S j = Some b -> fp !! j = Some fa -> fp !! S j = Some fb ->
  a <= v -> v <= b ->
  interp_at xp fp v == fa + (fb - fa) * ((v - a) / (b - a)).
Proof.
  intros Hinc Hlen Ha Hb Hfa Hfb Hav Hvb.
  destruct xp as [|x0 xp]; destruct fp as [|f0 fp]; try discriminate.
  assert (Hfst : (zip xp fp).*1 = xp) by (apply fst_zip; simpl in Hlen; lia).
  assert (Hinc' : increasing (x0 :: (zip xp fp).*1)) by by rewrite Hfst.
  unfold interp_at. cbn [zip zip_with].
  assert (Hx0 : x0 <= a).
  { destruct j as [|j]; [inversion Ha; apply Qle_refl|].
    apply Qlt_le_weak. by apply (increasing_head_lt xp x0 a j). }
  assert (Hle : Qle_bool x0 v = true) by (apply Qle_bool_iff; lra).
  rewrite Hle. apply (scan_interval _ _ _ _ j a fa b fb); [done| | |done|done].
  - change (zip (x0 :: xp) (f0 :: fp) !! j = Some (a, fa)).
    apply lookup_zip_with_Some. eauto.
  - change (zip (x0 :: xp) (f0 :: fp) !! S j = Some (b, fb)).
    apply lookup_zip_with_Some. eauto.
Qed.

Lemma last_is_Some {A} (l : list A) : l <> [] -> is_Some (last l).
Proof.
  intros Hne. rewrite last_lookup. apply lookup_lt_is_Some.
  destruct l; [done|]. simpl. lia.
Qed.

(** The end tests of [numpy.interp], whatever the order of the control
    points: a sample above the last point listed gets the last value, and
    otherwise a sample below the first point listed gets the first value. *)
Lemma interp_value_ends (search : list Q -> list Q -> Q -> fval) (xp fp : list Q)
    (v x0 f0 xn fn : Q) :
  head xp = Some x0 -> head fp = Some f0 -> last xp = Some xn -> last fp = Some fn ->
  (xn < v -> interp_value search xp fp v = Fin fn)
  /\ (v <= xn -> v < x0 -> interp_value search xp fp v = Fin f0).
Proof.
  intros Hx0 Hf0 Hxn Hfn. unfold interp_value. rewrite Hx0, Hf0, Hxn, Hfn. split.
  - intros Hv. assert (Hb : Qle_bool v xn = false).
    { apply not_true_is_false. rewrite Qle_bool_iff. lra. }
    by rewrite Hb.
  - intros Hv1 Hv2. assert (Hb : Qle_bool v xn = true) by by apply Qle_bool_iff.
    assert (Hb' : Qle_bool x0 v = false).
    { apply not_true_is_false. rewrite Qle_bool_iff. lra. }
    by rewrite Hb, Hb'.
Qed.

(** On increasing control points [numpy.interp] gives the interpolant. *)
Lemma interp_value_increasing (search : list Q -> list Q -> Q -> fval) (xp fp : list Q)
    (v : Q) :
  increasing xp -> xp <> [] -> length fp = length xp ->
  interp_value search xp fp v = Fin (interp_at xp fp v).
Proof.
  intros Hinc Hne Hlen.
  assert (Hfne : fp <> []) by (destruct fp, xp; done).
  destruct (last_is_Some xp Hne) as [xn Hxn]. destruct (last_is_Some fp Hfne) as [fn Hfn].
  destruct xp as [|x0 xp']; [done|]. destruct fp as [|f0 fp']; [done|].
  unfold interp_value. cbn [head]. rewrite Hxn, Hfn.
  destruct (Qle_bool v xn) eqn:Hv; cbn [negb].
  - destruct (Qle_bool x0 v) eqn:Hv'; cbn [negb].
    + by rewrite (proj2 (ascending_increasing _) Hinc).
    + apply Qle_bool_false in Hv'. f_equal. symmetry.
      apply (interp_at_below _ _ _ x0 f0); try done. lra.
  - apply Qle_bool_false in Hv. f_equal. symmetry.
    apply (interp_at_above _ _ _ xn fn); try done. lra.
Qed.

Lemma bins_interp_call (L : library) (m : model) (x xp fp : list Q) :
  m !! "name" = Some (PStr "bins_interp") ->
  m !! "x" = Some (PList xp) -> m !! "values" = Some (PList fp) ->
  xp <> [] -> length fp = length xp ->
  PriorAgeModel_call L m x =
    (Ok (FloatArray (map (interp_value (interp_search L) xp fp) x)), m).
Proof.
  intros Hname Hx Hvalues Hne Hlen.
  unfold PriorAgeModel_call, PriorModel_call, getitem.
  rewrite Hname, Hx, Hvalues. cbn [eq_str String.eqb Ascii.eqb Bool.eqb bind].
  unfold np_interp. rewrite Hlen, Nat.eqb_refl.
  destruct xp; [done|reflexivity].
Qed.

(** C6 (as the code has it). A [bins_interp] model returns [numpy.interp]
    of the samples on its control points, which are neither sorted nor
    checked. When the control points are listed in increasing order that
    is the piecewise-linear interpolant: the first control value at or
    below the first control point, the last control value at or above the
    last one (no extrapolation), and between two consecutive control
    points the value of the line through them. With control points
    [x = [1, 2, 3]], [values = [0, 10, 0]] the samples
    [[1, 1.5, 2, 2.5, 3]] give [[0, 5, 10, 5, 0]]. Whatever the order of
    the control points, a sample above the last point listed gets the
    last value listed, and otherwise a sample below the first point
    listed gets the first value listed. *)
Theorem bins_interp_piecewise_linear :
  (forall (L : library) (m : model) (x xp fp : list Q),
      m !! "name" = Some (PStr "bins_interp") ->
      m !! "x" = Some (PList xp) -> m !! "values" = Some (PList fp) ->
      xp <> [] -> length fp = length xp -> increasing xp ->
      PriorAgeModel_call L m x =
        (Ok (FloatArray (map (fun v => Fin (interp_at xp fp v)) x)), m))
  /\ (forall (xp fp : list Q) (v : Q),
        increasing xp -> length fp = length xp ->
        (forall a fa : Q,
            head xp = Some a -> head fp = Some fa -> v <= a ->
            interp_at xp fp v = fa)
        /\ (forall b fb : Q,
              last xp = Some b -> last fp = Some fb -> b <= v ->
              interp_at xp fp v = fb)
        /\ (forall (j : nat) (a b fa fb : Q),
              xp !! j = Some a -> xp !! S j = Some b ->
              fp !! j = Some fa -> fp !! S j = Some fb ->
              a <= v -> v <= b ->
              interp_at xp fp v == fa + (fb - fa) * ((v - a) / (b - a))))
  /\ (forall L : library,
        exists w : list fval,
          (PriorAgeModel_call L (interp [1; 2; 3] [0; 10; 0]) [1; 1.5; 2; 2.5; 3]).1
            = Ok (FloatArray w)
          /\ Forall2 feq w [Fin 0; Fin 5; Fin 10; Fin 5; Fin 0])
  /\ (forall (L : library) (m : model) (x xp fp : list Q) (x0 f0 xn fn : Q),
        m !! "name" = Some (PStr "bins_interp") ->
        m !! "x" = Some (PList xp) -> m !! "values" = Some (PList fp) ->
        length fp = length xp ->
        head xp = Some x0 -> head fp = Some f0 -> last xp = Some xn -> last fp = Some fn ->
        exists w : list fval,
          PriorAgeModel_call L m x = (Ok (FloatArray w), m)
          /\ length w = length x
          /\ forall (i : nat) (v : Q),
               x !! i = Some v ->
               (xn < v -> w !! i = Some (Fin fn))
               /\ (v <= xn -> v < x0 -> w !! i = Some (Fin f0))).
Proof.
  split; [|split; [|split]].
  - intros L m x xp fp Hname Hx Hvalues Hne Hlen Hinc.
    rewrite (bins_interp_call L m x xp fp) by done.
    do 3 f_equal. apply map_ext. intros v. by apply interp_value_increasing.
  - intros xp fp v Hinc Hlen. split; [|split].
    + intros a fa. by apply interp_at_below.
    + intros b fb. by apply interp_at_above.
    + intros j a b fa fb. by apply interp_at_between.
  - intros L. eexists. split; [reflexivity|].
    repeat constructor; reflexivity.
  - intros L m x xp fp x0 f0 xn fn Hname Hx Hvalues Hlen Hx0 Hf0 Hxn Hfn.
    exists (map (interp_value (interp_search L) xp fp) x). split; [|split].
    + apply bins_interp_call; try done. by destruct xp.
    + by rewrite length_map.
    + intros i v Hi.
      change (map (interp_value (interp_search L) xp fp) x)
        with (interp_value (interp_search L) xp fp <$> x).
      rewrite list_lookup_fmap, Hi. cbn [fmap option_fmap option_map].
      destruct (interp_value_ends (interp_search L) xp fp v x0 f0 xn fn) as [H1 H2];
        try done.
      split; [intros Hv; by rewrite H1|intros Hv1 Hv2; by rewrite H2].
Qed.

(** The hypotheses of C6 hold of the control points of the example, where
    the interpolant at 1.5 lies on the line from (1, 0) to (2, 10). *)
Lemma bins_interp_witness :
  increasing [1; 2; 3]
  /\ interp_at [1; 2; 3] [0; 10; 0] 1.5 == 0 + (10 - 0) * ((1.5 - 1) / (2 - 1)).
Proof.
  assert (Hinc : increasing [1; 2; 3]) by (simpl; repeat split; reflexivity).
  split; [exact Hinc|].
  apply (proj2 (proj2 (proj1 (proj2 bins_interp_piecewise_linear)
                         [1; 2; 3] [0; 10; 0] 1.5 Hinc eq_refl))
           0%nat 1 2 0 10); try reflexivity; discriminate.
Defined.

(** C6, as stated, fails on control points that are not listed in
    increasing order: with [x = [1, 3, 2]], [values = [0, 10, 20]] the
    sample 2.5 lies above the last point listed and gets its value, 20,
    where the interpolant through the same three control points, (1, 0),
    (2, 20) and (3, 10), gives 15. *)
Lemma bins_interp_unsorted :
  (forall L : library,
      (PriorAgeModel_call L (interp [1; 3; 2] [0; 10; 20]) [2.5]).1
        = Ok (FloatArray [Fin 20]))
  /\ interp_at [1; 2; 3] [0; 20; 10] 2.5 == 15.
Proof. split; [intros L|]; reflexivity. Qed.

(** ** Sorting the samples *)















(** ** Bin boundaries of an increasing array *)





(** ** The loop over the bins *)

Section MassLoop.

Variable quad : imf -> Q -> Q -> fval.
Variable f : imf.


End MassLoop.

(** ** The normalization *)

Lemma fold_fadd_Fin (r : list Q) :
  forall a : Q, fold_left fadd (map Fin r) (Fin a) = Fin (fold_left Qplus r a).
Proof. induction r as [|w r IH]; intros a; simpl; [done|apply IH]. Qed.

Lemma fold_Qplus_compat (r : list Q) :
  forall a b : Q, a == b -> fold_left Qplus r a == fold_left Qplus r b.
Proof.
  induction r as [|w r IH]; intros a b Hab; simpl; [done|].
  apply IH. by rewrite Hab.
Qed.

Lemma fold_Qplus_div (c : Q) (r : list Q) :
  forall a : Q,
    fold_left Qplus (map (fun w => w / c) r) (a / c) == fold_left Qplus r a / c.
Proof.
  induction r as [|w r IH]; intros a; simpl; [reflexivity|].
  rewrite <- IH. apply fold_Qplus_compat.
  unfold Qdiv. ring.
Qed.

Lemma div_scalar_Fin (r : list Q) (c : Q) :
  ~ c == 0 -> div_scalar (map Fin r) (Fin c) = map Fin (map (fun w => w / c) r).
Proof.
  intros Hc. unfold div_scalar. rewrite !map_map. apply map_ext. intros w.
  simpl. assert (Hb : Qeq_bool c 0 = false).
  { apply not_true_is_false. by rewrite Qeq_bool_iff. }
  by rewrite Hb.
Qed.



(** ** The mass prior *)






(** ** The [flat_log] prior *)

Lemma np_diff_positive (l : list Q) :
  increasing l ->
  exists ds : list Q,
    np_diff (map Fin l) = map Fin ds
    /\ Forall (fun d => 0 < d) ds /\ S (length ds) = length l `max` 1.
Proof.
  induction l as [|a [|b r] IH]; intros Hinc.
  - by exists [].
  - by exists [].
  - destruct Hinc as [Hab Hinc]. destruct (IH Hinc) as (ds & Hds & Hpos & Hlen).
    exists ((b - a) :: ds). split; [|split].
    + change (np_diff (map Fin (a :: b :: r)))
        with (fsub (Fin b) (Fin a) :: np_diff (map Fin (b :: r))).
      by rewrite Hds.
    + constructor; [cbv beta; lra|done].
    + cbn [length] in *. lia.
Qed.

Lemma fold_Qplus_positive (w : list Q) :
  Forall (fun v => 0 < v) w ->
  forall a : Q, 0 <= a -> a <= fold_left Qplus w a /\ (w <> [] -> 0 < fold_left Qplus w a).
Proof.
  induction 1 as [|v w Hv Hw IH]; intros a Ha; cbv beta in *.
  - split; [cbn; lra|done].
  - cbn [fold_left]. destruct (IH (a + v)) as [Hle _]; [lra|].
    split; [lra|]. intros _. lra.
Qed.

Lemma inverse_weights (ds : list Q) :
  Forall (fun d => 0 < d) ds ->
  map (fdiv (Fin 1)) (map Fin ds) = map Fin (map (fun d => 1 / d) ds)
  /\ Forall (fun v => 0 < v) (map (fun d => 1 / d) ds).
Proof.
  induction 1 as [|d ds Hd Hds [IH1 IH2]]; [by split|]. cbv beta in Hd.
  cbn [map]. split.
  - rewrite IH1. f_equal. cbn [fdiv].
    assert (Hb : Qeq_bool d 0 = false).
    { apply not_true_is_false. rewrite Qeq_bool_iff. lra. }
    by rewrite Hb.
  - constructor; [|done]. cbv beta. unfold Qdiv. rewrite Qmult_1_l.
    by apply Qinv_lt_0_compat.
Qed.

Lemma scaled_positive (s : Q) (ws : list Q) :
  0 < s -> Forall (fun v => 0 < v) ws -> Forall (fun v => 0 < v) (map (fun w => w / s) ws).
Proof.
  intros Hs. induction 1 as [|w ws Hw Hws IH]; [constructor|]. cbv beta in Hw.
  cbn [map]. constructor; [|done]. cbv beta.
  unfold Qdiv. apply Qmult_lt_0_compat; [done|by apply Qinv_lt_0_compat].
Qed.

(** X1. A [flat_log] age prior weights each sample by the inverse of the
    width of its bin in linear age, divided by the sum of these
    inverses: whenever the powers of ten of the bin boundaries are finite
    (none overflows), lie between 1e-100 and 1e100 and increase, there is
    one weight per bin, every weight is finite and positive, and the
    weights sum to 1. The specification is left as it was. *)
Theorem flat_log_sums_to_one (L : library) (m : model) (x bounds ps : list Q) :
  m !! "name" = Some (PStr "flat_log") ->
  compute_bin_boundaries x = Ok bounds -> (2 <= length bounds)%nat ->
  map (pow10 L) bounds = map Fin ps -> Forall moderate ps -> increasing ps ->
  exists w : list Q,
    PriorAgeModel_call L m x = (Ok (FloatArray (map Fin w)), m)
    /\ S (length w) = length bounds
    /\ Forall (fun v => 0 < v) w
    /\ fold_left Qplus w 0 == 1.
Proof.
  intros Hname Hbounds Hlen Hps _ Hinc.
  assert (Hpl : length ps = length bounds).
  { apply (f_equal length) in Hps. by rewrite !length_map in Hps. }
  destruct (np_diff_positive _ Hinc) as (ds & Hds & Hpos & Hdl).
  destruct (inverse_weights ds Hpos) as [Hweights Hwpos].
  set (ws := map (fun d => 1 / d) ds) in *.
  assert (Hne : ws <> []).
  { subst ws. destruct ds; [cbn in Hdl; lia|done]. }
  destruct (fold_Qplus_positive ws Hwpos 0) as [_ Hs]; [lra|]. specialize (Hs Hne).
  set (s := fold_left Qplus ws 0) in *.
  exists (map (fun w => w / s) ws). split; [|split; [|split]].
  - unfold PriorAgeModel_call, getitem. rewrite Hname.
    cbn [eq_str String.eqb Ascii.eqb Bool.eqb]. rewrite Hbounds. cbn [bind].
    rewrite Hps, Hds, Hweights. unfold np_sum. rewrite fold_fadd_Fin. fold s.
    rewrite div_scalar_Fin by lra. done.
  - subst ws. rewrite !length_map. lia.
  - by apply scaled_positive.
  - rewrite (fold_Qplus_compat _ 0 (0 / s)) by (field; lra).
    rewrite fold_Qplus_div. fold s. field. lra.
Qed.

Lemma flat_log_sums_to_one_witness :
  exists w : list Q,
    PriorAgeModel_call example_library (kind_only "flat_log") [6; 8; 10]
      = (Ok (FloatArray (map Fin w)), kind_only "flat_log")
    /\ S (length w) = length [10 # 2; 14 # 2; 18 # 2; 22 # 2]
    /\ Forall (fun v => 0 < v) w
    /\ fold_left Qplus w 0 == 1.
Proof.
  apply (flat_log_sums_to_one example_library (kind_only "flat_log") [6; 8; 10]
           [10 # 2; 14 # 2; 18 # 2; 22 # 2]
           (map (fun v => Qpower 10 (Qfloor v)) [10 # 2; 14 # 2; 18 # 2; 22 # 2])).
  - reflexivity.
  - vm_compute. reflexivity.
  - simpl. lia.
  - vm_compute. reflexivity.
  - repeat constructor; vm_compute; discriminate.
  - vm_compute. repeat split; reflexivity.
Defined.

(** ** Kinds at evaluation *)

(** X2. For dust, age, metallicity and distance a [flat] prior gives every
    sample the amplitude [amp] of the specification, 1 when it has none,
    whatever the samples are. *)
Theorem flat_prior_constant (quad : imf -> Q -> Q -> fval) (L : library) (q : quantity)
    (m : model) (x : list Q) (a : Q) :
  q <> Mass -> m !! "name" = Some (PStr "flat") -> default (PNum 1) (m !! "amp") = PNum a ->
  call quad L q m x = (Ok (FloatArray (repeat (Fin a) (length x))), m).
Proof.
  intros Hq Hname Hamp.
  assert (Hbase : PriorModel_call L m x = (Ok (FloatArray (repeat (Fin a) (length x))), m)).
  { unfold PriorModel_call, getitem. rewrite Hname.
    cbn [eq_str String.eqb Ascii.eqb Bool.eqb]. by rewrite Hamp. }
  destruct q; try done.
  unfold call, PriorAgeModel_call, getitem. rewrite Hname.
  cbn [eq_str String.eqb Ascii.eqb Bool.eqb]. exact Hbase.
Qed.

Lemma flat_prior_constant_witness :
  call quad_unit_density example_library Age (kind_only "flat") [6; 8; 10]
    = (Ok (FloatArray (repeat (Fin 1) (length [6; 8; 10]))), kind_only "flat").
Proof.
  apply flat_prior_constant; [discriminate|reflexivity|reflexivity].
Defined.

(** X3. The mass prior reads the kind of its specification and nothing else:
    two specifications of the same kind give the same weights, so the
    [amp] of a [flat] mass prior has no effect. *)
Theorem mass_prior_reads_kind_only (quad : imf -> Q -> Q -> fval) (m m' : model)
    (x : list Q) :
  m !! "name" = m' !! "name" ->
  (PriorMassModel_call quad m x).1 = (PriorMassModel_call quad m' x).1.
Proof.
  intros Hname. unfold PriorMassModel_call, mass_weights_raw, getitem. cbn [fst].
  by rewrite Hname.
Qed.

Lemma mass_prior_reads_kind_only_witness :
  (PriorMassModel_call quad_unit_density (<["amp" := PNum 5]> (kind_only "flat")) [4; 1; 2]).1
    = (PriorMassModel_call quad_unit_density (kind_only "flat") [4; 1; 2]).1.
Proof. apply mass_prior_reads_kind_only. reflexivity. Defined.

(** X4. Evaluation rejects the kinds it does not handle, by name, and leaves
    the specification as it was: for dust, metallicity and distance the
    kinds outside of [handled], for age those that are not [flat_log]
    either. The allow-list of the constructor is not looked at again. *)
Theorem unknown_kind_rejected (quad : imf -> Q -> Q -> fval) (L : library) (q : quantity)
    (m : model) (x : list Q) (kind : string) :
  q <> Mass -> m !! "name" = Some (PStr kind) -> kind ∉ "flat_log" :: handled ->
  call quad L q m x = (Raise (NotImplementedError (kind +:+ " is not an allowed model")), m).
Proof.
  intros Hq Hname Hkind.
  assert (Hne : forall k, k ∈ "flat_log" :: handled -> (kind =? k)%string = false).
  { intros k Hk. apply String.eqb_neq. intros ->. done. }
  assert (Hbase : PriorModel_call L m x
                  = (Raise (NotImplementedError (kind +:+ " is not an allowed model")), m)).
  { unfold PriorModel_call, getitem. rewrite Hname. cbn [eq_str].
    rewrite !Hne by (unfold handled; by repeat constructor). done. }
  destruct q; try done.
  unfold call, PriorAgeModel_call, getitem. rewrite Hname. cbn [eq_str].
  rewrite !Hne by (unfold handled; by repeat constructor). exact Hbase.
Qed.

Lemma unknown_kind_rejected_witness :
  call quad_unit_density example_library Dust (kind_only "salpeter") [6; 8; 10]
    = (Raise (NotImplementedError ("salpeter" +:+ " is not an allowed model")),
       kind_only "salpeter").
Proof.
  apply unknown_kind_rejected; [discriminate|reflexivity|].
  unfold handled. intros H.
  repeat (apply elem_of_cons in H as [H|H]; [discriminate H|]).
  by apply elem_of_nil in H.
Defined.

End PriorTheory.

(** * Properties of the grid backends *)

Module GridTheory.
Import Grid.
Local Open Scope st_scope.

(** ** File types *)

Lemma split_nonempty (sep : ascii) (s : string) : split sep s <> [].
Proof.
  destruct s as [|c r]; simpl; [done|].
  destruct (Ascii.eqb c sep); [done|]. by destruct (split sep r).
Qed.

Lemma last_cons_nonempty {A} (x : A) (l : list A) : l <> [] -> last (x :: l) = last l.
Proof. by destruct l. Qed.

(** A string without the separator is its own only segment. *)
Lemma split_no_sep (sep : ascii) (s : string) :
  has_char sep s = false -> split sep s = [s].
Proof.
  induction s as [|c r IH]; simpl; [done|].
  intros [Hc Hr]%orb_false_elim. rewrite Hc, (IH Hr). done.
Qed.

Lemma split_two_segments (sep : ascii) (a b : string) :
  exists (h : string) (t : list string),
    split sep (a +:+ String sep b) = h :: t /\ t <> [] /\ last t = last (split sep b).
Proof.
  induction a as [|c a (h & t & Heq & Hne & Hlast)]; simpl.
  - exists EmptyString, (split sep b). rewrite Ascii.eqb_refl.
    split; [done|]. split; [apply split_nonempty|done].
  - destruct (Ascii.eqb c sep).
    + exists EmptyString, (split sep (a +:+ String sep b)).
      split; [done|]. split; [apply split_nonempty|].
      rewrite Heq, last_cons_nonempty by done. done.
    + rewrite Heq. by exists (String c h), t.
Qed.

(** The extension is what follows the last dot. *)
Lemma extension_after_dot (base ext : string) :
  has_char "." ext = false -> extension (base +:+ "." +:+ ext) = ext.
Proof.
  intros Hext. unfold extension.
  destruct (split_two_segments "." base ext) as (h & t & Heq & Hne & Hlast).
  change ("." +:+ ext) with (String "." ext).
  rewrite Heq, last_cons_nonempty, Hlast, (split_no_sep _ _ Hext) by done. done.
Qed.

Lemma extension_no_dot (fname : string) :
  has_char "." fname = false -> extension fname = fname.
Proof. intros H. unfold extension. by rewrite (split_no_sep _ _ H). Qed.

(** The four recognized extensions, and nothing else. *)
Lemma types_lookup (ext : string) :
  types !! ext =
    if String.eqb ext "fits" then Some "fits"
    else if String.eqb ext "hdf" then Some "hdf"
    else if String.eqb ext "hd5" then Some "hdf"
    else if String.eqb ext "hdf5" then Some "hdf"
    else None.
Proof.
  unfold types. cbn [list_to_map foldr uncurry fst snd].
  destruct (String.eqb_spec ext "fits") as [->|?];
    [by rewrite lookup_insert_eq | rewrite lookup_insert_ne by done].
  destruct (String.eqb_spec ext "hdf") as [->|?];
    [by rewrite lookup_insert_eq | rewrite lookup_insert_ne by done].
  destruct (String.eqb_spec ext "hd5") as [->|?];
    [by rewrite lookup_insert_eq | rewrite lookup_insert_ne by done].
  destruct (String.eqb_spec ext "hdf5") as [->|?];
    [by rewrite lookup_insert_eq | rewrite lookup_insert_ne by done].
  apply lookup_empty.
Qed.

Lemma _get_type_extension (fname : string) :
  _get_type (VStr fname) = file_type (extension fname).
Proof.
  unfold _get_type, file_type. rewrite types_lookup.
  destruct (String.eqb (extension fname) "fits"); [done|].
  destruct (String.eqb (extension fname) "hdf"); [done|].
  destruct (String.eqb (extension fname) "hd5"); [done|].
  by destruct (String.eqb (extension fname) "hdf5").
Qed.

(** C8. The type of a file is decided by what follows the last dot of its
    name, compared as it is written: [fits] goes to the FITS writer,
    [hdf], [hd5] and [hdf5] go to the HDF writer of the realization, and
    with any other extension [write] raises the [ValueError]
    "<extension> file type not supported", whatever the realization and
    without touching the heap or the disk; so it does for "model.xyz", and
    for "model.FITS". *)
Theorem write_dispatch_on_extension :
  (forall base ext : string,
      has_char "." ext = false -> extension (base +:+ "." +:+ ext) = ext)
  /\ (forall fname : string, _get_type (VStr fname) = file_type (extension fname))
  /\ (forall (S : hdfstore) (self : value) (fname : string) (st : state),
        extension fname = "fits" ->
        write S self (VStr fname) st = writeFITS self (VStr fname) false st)
  /\ (forall (S : hdfstore) (self : value) (fname : string) (st : state),
        extension fname ∈ ["hdf"; "hd5"; "hdf5"] ->
        write S self (VStr fname) st =
          (cls <- class_of self;;
           match cls with
           | HDFBackend => HDFBackend_writeHDF S self (VStr fname) false
           | _ => writeHDF S self (VStr fname) false
           end) st)
  /\ (forall (S : hdfstore) (self : value) (fname : string) (st : state),
        extension fname ∉ ["fits"; "hdf"; "hd5"; "hdf5"] ->
        write S self (VStr fname) st =
          (Raise (ValueError (extension fname +:+ " file type not supported")), st))
  /\ (forall (S : hdfstore) (self : value) (st : state),
        write S self (VStr "model.xyz") st =
          (Raise (ValueError "xyz file type not supported"), st)
        /\ write S self (VStr "model.FITS") st =
          (Raise (ValueError "FITS file type not supported"), st)).
Proof.
  split; [exact extension_after_dot|]. split; [exact _get_type_extension|].
  split; [|split; [|split]].
  - intros S self fname st Hext. unfold write.
    rewrite _get_type_extension, Hext. reflexivity.
  - intros S self fname st Hext. unfold write. rewrite _get_type_extension.
    repeat (apply elem_of_cons in Hext as [->|Hext]; [reflexivity|]).
    by apply elem_of_nil in Hext.
  - intros S self fname st Hext. unfold write. rewrite _get_type_extension.
    unfold file_type.
    destruct (String.eqb_spec (extension fname) "fits") as [He|_];
      [exfalso; apply Hext; rewrite He; set_solver|].
    destruct (String.eqb_spec (extension fname) "hdf") as [He|_];
      [exfalso; apply Hext; rewrite He; set_solver|].
    destruct (String.eqb_spec (extension fname) "hd5") as [He|_];
      [exfalso; apply Hext; rewrite He; set_solver|].
    destruct (String.eqb_spec (extension fname) "hdf5") as [He|_];
      [exfalso; apply Hext; rewrite He; set_solver|].
    reflexivity.
  - intros S self st. split; reflexivity.
Qed.

(** ** The heap *)

Lemma lookup_at_end (h : list obj) (o : obj) (t : list obj) :
  (h ++ o :: t) !! length h = Some o.
Proof. by apply list_lookup_middle. Qed.

Lemma insert_at_end (h : list obj) (o o' : obj) (t : list obj) :
  <[length h := o']> (h ++ o :: t) = h ++ o' :: t.
Proof.
  replace (length h) with (length h + 0)%nat by lia. by rewrite insert_app_r.
Qed.

Lemma lookup_after_end (h : list obj) (o1 o2 : obj) (t : list obj) :
  (h ++ o1 :: o2 :: t) !! S (length h) = Some o2.
Proof.
  rewrite lookup_app_r by lia.
  by replace (S (length h) - length h)%nat with 1%nat by lia.
Qed.

Lemma insert_after_end (h : list obj) (o1 o2 o' : obj) (t : list obj) :
  <[S (length h) := o']> (h ++ o1 :: o2 :: t) = h ++ o1 :: o' :: t.
Proof.
  replace (S (length h)) with (length h + 1)%nat by lia. by rewrite insert_app_r.
Qed.

(** ** Stepping through a method *)

Lemma mbind_ok {A B} (c : M A) (k : A -> M B) (st st' : state) (a : A) :
  c st = (Ok a, st') -> mbind c k st = k a st'.
Proof. unfold mbind. by intros ->. Qed.

Lemma mbind_raise {A B} (c : M A) (k : A -> M B) (st st' : state) (e : exn) :
  c st = (Raise e, st') -> mbind c k st = (Raise e, st').
Proof. unfold mbind. by intros ->. Qed.

(** The instance at the end of the heap, possibly followed by objects
    made after it. *)
Section AtEnd.

Variables (h : list obj) (cls : class) (attrs : gmap string value) (t : list obj).
Variable d : gmap string file.

Lemma class_of_end :
  class_of (VRef (length h)) {| heap := h ++ Instance cls attrs :: t; disk := d |}
    = (Ok cls, {| heap := h ++ Instance cls attrs :: t; disk := d |}).
Proof. unfold class_of, mbind, deref. cbn [heap]. by rewrite lookup_at_end. Qed.

Lemma getattr_raw_end (name : string) (v : value) :
  attrs !! name = Some v ->
  getattr_raw (VRef (length h)) name {| heap := h ++ Instance cls attrs :: t; disk := d |}
    = (Ok v, {| heap := h ++ Instance cls attrs :: t; disk := d |}).
Proof.
  intros Hv. unfold getattr_raw, mbind, deref. cbn [heap].
  by rewrite lookup_at_end, Hv.
Qed.

Lemma setattr_raw_end (name : string) (v : value) :
  setattr_raw (VRef (length h)) name v {| heap := h ++ Instance cls attrs :: t; disk := d |}
    = (Ok tt, {| heap := h ++ Instance cls (<[name := v]> attrs) :: t; disk := d |}).
Proof.
  unfold setattr_raw, mbind, deref, update. cbn [heap disk].
  rewrite lookup_at_end. cbn [heap disk]. by rewrite insert_at_end.
Qed.

End AtEnd.

Lemma setattr_plain_end (h : list obj) (cls : class) (attrs : gmap string value)
    (t : list obj) (d : gmap string file) (name : string) (v : value) :
  name ∈ plain -> cls <> CacheBackend ->
  setattr (VRef (length h)) name v {| heap := h ++ Instance cls attrs :: t; disk := d |}
    = (Ok tt, {| heap := h ++ Instance cls (<[name := v]> attrs) :: t; disk := d |}).
Proof.
  intros Hn Hc. unfold setattr. rewrite (mbind_ok _ _ _ _ _ (class_of_end _ _ _ _ _)).
  rewrite <- setattr_raw_end. unfold plain in Hn.
  repeat (apply elem_of_cons in Hn as [->|Hn]; [by destruct cls|]).
  by apply elem_of_nil in Hn.
Qed.

Lemma alloc_end (h t : list obj) (d : gmap string file) (o : obj) :
  alloc o {| heap := h ++ t; disk := d |}
    = (Ok (VRef (length h + length t)), {| heap := h ++ t ++ [o]; disk := d |}).
Proof. unfold alloc. cbn [heap disk]. by rewrite length_app, app_assoc. Qed.

Lemma deref_old (h t : list obj) (d : gmap string file) (l : loc) (o : obj) :
  h !! l = Some o ->
  deref (VRef l) {| heap := h ++ t; disk := d |} = (Ok (Some o), {| heap := h ++ t; disk := d |}).
Proof. intros Hl. unfold deref. cbn [heap]. by rewrite (lookup_app_l_Some _ _ _ _ Hl). Qed.

Lemma deref_after_end (h : list obj) (o1 o2 : obj) (t : list obj) (d : gmap string file) :
  deref (VRef (S (length h))) {| heap := h ++ o1 :: o2 :: t; disk := d |}
    = (Ok (Some o2), {| heap := h ++ o1 :: o2 :: t; disk := d |}).
Proof. unfold deref. cbn [heap]. by rewrite lookup_after_end. Qed.

Tactic Notation "step" uconstr(lem) := erewrite (mbind_ok _ _ _ _ _ lem); cbv beta.
Tactic Notation "step_by" tactic3(tac) := erewrite mbind_ok; [|solve [tac]]; cbv beta.

Lemma GridBackend_init_end (h : list obj) (cls : class) (d : gmap string file) :
  GridBackend_init (VRef (length h)) {| heap := h ++ [Instance cls ∅]; disk := d |}
    = (Ok tt,
       {| heap := h ++ [Instance cls
                          (<["_aliases" := VRef (S (length h))]>
                             (<["fname" := VNone]>
                                (<["_header" := VNone]> (<["_filters" := VNone]> ∅))));
                        Dict ∅];
          disk := d |}).
Proof.
  unfold GridBackend_init.
  step (setattr_raw_end _ _ _ _ _ _ _).
  step (setattr_raw_end _ _ _ _ _ _ _).
  step (setattr_raw_end _ _ _ _ _ _ _).
  step (alloc_end _ _ _ _).
  cbn [length app]. rewrite Nat.add_1_r.
  apply setattr_raw_end.
Qed.

Lemma alloc_fresh (h : list obj) (d : gmap string file) (o : obj) :
  alloc o {| heap := h; disk := d |} = (Ok (VRef (length h)), {| heap := h ++ [o]; disk := d |}).
Proof. reflexivity. Qed.

(** What [lamb] refers to when it is taken as an array: nothing, or an
    object of the heap that is not a backend. *)
Lemma from_arrays_deref (h t : list obj) (d : gmap string file) (lamb : value) :
  from_arrays {| heap := h; disk := d |} lamb = true ->
  exists o : option obj,
    deref lamb {| heap := h ++ t; disk := d |} = (Ok o, {| heap := h ++ t; disk := d |})
    /\ forall (X : Type) (hdfb inst file arrays : X),
        match o, lamb with
        | Some (Instance HDFBackend _), _ => hdfb
        | Some (Instance _ _), _ => inst
        | _, (VStr _ | VBytes _) => file
        | _, _ => arrays
        end = arrays.
Proof.
  intros Hl. destruct lamb as [| | |l]; simpl in Hl; try discriminate.
  - by exists None.
  - destruct (h !! l) as [o|] eqn:Hlook; [|discriminate].
    exists (Some o). split; [by apply deref_old|].
    intros. by destruct o.
Qed.

Lemma dict_entries_old (h t : list obj) (d : gmap string file) (l : loc)
    (m : gmap string value) (attr : string) :
  h !! l = Some (Dict m) ->
  dict_entries (VRef l) attr {| heap := h ++ t; disk := d |}
    = (Ok m, {| heap := h ++ t; disk := d |}).
Proof.
  intros Hl. unfold dict_entries. by rewrite (mbind_ok _ _ _ _ _ (deref_old _ _ _ _ _ Hl)).
Qed.

(** C10. A [MemoryBackend] made from arrays (the first argument is neither
    a file name nor a backend, and [seds] and [grid] are given) is made
    without an error whatever the two covariance arguments are. It keeps
    a covariance term only when both are given: each attribute holds the
    argument when both arguments are not [None], and [None] otherwise, so
    that one is [None] exactly when the other is, and both are [None] as
    soon as one argument is [None]. *)
Theorem MemoryBackend_covariance (st : state)
    (lamb seds grid cov_diag cov_offdiag header : value)
    (a : loc) (entries : gmap string value) :
  from_arrays st lamb = true -> is_none seds = false -> is_none grid = false ->
  heap st !! a = Some (Dict entries) ->
  exists (st' : state) (attrs : gmap string value),
    MemoryBackend_new lamb seds grid cov_diag cov_offdiag header (VRef a) st
      = (Ok (VRef (length (heap st))), st')
    /\ heap st' !! length (heap st) = Some (Instance MemoryBackend attrs)
    /\ attrs !! "lamb" = Some lamb /\ attrs !! "seds" = Some seds
    /\ attrs !! "grid" = Some grid
    /\ attrs !! "cov_diag" = Some (kept_cov cov_diag cov_offdiag cov_diag)
    /\ attrs !! "cov_offdiag" = Some (kept_cov cov_diag cov_offdiag cov_offdiag)
    /\ (kept_cov cov_diag cov_offdiag cov_diag = VNone
        <-> kept_cov cov_diag cov_offdiag cov_offdiag = VNone)
    /\ (is_none cov_diag = true \/ is_none cov_offdiag = true ->
        attrs !! "cov_diag" = Some VNone /\ attrs !! "cov_offdiag" = Some VNone)
    /\ attrs !! "_header" = Some header
    /\ disk st' = disk st.
Proof.
  intros Hl Hs Hg Ha. destruct st as [h d]. cbn [heap disk] in *.
  assert (Hiff : kept_cov cov_diag cov_offdiag cov_diag = VNone
                 <-> kept_cov cov_diag cov_offdiag cov_offdiag = VNone).
  { unfold kept_cov. destruct cov_diag, cov_offdiag; simpl; split; congruence. }
  assert (Hone : is_none cov_diag = true \/ is_none cov_offdiag = true ->
                 kept_cov cov_diag cov_offdiag cov_diag = VNone
                 /\ kept_cov cov_diag cov_offdiag cov_offdiag = VNone).
  { unfold kept_cov. intros [->| ->]; by rewrite ?andb_false_r. }
  set (attrs :=
         <["fname" := VStr ":memory:"]>
           (<["_header" := header]>
              (<["cov_offdiag" := kept_cov cov_diag cov_offdiag cov_offdiag]>
                 (<["cov_diag" := kept_cov cov_diag cov_offdiag cov_diag]>
                    (<["grid" := grid]>
                       (<["seds" := seds]>
                          (<["lamb" := lamb]> (init_attrs (length h))))))))).
  exists (Build_state (h ++ [Instance MemoryBackend attrs; Dict (entries ∪ ∅)]) d), attrs.
  split.
  { unfold MemoryBackend_new.
    step (alloc_fresh _ _ _).
    erewrite (mbind_ok _ _ _ _ tt); [reflexivity|].
    unfold MemoryBackend_init.
    step (GridBackend_init_end _ _ _). fold (init_attrs (length h)).
    destruct (from_arrays_deref h [Instance MemoryBackend (init_attrs (length h)); Dict ∅]
                d lamb Hl) as (o & Hderef & Hbranch).
    step Hderef. rewrite Hbranch. rewrite Hs, Hg. cbn [orb].
    erewrite (mbind_ok _ _ _
                {| heap := h ++ [Instance MemoryBackend
                                   (<["cov_offdiag" := kept_cov cov_diag cov_offdiag cov_offdiag]>
                                      (<["cov_diag" := kept_cov cov_diag cov_offdiag cov_diag]>
                                         (<["grid" := grid]>
                                            (<["seds" := seds]>
                                               (<["lamb" := lamb]> (init_attrs (length h)))))));
                                 Dict ∅];
                   disk := d |} tt).
    2:{ step_by (apply setattr_plain_end; [by repeat constructor|done]).
        step_by (apply setattr_plain_end; [by repeat constructor|done]).
        step_by (apply setattr_plain_end; [by repeat constructor|done]).
        unfold kept_cov.
        destruct (negb (is_none cov_diag) && negb (is_none cov_offdiag)).
        - step_by (apply setattr_plain_end; [by repeat constructor|done]).
          apply setattr_plain_end; [by repeat constructor|done].
        - step_by (apply setattr_plain_end; [by repeat constructor|done]).
          apply setattr_plain_end; [by repeat constructor|done]. }
    cbv beta.
    step_by (by apply getattr_raw_end).
    cbn [is_none].
    step (setattr_raw_end _ _ _ _ _ _ _).
    step_by (by apply getattr_raw_end).
    step (deref_after_end _ _ _ _ _). cbv beta iota.
    erewrite (mbind_ok _ _ _ _ tt); [apply setattr_raw_end|].
    step (dict_entries_old _ _ _ _ _ _ Ha).
    unfold update. cbn [heap disk]. by rewrite insert_after_end. }
  split; [apply lookup_at_end|].
  subst attrs. unfold init_attrs.
  do 5 (split; [by simplify_map_eq|]).
  split; [exact Hiff|].
  split; [|split; [by simplify_map_eq|done]].
  intros H. destruct (Hone H) as [H1 H2]. simplify_map_eq. by rewrite H1, H2.
Qed.

Lemma MemoryBackend_covariance_witness :
  exists (st' : state) (attrs : gmap string value),
    MemoryBackend_new (VRef 0) (VRef 1) (VRef 3) (VRef 5) VNone (VRef 2) (VRef 4) example_state
      = (Ok (VRef (length (heap example_state))), st')
    /\ heap st' !! length (heap example_state) = Some (Instance MemoryBackend attrs)
    /\ attrs !! "lamb" = Some (VRef 0) /\ attrs !! "seds" = Some (VRef 1)
    /\ attrs !! "grid" = Some (VRef 3)
    /\ attrs !! "cov_diag" = Some (kept_cov (VRef 5) VNone (VRef 5))
    /\ attrs !! "cov_offdiag" = Some (kept_cov (VRef 5) VNone VNone)
    /\ (kept_cov (VRef 5) VNone (VRef 5) = VNone <-> kept_cov (VRef 5) VNone VNone = VNone)
    /\ (is_none (VRef 5) = true \/ is_none VNone = true ->
        attrs !! "cov_diag" = Some VNone /\ attrs !! "cov_offdiag" = Some VNone)
    /\ attrs !! "_header" = Some (VRef 2)
    /\ disk st' = disk example_state.
Proof.
  exact (MemoryBackend_covariance example_state (VRef 0) (VRef 1) (VRef 3) (VRef 5) VNone
           (VRef 2) 4 ∅ eq_refl eq_refl eq_refl eq_refl).
Defined.

(** ** An instance anywhere on the heap *)

Section At.

Variables (st : state) (l : loc) (cls : class) (attrs : gmap string value).
Hypothesis Hself : heap st !! l = Some (Instance cls attrs).

Lemma class_of_at : class_of (VRef l) st = (Ok cls, st).
Proof. unfold class_of, mbind, deref. by rewrite Hself. Qed.

Lemma getattr_raw_at (name : string) (v : value) :
  attrs !! name = Some v -> getattr_raw (VRef l) name st = (Ok v, st).
Proof. intros Hv. unfold getattr_raw, mbind, deref. by rewrite Hself, Hv. Qed.

Lemma getattr_raw_missing (name : string) :
  attrs !! name = None ->
  getattr_raw (VRef l) name st
    = (Raise (AttributeError ("object has no attribute '" +:+ name +:+ "'")), st).
Proof. intros Hv. unfold getattr_raw, mbind, deref. by rewrite Hself, Hv. Qed.

Lemma setattr_raw_at (name : string) (v : value) :
  setattr_raw (VRef l) name v st
    = (Ok tt, {| heap := <[l := Instance cls (<[name := v]> attrs)]> (heap st);
                 disk := disk st |}).
Proof. unfold setattr_raw, mbind, deref. by rewrite Hself. Qed.

(** Outside of [CacheBackend] the five data attributes are plain ones. *)
Lemma getattr_plain_at (name : string) :
  name ∈ plain -> cls <> CacheBackend ->
  getattr (VRef l) name st = getattr_raw (VRef l) name st.
Proof.
  intros Hn Hc. unfold getattr. rewrite (mbind_ok _ _ _ _ _ class_of_at).
  unfold plain in Hn.
  repeat (apply elem_of_cons in Hn as [->|Hn]; [by destruct cls|]).
  by apply elem_of_nil in Hn.
Qed.

Lemma getattr_at (name : string) (v : value) :
  name ∈ plain -> cls <> CacheBackend -> attrs !! name = Some v ->
  getattr (VRef l) name st = (Ok v, st).
Proof. intros Hn Hc Hv. rewrite getattr_plain_at by done. by apply getattr_raw_at. Qed.

Lemma full_data_set_at (lamb seds grid : value) :
  cls <> CacheBackend ->
  attrs !! "lamb" = Some lamb -> attrs !! "seds" = Some seds -> attrs !! "grid" = Some grid ->
  full_data_set (VRef l) st
    = (Ok (negb (is_none lamb) && negb (is_none seds) && negb (is_none grid)), st).
Proof.
  intros Hc Hl Hs Hg. unfold full_data_set.
  step_by (apply getattr_at; [by repeat constructor|done|done]).
  step_by (apply getattr_at; [by repeat constructor|done|done]).
  step_by (apply getattr_at; [by repeat constructor|done|done]).
  done.
Qed.

End At.

(** ** Reading the objects of a grid *)

Lemma deref_at (st : state) (l : loc) (o : obj) :
  heap st !! l = Some o -> deref (VRef l) st = (Ok (Some o), st).
Proof. intros Hl. unfold deref. by rewrite Hl. Qed.

Lemma is_table_at (st : state) (l : loc) (cols : columns) (meta : value) :
  heap st !! l = Some (Table cols meta) -> is_table (VRef l) st = (Ok true, st).
Proof. intros Hl. unfold is_table. by rewrite (mbind_ok _ _ _ _ _ (deref_at _ _ _ Hl)). Qed.

Lemma array_data_at (st : state) (l : loc) (a : array) :
  heap st !! l = Some (Ndarray a) -> array_data (VRef l) st = (Ok a, st).
Proof. intros Hl. unfold array_data. by rewrite (mbind_ok _ _ _ _ _ (deref_at _ _ _ Hl)). Qed.

Lemma slice_all_array (S : hdfstore) (st : state) (l : loc) (a : array) :
  heap st !! l = Some (Ndarray a) -> slice_all S (VRef l) st = (Ok (VRef l), st).
Proof. intros Hl. unfold slice_all. by rewrite (mbind_ok _ _ _ _ _ (deref_at _ _ _ Hl)). Qed.

Lemma table_contents_at (st : state) (l ml : loc) (cols : columns) (m : gmap string value) :
  heap st !! l = Some (Table cols (VRef ml)) -> heap st !! ml = Some (Dict m) ->
  table_contents (VRef l) st = (Ok (cols, m), st).
Proof.
  intros Hl Hm. unfold table_contents.
  rewrite (mbind_ok _ _ _ _ _ (deref_at _ _ _ Hl)).
  by rewrite (mbind_ok _ _ _ _ _ (deref_at _ _ _ Hm)).
Qed.

Lemma optional_image_none (st : state) (l : loc) (cls : class) (attrs : gmap string value)
    (name : string) :
  heap st !! l = Some (Instance cls attrs) -> name ∈ plain -> cls <> CacheBackend ->
  attrs !! name = Some VNone ->
  optional_image (VRef l) name st = (Ok None, st).
Proof.
  intros Hl Hn Hc Hv. unfold optional_image.
  by rewrite (mbind_ok _ _ _ _ _ (getattr_at _ _ _ _ Hl _ _ Hn Hc Hv)).
Qed.

Lemma optional_dataset_none (S : hdfstore) (st : state) (l : loc) (cls : class)
    (attrs : gmap string value) (fname attr name : string) :
  heap st !! l = Some (Instance cls attrs) -> attr ∈ plain -> cls <> CacheBackend ->
  attrs !! attr = Some VNone ->
  optional_dataset S (VRef l) fname attr name st = (Ok tt, st).
Proof.
  intros Hl Hn Hc Hv. unfold optional_dataset.
  by rewrite (mbind_ok _ _ _ _ _ (getattr_at _ _ _ _ Hl _ _ Hn Hc Hv)).
Qed.

Section Write.

Variables (S : hdfstore) (st : state) (l : loc) (cls : class) (attrs : gmap string value).
Variables (lamb seds grid : value).
Hypothesis Hself : heap st !! l = Some (Instance cls attrs).
Hypothesis Hcls : cls <> CacheBackend.
Hypothesis Hlamb : attrs !! "lamb" = Some lamb.
Hypothesis Hseds : attrs !! "seds" = Some seds.
Hypothesis Hgrid : attrs !! "grid" = Some grid.

Lemma incomplete_writeFITS (fname : value) (overwrite : bool) :
  is_none lamb || is_none seds || is_none grid = true ->
  writeFITS (VRef l) fname overwrite st = (Raise incomplete, st).
Proof.
  intros Hnone. unfold writeFITS.
  step (full_data_set_at _ _ _ _ Hself _ _ _ Hcls Hlamb Hseds Hgrid).
  by destruct (is_none lamb), (is_none seds), (is_none grid).
Qed.

Lemma incomplete_writeHDF (fname : value) (append : bool) :
  is_none lamb || is_none seds || is_none grid = true ->
  writeHDF S (VRef l) fname append st = (Raise incomplete, st).
Proof.
  intros Hnone. unfold writeHDF.
  step (full_data_set_at _ _ _ _ Hself _ _ _ Hcls Hlamb Hseds Hgrid).
  by destruct (is_none lamb), (is_none seds), (is_none grid).
Qed.

Lemma incomplete_HDFBackend_writeHDF (fname : value) (append : bool) :
  is_none lamb || is_none seds || is_none grid = true ->
  HDFBackend_writeHDF S (VRef l) fname append st = (Ok tt, st).
Proof.
  intros Hnone. unfold HDFBackend_writeHDF.
  step (full_data_set_at _ _ _ _ Hself _ _ _ Hcls Hlamb Hseds Hgrid).
  by destruct (is_none lamb), (is_none seds), (is_none grid).
Qed.

Lemma not_a_table_writeFITS (fname : value) (overwrite : bool) :
  is_none lamb || is_none seds || is_none grid = false ->
  is_table grid st = (Ok false, st) ->
  writeFITS (VRef l) fname overwrite st = (Raise not_a_table, st).
Proof.
  intros Hnone Ht. unfold writeFITS.
  step (full_data_set_at _ _ _ _ Hself _ _ _ Hcls Hlamb Hseds Hgrid).
  destruct (is_none lamb), (is_none seds), (is_none grid); try discriminate.
  cbn [negb andb].
  step_by (apply (getattr_at _ _ _ _ Hself); [by repeat constructor|done|done]).
  by step Ht.
Qed.

Lemma not_a_table_writeHDF (fname : value) (append : bool) :
  is_none lamb || is_none seds || is_none grid = false ->
  is_table grid st = (Ok false, st) ->
  writeHDF S (VRef l) fname append st = (Raise not_a_table, st).
Proof.
  intros Hnone Ht. unfold writeHDF.
  step (full_data_set_at _ _ _ _ Hself _ _ _ Hcls Hlamb Hseds Hgrid).
  destruct (is_none lamb), (is_none seds), (is_none grid); try discriminate.
  cbn [negb andb].
  step_by (apply (getattr_at _ _ _ _ Hself); [by repeat constructor|done|done]).
  by step Ht.
Qed.

End Write.

Section WriteWithoutCov.

Variables (S : hdfstore) (st : state) (l : loc) (cls : class) (attrs : gmap string value).
Variables (ll sl gl ml : loc) (la sa : array) (cols : columns) (m : gmap string value).
Hypothesis Hself : heap st !! l = Some (Instance cls attrs).
Hypothesis Hcls : cls <> CacheBackend.
Hypothesis Hlamb : attrs !! "lamb" = Some (VRef ll).
Hypothesis Hseds : attrs !! "seds" = Some (VRef sl).
Hypothesis Hgrid : attrs !! "grid" = Some (VRef gl).
Hypothesis Hcd : attrs !! "cov_diag" = Some VNone.
Hypothesis Hco : attrs !! "cov_offdiag" = Some VNone.
Hypothesis Hla : heap st !! ll = Some (Ndarray la).
Hypothesis Hsa : heap st !! sl = Some (Ndarray sa).
Hypothesis Hta : heap st !! gl = Some (Table cols (VRef ml)).

Lemma writeFITS_without_cov (name : string) (overwrite : bool) :
  heap st !! ml = Some (Dict m) ->
  present (disk st !! name) && negb overwrite = false ->
  writeFITS (VRef l) (VStr name) overwrite st
    = (Ok tt,
       {| heap := heap st;
          disk := <[name := FitsFile {| primary := la;
                                        seds_hdu := Some sa;
                                        covdiag_hdu := None;
                                        covoffdiag_hdu := None;
                                        table_hdu := Some ("GRID", cols, header_cards m) |}]>
                    (disk st) |}).
Proof.
  intros Hm Hnew. unfold writeFITS.
  step (full_data_set_at _ _ _ _ Hself _ _ _ Hcls Hlamb Hseds Hgrid). cbn [is_none negb andb].
  step_by (apply (getattr_at _ _ _ _ Hself); [by repeat constructor|done|done]).
  step (is_table_at _ _ _ _ Hta). cbn [negb].
  step_by (apply (getattr_at _ _ _ _ Hself); [by repeat constructor|done|done]).
  step (array_data_at _ _ _ Hla).
  step_by (apply (getattr_at _ _ _ _ Hself); [by repeat constructor|done|done]).
  step (array_data_at _ _ _ Hsa).
  step_by (apply (optional_image_none _ _ _ _ _ Hself); [by repeat constructor|done|done]).
  step_by (apply (optional_image_none _ _ _ _ _ Hself); [by repeat constructor|done|done]).
  step_by (apply (getattr_at _ _ _ _ Hself); [by repeat constructor|done|done]).
  step (table_contents_at _ _ _ _ _ Hta Hm).
  unfold writeto, mbind, read_disk, write_disk. by rewrite Hnew.
Qed.

End WriteWithoutCov.

Lemma dict_get_at (st : state) (l : loc) (m : gmap string value) (k : string) :
  heap st !! l = Some (Dict m) -> dict_get (VRef l) k st = (Ok (default VNone (m !! k)), st).
Proof. intros Hl. unfold dict_get. by rewrite (mbind_ok _ _ _ _ _ (deref_at _ _ _ Hl)). Qed.

Lemma dict_entries_at (st : state) (l : loc) (m : gmap string value) (attr : string) :
  heap st !! l = Some (Dict m) -> dict_entries (VRef l) attr st = (Ok m, st).
Proof. intros Hl. unfold dict_entries. by rewrite (mbind_ok _ _ _ _ _ (deref_at _ _ _ Hl)). Qed.

(** A header that names no filters gives a [MemoryBackend] without filters. *)
Lemma MemoryBackend_filters_none (st : state) (l hl : loc) (cls : class)
    (attrs hm : gmap string value) :
  heap st !! l = Some (Instance cls attrs) -> attrs !! "_header" = Some (VRef hl) ->
  heap st !! hl = Some (Dict hm) -> hm !! "filters" = None -> hm !! "FILTERS" = None ->
  MemoryBackend_filters (VRef l) st = (Ok VNone, st).
Proof.
  intros Hself Hh Hhm Hf1 Hf2. unfold MemoryBackend_filters.
  step (getattr_raw_at _ _ _ _ Hself _ _ Hh).
  step (dict_get_at _ _ _ _ Hhm).
  step (getattr_raw_at _ _ _ _ Hself _ _ Hh).
  step (dict_get_at _ _ _ _ Hhm).
  by rewrite Hf1, Hf2.
Qed.

Lemma h5_setitem_at (st : state) (name ds : string) (f : hdf) (a : array) :
  disk st !! name = Some (HdfFile f) ->
  h5_setitem name ds a st
    = (Ok tt,
       {| heap := heap st;
          disk := <[name := HdfFile {| datasets := <[ds := a]> (datasets f);
                                       grid_table := grid_table f |}]> (disk st) |}).
Proof. intros Hf. unfold h5_setitem, mbind, read_disk. by rewrite Hf. Qed.

Lemma getattr_filters_MemoryBackend (st : state) (l : loc) (attrs : gmap string value) :
  heap st !! l = Some (Instance MemoryBackend attrs) ->
  getattr (VRef l) "filters" st = MemoryBackend_filters (VRef l) st.
Proof. intros Hl. unfold getattr. by rewrite (mbind_ok _ _ _ _ _ (class_of_at _ _ _ _ Hl)). Qed.

(** [GridBackend] and [MemoryBackend] use the [header] of [GridBackend]. *)
Lemma getattr_header_at (st : state) (l : loc) (cls : class) (attrs : gmap string value)
    (v : value) :
  heap st !! l = Some (Instance cls attrs) -> cls <> CacheBackend -> cls <> HDFBackend ->
  attrs !! "_header" = Some v ->
  getattr (VRef l) "header" st = (Ok v, st).
Proof.
  intros Hl Hc Hh Hv. unfold getattr. rewrite (mbind_ok _ _ _ _ _ (class_of_at _ _ _ _ Hl)).
  destruct cls; try done; by apply (getattr_raw_at _ _ _ _ Hl).
Qed.

Lemma set_table_meta_dict (st : state) (l hl : loc) (cols : columns) (meta : value)
    (hm : gmap string value) :
  heap st !! l = Some (Table cols meta) -> heap st !! hl = Some (Dict hm) ->
  set_table_meta (VRef l) (VRef hl) st
    = (Ok tt, {| heap := <[l := Table cols (VRef hl)]> (heap st); disk := disk st |}).
Proof.
  intros Hl Hh. unfold set_table_meta.
  rewrite (mbind_ok _ _ _ _ _ (deref_at _ _ _ Hl)). cbn [is_none].
  by rewrite (mbind_ok _ _ _ _ _ (deref_at _ _ _ Hh)).
Qed.

(** Replacing an object leaves the objects of the other locations. *)
Lemma lookup_insert_other (h : list obj) (l l' : loc) (o o' o'' : obj) :
  h !! l = Some o -> h !! l' = Some o' -> o <> o' -> <[l' := o'']> h !! l = Some o.
Proof.
  intros Hl Hl' Hne. rewrite list_lookup_insert_ne; [done|].
  intros ->. congruence.
Qed.

Lemma lookup_insert_same (h : list obj) (l : loc) (o o' : obj) :
  h !! l = Some o -> <[l := o']> h !! l = Some o'.
Proof. intros Hl. apply list_lookup_insert_eq. by eapply lookup_lt_Some. Qed.

(** The table writer stores the entries that are plain texts under plain
    names as they are, in their order, whatever the library. *)
Lemma write_attrs_text (S : hdfstore) (name : string) (ds : gmap string array)
    (cols : columns) (entries : list (string * value)) :
  Forall (fun p : string * value => plain_key p.1 && plain_text p.2 = true) entries ->
  forall (acc : list (string * value)) (st : state),
    disk st !! name = Some (HdfFile {| datasets := ds; grid_table := Some (cols, acc) |}) ->
    write_attrs S name entries st
      = (Ok tt,
         {| heap := heap st;
            disk := <[name := HdfFile {| datasets := ds;
                                         grid_table := Some (cols, acc ++ entries) |}]>
                      (disk st) |}).
Proof.
  induction 1 as [|[k v] entries Hv _ IH]; intros acc st Hfile.
  - cbn [write_attrs]. rewrite app_nil_r, insert_id by done. by destruct st.
  - cbn [write_attrs]. cbn [fst snd] in Hv.
    apply andb_prop in Hv as [Hk Hv].
    destruct v as [|s| |]; try discriminate. cbn [plain_text] in Hv.
    apply negb_true_iff in Hv.
    erewrite (mbind_ok _ _ _ st (Some (VStr s))); [|unfold attr_of; by rewrite Hk, Hv].
    cbv beta iota.
    erewrite (mbind_ok _ _ _ _ tt).
    2:{ unfold h5_set_attr, mbind, read_disk. rewrite Hfile. cbn [grid_table datasets].
        reflexivity. }
    cbv beta. rewrite (IH (acc ++ [(k, VStr s)])) by (cbn [disk]; apply lookup_insert_eq).
    cbn [heap disk]. by rewrite insert_insert_eq, <- app_assoc.
Qed.

Section WriteHDFWithoutCov.

Variables (S : hdfstore) (st : state) (l : loc) (attrs : gmap string value).
Variables (ll sl gl hl : loc) (la sa : array) (cols : columns) (meta : value).
Variable hm : gmap string value.
Hypothesis Hself : heap st !! l = Some (Instance MemoryBackend attrs).
Hypothesis Hlamb : attrs !! "lamb" = Some (VRef ll).
Hypothesis Hseds : attrs !! "seds" = Some (VRef sl).
Hypothesis Hgrid : attrs !! "grid" = Some (VRef gl).
Hypothesis Hcd : attrs !! "cov_diag" = Some VNone.
Hypothesis Hco : attrs !! "cov_offdiag" = Some VNone.
Hypothesis Hheader : attrs !! "_header" = Some (VRef hl).
Hypothesis Hla : heap st !! ll = Some (Ndarray la).
Hypothesis Hsa : heap st !! sl = Some (Ndarray sa).
Hypothesis Hta : heap st !! gl = Some (Table cols meta).
Hypothesis Hhm : heap st !! hl = Some (Dict hm).
Hypothesis Hf1 : hm !! "filters" = None.
Hypothesis Hf2 : hm !! "FILTERS" = None.
Hypothesis Htext : text_header hm.

Lemma writeHDF_without_cov (name : string) (append : bool) :
  writeHDF S (VRef l) (VStr name) append st
    = (Ok tt,
       {| heap := <[gl := Table cols (VRef hl)]> (heap st);
          disk := <[name := HdfFile {| datasets := <["lamb" := la]> (<["seds" := sa]> ∅);
                                       grid_table := Some (cols, map_to_list hm) |}]>
                    (disk st) |}).
Proof.
  assert (Hcls : MemoryBackend <> CacheBackend) by done.
  unfold writeHDF.
  step (full_data_set_at _ _ _ _ Hself _ _ _ Hcls Hlamb Hseds Hgrid). cbn [is_none negb andb].
  step_by (apply (getattr_at _ _ _ _ Hself); [by repeat constructor|done|done]).
  step (is_table_at _ _ _ _ Hta). cbn [negb].
  erewrite (mbind_ok (write_disk _ _)) by reflexivity. cbv beta.
  step_by (eapply getattr_at; [exact Hself|by repeat constructor|done|done]).
  step_by (eapply slice_all_array; exact Hsa).
  step_by (eapply array_data_at; exact Hsa).
  step_by (apply h5_setitem_at; cbn [disk]; apply lookup_insert_eq).
  cbn [heap disk datasets grid_table]. rewrite insert_insert_eq.
  step_by (eapply getattr_at; [exact Hself|by repeat constructor|done|done]).
  step_by (eapply slice_all_array; exact Hla).
  step_by (eapply array_data_at; exact Hla).
  step_by (apply h5_setitem_at; cbn [disk]; apply lookup_insert_eq).
  cbn [heap disk datasets grid_table]. rewrite insert_insert_eq.
  step_by (eapply optional_dataset_none; [exact Hself|by repeat constructor|done|done]).
  step_by (eapply optional_dataset_none; [exact Hself|by repeat constructor|done|done]).
  erewrite (mbind_ok (getattr_default _ _) _ _ _ VNone).
  2:{ unfold getattr_default. erewrite getattr_filters_MemoryBackend by exact Hself.
      by erewrite MemoryBackend_filters_none by first [exact Hself|exact Hhm|done]. }
  cbn [is_none]. unfold ret at 1. unfold mbind at 1.
  step_by (eapply getattr_at; [exact Hself|by repeat constructor|done|done]).
  step_by (eapply getattr_header_at; [exact Hself|done|done|done]).
  step_by (eapply set_table_meta_dict; [exact Hta|exact Hhm]).
  cbn [heap disk].
  step_by (eapply getattr_at;
           [cbn [heap]; eapply lookup_insert_other; [exact Hself|exact Hta|done]
           |by repeat constructor|done|done]).
  unfold Table_write_hdf5.
  step_by (eapply table_contents_at; cbn [heap];
           [eapply lookup_insert_same; exact Hta
           |eapply lookup_insert_other; [exact Hhm|exact Hta|done]]).
  unfold mbind at 1. unfold read_disk. cbn [heap disk fst snd].
  rewrite lookup_insert_eq. cbn [grid_table present datasets].
  erewrite (mbind_ok (write_disk _ _)) by reflexivity. cbv beta.
  assert (HF : Forall (fun p : string * value => plain_key p.1 && plain_text p.2 = true)
                 (map_to_list hm)).
  { apply Forall_forall. intros [k v] Hin. apply elem_of_map_to_list in Hin.
    by apply (Htext k v). }
  erewrite (write_attrs_text S name (<["lamb" := la]> (<["seds" := sa]> ∅)) cols
              (map_to_list hm) HF []) by (cbn [disk]; apply lookup_insert_eq).
  cbn [heap disk app]. by rewrite !insert_insert_eq.
Qed.

End WriteHDFWithoutCov.

(** C9. The writer of [HDFBackend] makes no complaint about a data set
    that is not full: when one of [lamb], [seds] and [grid] is [None] it
    returns without an error and without a change, for every file name,
    and so does [write] with the name of an HDF file, where the writer of
    [GridBackend] that it overrides, and the FITS writer that the class
    inherits, raise the [ValueError] "Full data set not specified (lamb,
    seds, grid)" on the same backend. *)
Theorem HDFBackend_writeHDF_incomplete (S : hdfstore) (st : state) (l : loc)
    (attrs : gmap string value) (lamb seds grid fname : value) (flag : bool) :
  heap st !! l = Some (Instance HDFBackend attrs) ->
  attrs !! "lamb" = Some lamb -> attrs !! "seds" = Some seds -> attrs !! "grid" = Some grid ->
  is_none lamb || is_none seds || is_none grid = true ->
  HDFBackend_writeHDF S (VRef l) fname flag st = (Ok tt, st)
  /\ (forall name : string,
        _get_type (VStr name) = Ok "hdf" -> write S (VRef l) (VStr name) st = (Ok tt, st))
  /\ writeHDF S (VRef l) fname flag st = (Raise incomplete, st)
  /\ writeFITS (VRef l) fname flag st = (Raise incomplete, st).
Proof.
  intros Hself Hlamb Hseds Hgrid Hnone.
  assert (Hcls : HDFBackend <> CacheBackend) by done.
  assert (Hown : HDFBackend_writeHDF S (VRef l) fname flag st = (Ok tt, st))
    by (by eapply incomplete_HDFBackend_writeHDF).
  split; [exact Hown|]. split; [|split].
  - intros name Hty. unfold write. rewrite Hty. cbn [lift]. unfold lift.
    unfold mbind at 1. cbn [String.eqb Ascii.eqb Bool.eqb].
    unfold mbind at 1. cbn [String.eqb Ascii.eqb Bool.eqb].
    step (class_of_at _ _ _ _ Hself).
    by eapply incomplete_HDFBackend_writeHDF.
  - by eapply incomplete_writeHDF.
  - by eapply incomplete_writeFITS.
Qed.

Lemma HDFBackend_writeHDF_incomplete_witness :
  HDFBackend_writeHDF no_store (VRef 0) (VStr "out.hd5") false example_hdf_backend
    = (Ok tt, example_hdf_backend)
  /\ write no_store (VRef 0) (VStr "out.hd5") example_hdf_backend = (Ok tt, example_hdf_backend)
  /\ writeHDF no_store (VRef 0) (VStr "out.hd5") false example_hdf_backend
     = (Raise incomplete, example_hdf_backend)
  /\ writeFITS (VRef 0) (VStr "out.hd5") false example_hdf_backend
     = (Raise incomplete, example_hdf_backend).
Proof.
  destruct (HDFBackend_writeHDF_incomplete no_store example_hdf_backend 0 _
              (VRef 1) VNone (VRef 2) (VStr "out.hd5") false
              eq_refl eq_refl eq_refl eq_refl eq_refl) as (Hown & Hwrite & Hsibling & Hfits).
  split; [exact Hown|]. split; [exact (Hwrite "out.hd5" eq_refl)|].
  split; [exact Hsibling|exact Hfits].
Defined.

(** X22. On a backend whose data attributes are plain ones (every class
    but [CacheBackend]), the two writers of [GridBackend] raise the
    [ValueError] "Full data set not specified (lamb, seds, grid)" as soon
    as one of [lamb], [seds] and [grid] is [None], and the [TypeError]
    "Only astropy.Table are supported" when the three are given and [grid]
    is not a table; in both cases nothing is changed. A backend that
    holds two arrays and a table and [None] for both covariance terms is
    written: the FITS file has the wavelengths, the [SEDS] extension and
    the table, and no [COVDIAG] and no [COVOFFDIAG] extension, and the
    HDF file of a [MemoryBackend] whose header names no filters and holds
    plain texts only has the datasets [seds] and [lamb] and the table
    with the entries of the header. *)
Theorem write_full_data_set (S : hdfstore) (st : state) (l : loc) (cls : class)
    (attrs : gmap string value) (lamb seds grid fname : value) (flag : bool) :
  heap st !! l = Some (Instance cls attrs) -> cls <> CacheBackend ->
  attrs !! "lamb" = Some lamb -> attrs !! "seds" = Some seds -> attrs !! "grid" = Some grid ->
  (is_none lamb || is_none seds || is_none grid = true ->
     writeFITS (VRef l) fname flag st = (Raise incomplete, st)
     /\ writeHDF S (VRef l) fname flag st = (Raise incomplete, st))
  /\ (is_none lamb || is_none seds || is_none grid = false ->
      is_table grid st = (Ok false, st) ->
      writeFITS (VRef l) fname flag st = (Raise not_a_table, st)
      /\ writeHDF S (VRef l) fname flag st = (Raise not_a_table, st))
  /\ (forall (ll sl gl ml : loc) (la sa : array) (cols : columns) (m : gmap string value)
        (name : string),
        lamb = VRef ll -> seds = VRef sl -> grid = VRef gl ->
        attrs !! "cov_diag" = Some VNone -> attrs !! "cov_offdiag" = Some VNone ->
        heap st !! ll = Some (Ndarray la) -> heap st !! sl = Some (Ndarray sa) ->
        heap st !! gl = Some (Table cols (VRef ml)) -> heap st !! ml = Some (Dict m) ->
        (present (disk st !! name) && negb flag = false ->
         exists cards : gmap string value,
           writeFITS (VRef l) (VStr name) flag st
             = (Ok tt,
                {| heap := heap st;
                   disk := <[name := FitsFile {| primary := la;
                                                 seds_hdu := Some sa;
                                                 covdiag_hdu := None;
                                                 covoffdiag_hdu := None;
                                                 table_hdu := Some ("GRID", cols, cards) |}]>
                             (disk st) |}))
        /\ (forall (hl : loc) (hm : gmap string value),
              cls = MemoryBackend -> attrs !! "_header" = Some (VRef hl) ->
              heap st !! hl = Some (Dict hm) ->
              hm !! "filters" = None -> hm !! "FILTERS" = None -> text_header hm ->
              writeHDF S (VRef l) (VStr name) flag st
                = (Ok tt,
                   {| heap := <[gl := Table cols (VRef hl)]> (heap st);
                      disk := <[name := HdfFile
                                          {| datasets := <["lamb" := la]> (<["seds" := sa]> ∅);
                                             grid_table := Some (cols, map_to_list hm) |}]>
                                (disk st) |}))).
Proof.
  intros Hself Hcls Hlamb Hseds Hgrid. split; [|split].
  - intros Hnone. split.
    + by eapply incomplete_writeFITS.
    + by eapply incomplete_writeHDF.
  - intros Hfull Ht. split.
    + by eapply not_a_table_writeFITS.
    + by eapply not_a_table_writeHDF.
  - intros ll sl gl ml la sa cols m name -> -> -> Hcd Hco Hla Hsa Hta Hm. split.
    + intros Hnew. eexists. by eapply writeFITS_without_cov.
    + intros hl hm -> Hh Hhm Hf1 Hf2 Htext. by eapply writeHDF_without_cov.
Qed.

Lemma write_full_data_set_witness :
  (forall S : hdfstore,
      writeFITS (VRef 6) (VStr "grid.fits") false (example_grid example_no_seds)
        = (Raise incomplete, example_grid example_no_seds)
      /\ writeHDF S (VRef 6) (VStr "grid.hd5") false (example_grid example_no_seds)
        = (Raise incomplete, example_grid example_no_seds))
  /\ (forall S : hdfstore,
        writeFITS (VRef 6) (VStr "grid.fits") false (example_grid example_no_table)
          = (Raise not_a_table, example_grid example_no_table)
        /\ writeHDF S (VRef 6) (VStr "grid.hd5") false (example_grid example_no_table)
          = (Raise not_a_table, example_grid example_no_table))
  /\ (forall S : hdfstore,
        (exists cards : gmap string value,
            writeFITS (VRef 6) (VStr "grid.fits") false (example_grid example_attrs)
              = (Ok tt,
                 {| heap := heap (example_grid example_attrs);
                    disk := <["grid.fits" :=
                                FitsFile {| primary := Vec [1%Q; 2%Q];
                                            seds_hdu := Some (Mat [[1%Q; 2%Q]; [3%Q; 4%Q]]);
                                            covdiag_hdu := None;
                                            covoffdiag_hdu := None;
                                            table_hdu :=
                                              Some ("GRID", [("logA", [6%Q; 7%Q])], cards) |}]>
                              ∅ |}))
        /\ writeHDF S (VRef 6) (VStr "grid.hd5") false (example_grid example_attrs)
          = (Ok tt,
             {| heap := <[3%nat := Table [("logA", [6%Q; 7%Q])] (VRef 2)]>
                          (heap (example_grid example_attrs));
                disk := <["grid.hd5" :=
                            HdfFile {| datasets := <["lamb" := Vec [1%Q; 2%Q]]>
                                                     (<["seds" := Mat [[1%Q; 2%Q]; [3%Q; 4%Q]]]> ∅);
                                       grid_table :=
                                         Some ([("logA", [6%Q; 7%Q])], map_to_list ∅) |}]>
                          ∅ |})).
Proof.
  assert (Hcls : MemoryBackend <> CacheBackend) by discriminate.
  split; [|split].
  - intros S.
    destruct (write_full_data_set S (example_grid example_no_seds) 6 MemoryBackend
                example_no_seds (VRef 0) VNone (VRef 3) (VStr "grid.fits") false
                eq_refl Hcls eq_refl eq_refl eq_refl) as [H _].
    destruct (write_full_data_set S (example_grid example_no_seds) 6 MemoryBackend
                example_no_seds (VRef 0) VNone (VRef 3) (VStr "grid.hd5") false
                eq_refl Hcls eq_refl eq_refl eq_refl) as [H' _].
    split; [apply (H eq_refl)|apply (H' eq_refl)].
  - intros S.
    destruct (write_full_data_set S (example_grid example_no_table) 6 MemoryBackend
                example_no_table (VRef 0) (VRef 1) (VRef 0) (VStr "grid.fits") false
                eq_refl Hcls eq_refl eq_refl eq_refl) as (_ & H & _).
    destruct (write_full_data_set S (example_grid example_no_table) 6 MemoryBackend
                example_no_table (VRef 0) (VRef 1) (VRef 0) (VStr "grid.hd5") false
                eq_refl Hcls eq_refl eq_refl eq_refl) as (_ & H' & _).
    split; [apply (H eq_refl eq_refl)|apply (H' eq_refl eq_refl)].
  - intros S.
    destruct (write_full_data_set S (example_grid example_attrs) 6 MemoryBackend
                example_attrs (VRef 0) (VRef 1) (VRef 3) (VStr "grid.fits") false
                eq_refl Hcls eq_refl eq_refl eq_refl) as (_ & _ & H).
    destruct (write_full_data_set S (example_grid example_attrs) 6 MemoryBackend
                example_attrs (VRef 0) (VRef 1) (VRef 3) (VStr "grid.hd5") false
                eq_refl Hcls eq_refl eq_refl eq_refl) as (_ & _ & H').
    split.
    + apply (H 0%nat 1%nat 3%nat 2%nat _ _ _ ∅ "grid.fits" eq_refl eq_refl eq_refl
               eq_refl eq_refl eq_refl eq_refl eq_refl eq_refl).
      reflexivity.
    + apply (H' 0%nat 1%nat 3%nat 2%nat _ _ _ ∅ "grid.hd5" eq_refl eq_refl eq_refl
               eq_refl eq_refl eq_refl eq_refl eq_refl eq_refl).
      all: try reflexivity.
      apply map_Forall_empty.
Defined.

(** ** A [MemoryBackend] made from a backend *)


Section FromBackend.

Variables (h : list obj) (d : gmap string file) (b : loc) (cls : class).
Variables (battrs : gmap string value) (lamb seds grid filters header aliases : value).
Hypothesis Hb : h !! b = Some (Instance cls battrs).
Hypothesis Hcls : cls = GridBackend \/ cls = MemoryBackend.
Hypothesis Hlamb : battrs !! "lamb" = Some lamb.
Hypothesis Hseds : battrs !! "seds" = Some seds.
Hypothesis Hgrid : battrs !! "grid" = Some grid.
Hypothesis Hfilters : battrs !! "_filters" = Some filters.
Hypothesis Hheader : battrs !! "_header" = Some header.
Hypothesis Haliases : battrs !! "_aliases" = Some aliases.


End FromBackend.







(** ** The header of a [CacheBackend] *)

Lemma getattr_raw_state (self : value) (name : string) (st st' : state) (r : result value) :
  getattr_raw self name st = (r, st') -> st' = st.
Proof.
  unfold getattr_raw, mbind, deref, ret, raise.
  destruct self as [| | |l]; try (intros [= _ <-]; done).
  destruct (heap st !! l) as [[]|]; try (intros [= _ <-]; done).
  destruct (_ !! name); by intros [= _ <-].
Qed.

(** C2. Once the property [grid] of a [CacheBackend] has given a table,
    its property [header] raises the [AttributeError] "'Table' object has
    no attribute 'header'": it asks the table for an attribute [header]
    where [_load_grid] has put the header in [self._header]. *)
Theorem CacheBackend_header_raises (self : value) (st st1 : state) (gl : loc)
    (cols : columns) (meta : value) :
  CacheBackend_grid self st = (Ok (VRef gl), st1) ->
  heap st1 !! gl = Some (Table cols meta) ->
  CacheBackend_header self st1
    = (Raise (AttributeError "'Table' object has no attribute 'header'"), st1).
Proof.
  intros Hgrid Htable. unfold CacheBackend_grid, mbind at 1 in Hgrid.
  destruct (_load_grid self st) as [[[]|e] st0]; [|discriminate].
  pose proof (getattr_raw_state _ _ _ _ _ Hgrid) as ->.
  unfold CacheBackend_header.
  erewrite (mbind_ok _ _ _ _ tt).
  2:{ unfold _load_grid. by step Hgrid. }
  cbv beta. step Hgrid.
  by step (deref_at _ _ _ Htable).
Qed.

Lemma CacheBackend_header_witness :
  CacheBackend_header (VRef 0) example_cache_loaded
    = (Raise (AttributeError "'Table' object has no attribute 'header'"), example_cache_loaded)
  /\ (memory_header (VStr "grid.hd5") (VRef 0) (VRef 0)
        {| heap := [Dict ∅]; disk := disk example_files |}).1
    = Ok (Some (Dict (<["NAME" := VStr "grid"]> (<["filters" := VStr "F1 F2"]> ∅)))).
Proof.
  split.
  - apply (CacheBackend_header_raises (VRef 0) example_cache example_cache_loaded 3
             [("logA", [6%Q; 7%Q])] (VRef 2)); reflexivity.
  - vm_compute. reflexivity.
Defined.

(** ** What [MemoryBackend] refuses *)

(** X5. The conversion from an [HDFBackend] is never made: the constructor
    calls [_fromHDFBackend], a method no class defines, and what is left
    is the instance as [GridBackend.__init__] made it. *)
Theorem MemoryBackend_from_HDFBackend (st : state) (b : loc) (battrs : gmap string value)
    (seds grid cov_diag cov_offdiag header aliases : value) :
  heap st !! b = Some (Instance HDFBackend battrs) ->
  MemoryBackend_new (VRef b) seds grid cov_diag cov_offdiag header aliases st
    = (Raise (AttributeError "'MemoryBackend' object has no attribute '_fromHDFBackend'"),
       {| heap := heap st ++ [Instance MemoryBackend (init_attrs (length (heap st))); Dict ∅];
          disk := disk st |}).
Proof.
  intros Hb. destruct st as [h d]. cbn [heap disk] in *.
  unfold MemoryBackend_new.
  step (alloc_fresh _ _ _).
  erewrite mbind_raise; [reflexivity|].
  unfold MemoryBackend_init.
  step (GridBackend_init_end _ _ _). fold (init_attrs (length h)).
  step_by (eapply deref_old; exact Hb).
  reflexivity.
Qed.

Lemma MemoryBackend_from_HDFBackend_witness :
  MemoryBackend_new (VRef 0) VNone VNone VNone VNone (VRef 3) (VRef 3) example_hdf_backend
    = (Raise (AttributeError "'MemoryBackend' object has no attribute '_fromHDFBackend'"),
       {| heap := heap example_hdf_backend
                  ++ [Instance MemoryBackend (init_attrs (length (heap example_hdf_backend)));
                      Dict ∅];
          disk := disk example_hdf_backend |}).
Proof.
  exact (MemoryBackend_from_HDFBackend example_hdf_backend 0 _ VNone VNone VNone VNone
           (VRef 3) (VRef 3) eq_refl).
Defined.

(** X6. From arrays, [seds] and [grid] are both needed, whatever else is
    given; nothing is read and no file is touched. *)
Theorem MemoryBackend_wrong_number_of_arguments (st : state)
    (lamb seds grid cov_diag cov_offdiag header aliases : value) :
  from_arrays st lamb = true -> is_none seds || is_none grid = true ->
  MemoryBackend_new lamb seds grid cov_diag cov_offdiag header aliases st
    = (Raise (ValueError "Wrong number of arguments"),
       {| heap := heap st ++ [Instance MemoryBackend (init_attrs (length (heap st))); Dict ∅];
          disk := disk st |}).
Proof.
  intros Hl Hnone. destruct st as [h d]. cbn [heap disk] in *.
  unfold MemoryBackend_new.
  step (alloc_fresh _ _ _).
  erewrite mbind_raise; [reflexivity|].
  unfold MemoryBackend_init.
  step (GridBackend_init_end _ _ _). fold (init_attrs (length h)).
  destruct (from_arrays_deref h [Instance MemoryBackend (init_attrs (length h)); Dict ∅]
              d lamb Hl) as (o & Hderef & Hbranch).
  step Hderef. rewrite Hbranch, Hnone. reflexivity.
Qed.

Lemma MemoryBackend_wrong_number_of_arguments_witness :
  MemoryBackend_new (VRef 0) (VRef 1) VNone (VRef 5) (VRef 5) (VRef 2) (VRef 4) example_state
    = (Raise (ValueError "Wrong number of arguments"),
       {| heap := heap example_state
                  ++ [Instance MemoryBackend (init_attrs (length (heap example_state))); Dict ∅];
          disk := disk example_state |}).
Proof.
  exact (MemoryBackend_wrong_number_of_arguments example_state (VRef 0) (VRef 1) VNone
           (VRef 5) (VRef 5) (VRef 2) (VRef 4) eq_refl eq_refl).
Defined.

(** ** [CacheBackend]: construction, hits and [clear] *)

(** X7. Making a [CacheBackend] reads nothing: whatever the files are, and
    whether the file named exists or not, the instance is made with its
    seven slots empty, bound to the name and to the type its extension
    gives. *)
Theorem CacheBackend_new_reads_nothing (st : state) (fname ty : string) :
  _get_type (VStr fname) = Ok ty ->
  exists attrs : gmap string value,
    CacheBackend_new (VStr fname) st
      = (Ok (VRef (length (heap st))),
         {| heap := heap st ++ [Instance CacheBackend attrs; Dict ∅]; disk := disk st |})
    /\ attrs !! "fname" = Some (VStr fname)
    /\ attrs !! "_type" = Some (VStr ty)
    /\ attrs !! "_aliases" = Some (VRef (S (length (heap st))))
    /\ forall slot : string, slot ∈ cache_slots -> attrs !! slot = Some VNone.
Proof.
  intros Hty. destruct st as [h d]. cbn [heap disk].
  eexists. split.
  { unfold CacheBackend_new.
    step (alloc_fresh _ _ _).
    erewrite (mbind_ok _ _ _ _ tt); [reflexivity|].
    unfold CacheBackend_init.
    step (GridBackend_init_end _ _ _).
    step (setattr_raw_end _ _ _ _ _ _ _).
    unfold lift at 1. rewrite Hty. unfold mbind at 1.
    step (setattr_raw_end _ _ _ _ _ _ _).
    unfold clear.
    do 6 step (setattr_raw_end _ _ _ _ _ _ _).
    apply setattr_raw_end. }
  split; [by simplify_map_eq|]. split; [by simplify_map_eq|]. split; [by simplify_map_eq|].
  intros slot Hslot. unfold cache_slots in Hslot.
  repeat (apply elem_of_cons in Hslot as [->|Hslot]; [by simplify_map_eq|]).
  by apply elem_of_nil in Hslot.
Qed.

Lemma CacheBackend_new_reads_nothing_witness :
  exists attrs : gmap string value,
    CacheBackend_new (VStr "missing.hdf5") example_state
      = (Ok (VRef (length (heap example_state))),
         {| heap := heap example_state ++ [Instance CacheBackend attrs; Dict ∅];
            disk := disk example_state |})
    /\ attrs !! "fname" = Some (VStr "missing.hdf5")
    /\ attrs !! "_type" = Some (VStr "hdf")
    /\ attrs !! "_aliases" = Some (VRef (S (length (heap example_state))))
    /\ forall slot : string, slot ∈ cache_slots -> attrs !! slot = Some VNone.
Proof. exact (CacheBackend_new_reads_nothing example_state "missing.hdf5" "hdf" eq_refl). Defined.

(** X8. A field of a [CacheBackend] that is loaded is given as it is: no file
    is read and nothing changes, whatever the files have become. *)
Theorem CacheBackend_hit (st : state) (l : loc) (attrs : gmap string value)
    (name : string) (v : value) :
  heap st !! l = Some (Instance CacheBackend attrs) -> name ∈ plain ->
  attrs !! ("_" +:+ name) = Some v -> is_none v = false ->
  getattr (VRef l) name st = (Ok v, st).
Proof.
  intros Hself Hname Hv Hnone. unfold getattr.
  step (class_of_at _ _ _ _ Hself).
  unfold plain in Hname.
  repeat (apply elem_of_cons in Hname as [->|Hname];
          [unfold CacheBackend_lamb, _load_lamb, CacheBackend_seds, _load_seds,
             CacheBackend_grid, _load_grid, CacheBackend_cov_diag, _load_cov_diag,
             CacheBackend_cov_offdiag, _load_cov_offdiag, load_array;
           erewrite (mbind_ok _ _ _ _ tt);
           [by apply (getattr_raw_at _ _ _ _ Hself)|];
           step (getattr_raw_at _ _ _ _ Hself _ _ Hv); by rewrite Hnone|]).
  by apply elem_of_nil in Hname.
Qed.

Lemma CacheBackend_hit_witness :
  getattr (VRef 0) "grid" example_cache_loaded = (Ok (VRef 3), example_cache_loaded).
Proof.
  eapply CacheBackend_hit.
  - vm_compute. reflexivity.
  - by repeat constructor.
  - vm_compute. reflexivity.
  - reflexivity.
Defined.

(** The slot an assignment to a data attribute writes. *)
Lemma setattr_plain_at (st : state) (l : loc) (cls : class) (attrs : gmap string value)
    (name : string) (v : value) :
  heap st !! l = Some (Instance cls attrs) -> name ∈ plain ->
  setattr (VRef l) name v st
    = (Ok tt,
       {| heap := <[l := Instance cls
                            (<[(if cls is CacheBackend then "_" +:+ name else name) := v]> attrs)]>
                    (heap st);
          disk := disk st |}).
Proof.
  intros Hself Hname. unfold setattr. step (class_of_at _ _ _ _ Hself).
  unfold plain in Hname.
  repeat (apply elem_of_cons in Hname as [->|Hname];
          [destruct cls; by apply setattr_raw_at|]).
  by apply elem_of_nil in Hname.
Qed.

(** X9. What is assigned to a data attribute is what the attribute gives
    next, in every class: in a [CacheBackend] the assignment fills the
    slot, and a slot that is filled is not loaded. *)
Theorem setattr_then_getattr (st : state) (l : loc) (cls : class)
    (attrs : gmap string value) (name : string) (v : value) :
  heap st !! l = Some (Instance cls attrs) -> name ∈ plain -> is_none v = false ->
  exists st' : state,
    setattr (VRef l) name v st = (Ok tt, st')
    /\ getattr (VRef l) name st' = (Ok v, st')
    /\ disk st' = disk st
    /\ forall l' : loc, l' <> l -> heap st' !! l' = heap st !! l'.
Proof.
  intros Hself Hname Hnone. eexists. split; [by apply setattr_plain_at|].
  assert (Hself' : forall a, <[l := Instance cls a]> (heap st) !! l = Some (Instance cls a)).
  { intros a. by eapply lookup_insert_same. }
  split; [|split; [done|]].
  - assert (cls = CacheBackend \/ cls <> CacheBackend) as [->|Hcls]
      by (destruct cls; auto).
    + eapply CacheBackend_hit; [apply Hself'|done|by simplify_map_eq|done].
    + eapply getattr_at; [apply Hself'|done|done|].
      destruct cls; by simplify_map_eq.
  - intros l' Hl'. cbn [heap]. by rewrite list_lookup_insert_ne.
Qed.

Lemma setattr_then_getattr_witness :
  exists st' : state,
    setattr (VRef 0) "seds" (VRef 3) example_cache_loaded = (Ok tt, st')
    /\ getattr (VRef 0) "seds" st' = (Ok (VRef 3), st')
    /\ disk st' = disk example_cache_loaded
    /\ forall l' : loc, l' <> 0%nat -> heap st' !! l' = heap example_cache_loaded !! l'.
Proof.
  eapply setattr_then_getattr.
  - vm_compute. reflexivity.
  - by repeat constructor.
  - reflexivity.
Defined.

(** ** An instance that changes while objects are made *)

Section WithSelf.

Variables (st : state) (l : loc) (cls : class).
Hypothesis Hl : (l < length (heap st))%nat.

Lemma with_self_lookup (attrs : gmap string value) (t : list obj) :
  heap (with_self st l cls attrs t) !! l = Some (Instance cls attrs).
Proof.
  cbn [with_self heap]. rewrite lookup_app_l by (by rewrite length_insert).
  by apply list_lookup_insert_eq.
Qed.

Lemma with_self_setattr_raw (attrs : gmap string value) (t : list obj)
    (name : string) (v : value) :
  setattr_raw (VRef l) name v (with_self st l cls attrs t)
    = (Ok tt, with_self st l cls (<[name := v]> attrs) t).
Proof.
  rewrite (setattr_raw_at _ _ _ _ (with_self_lookup attrs t)).
  unfold with_self. cbn [heap disk]. f_equal. f_equal.
  rewrite insert_app_l by (by rewrite length_insert).
  by rewrite list_insert_insert_eq.
Qed.

Lemma with_self_getattr_raw (attrs : gmap string value) (t : list obj)
    (name : string) (v : value) :
  attrs !! name = Some v ->
  getattr_raw (VRef l) name (with_self st l cls attrs t) = (Ok v, with_self st l cls attrs t).
Proof. intros Hv. by eapply getattr_raw_at; [apply with_self_lookup|]. Qed.

Lemma with_self_alloc (attrs : gmap string value) (t : list obj) (o : obj) :
  alloc o (with_self st l cls attrs t)
    = (Ok (VRef (length (heap st) + length t)), with_self st l cls attrs (t ++ [o])).
Proof.
  unfold alloc, with_self. cbn [heap disk].
  by rewrite length_app, length_insert, app_assoc.
Qed.

Lemma with_self_new (attrs : gmap string value) (t : list obj) (k : nat) :
  heap (with_self st l cls attrs t) !! (length (heap st) + k)%nat = t !! k.
Proof.
  cbn [with_self heap]. rewrite lookup_app_r by (rewrite length_insert; lia).
  rewrite length_insert. f_equal. lia.
Qed.

Lemma with_self_old (attrs : gmap string value) (t : list obj) (l' : loc) (o : obj) :
  l' <> l -> heap st !! l' = Some o -> heap (with_self st l cls attrs t) !! l' = Some o.
Proof.
  intros Hne Ho. cbn [with_self heap]. apply lookup_app_l_Some.
  by rewrite list_lookup_insert_ne.
Qed.

End WithSelf.

Lemma with_self_id (st : state) (l : loc) (cls : class) (attrs : gmap string value) :
  heap st !! l = Some (Instance cls attrs) -> with_self st l cls attrs [] = st.
Proof.
  intros Hself. destruct st as [h d]. unfold with_self. cbn [heap disk] in *.
  by rewrite app_nil_r, list_insert_id.
Qed.

Lemma read_disk_with_self (st : state) (l : loc) (cls : class) (attrs : gmap string value)
    (t : list obj) (f : string) :
  read_disk f (with_self st l cls attrs t) = (Ok (disk st !! f), with_self st l cls attrs t).
Proof. reflexivity. Qed.

Lemma fits_open_at (st : state) (f : string) (x : fits) :
  disk st !! f = Some (FitsFile x) -> fits_open (VStr f) st = (Ok x, st).
Proof. intros Hf. unfold fits_open, mbind, read_disk. by rewrite Hf. Qed.

Lemma h5_open_at (st : state) (f : string) (x : hdf) :
  disk st !! f = Some (HdfFile x) -> h5_open (VStr f) st = (Ok x, st).
Proof. intros Hf. unfold h5_open, mbind, read_disk. by rewrite Hf. Qed.

(** A slot that is empty is filled from the file. *)
Lemma load_array_miss (st : state) (l : loc) (attrs : gmap string value) (t : list obj)
    (slot : string) (from_fits : fits -> M value) (from_hdf : hdf -> M value)
    (f : string) (fl : file) (a : array) :
  (l < length (heap st))%nat ->
  attrs !! slot = Some VNone -> attrs !! "_type" = Some (VStr (type_of_file fl)) ->
  attrs !! "fname" = Some (VStr f) -> disk st !! f = Some fl ->
  match fl with
  | FitsFile x => from_fits x
  | HdfFile x => from_hdf x
  end = alloc (Ndarray a) ->
  load_array (VRef l) slot from_fits from_hdf (with_self st l CacheBackend attrs t)
    = (Ok tt,
       with_self st l CacheBackend (<[slot := VRef (length (heap st) + length t)]> attrs)
         (t ++ [Ndarray a])).
Proof.
  intros Hl Hslot Hty Hfname Hfile Hfrom. unfold load_array.
  step (with_self_getattr_raw _ _ _ Hl _ _ _ _ Hslot). cbn [is_none].
  step (with_self_getattr_raw _ _ _ Hl _ _ _ _ Hty).
  destruct fl as [x|x]; cbn [type_of_file].
  - step (with_self_getattr_raw _ _ _ Hl _ _ _ _ Hfname).
    step_by (apply fits_open_at; exact Hfile).
    rewrite Hfrom. step (with_self_alloc _ _ _ _ _ _).
    by apply with_self_setattr_raw.
  - step (with_self_getattr_raw _ _ _ Hl _ _ _ _ Hfname).
    step_by (apply h5_open_at; exact Hfile).
    rewrite Hfrom. step (with_self_alloc _ _ _ _ _ _).
    by apply with_self_setattr_raw.
Qed.

Lemma fits_data_image (x : fits) (name : string) (a : array) :
  name ∈ ["seds"; "covdiag"; "covoffdiag"] ->
  (if String.eqb name "seds" then seds_hdu x
   else if String.eqb name "covdiag" then covdiag_hdu x else covoffdiag_hdu x) = Some a ->
  fits_data x name = alloc (Ndarray a).
Proof.
  intros Hname Ha. unfold fits_data.
  repeat (apply elem_of_cons in Hname as [->|Hname];
          [cbn in Ha |- *; by rewrite Ha|]).
  by apply elem_of_nil in Hname.
Qed.

Lemma h5_dataset_at (x : hdf) (name : string) (a : array) :
  datasets x !! name = Some a -> h5_dataset x name = alloc (Ndarray a).
Proof. intros Ha. unfold h5_dataset. by rewrite Ha. Qed.

(** X10. After [clear()], an array attribute of a [CacheBackend] is read anew
    from the file it is bound to, whatever its slot held before: the
    value is a new array with the contents the file holds, and it is
    cached in the slot. *)
Theorem clear_then_reload (st : state) (l : loc) (attrs : gmap string value)
    (f : string) (fl : file) (name : string) (a : array) :
  heap st !! l = Some (Instance CacheBackend attrs) ->
  attrs !! "_type" = Some (VStr (type_of_file fl)) -> attrs !! "fname" = Some (VStr f) ->
  disk st !! f = Some fl -> name ∈ array_attrs -> stored_array fl name = Some a ->
  exists attrs' : gmap string value,
    (clear (VRef l) None;;; getattr (VRef l) name) st
      = (Ok (VRef (length (heap st))), with_self st l CacheBackend attrs' [Ndarray a])
    /\ attrs' !! ("_" +:+ name) = Some (VRef (length (heap st)))
    /\ forall slot : string,
        slot ∈ cache_slots -> slot <> "_" +:+ name -> attrs' !! slot = Some VNone.
Proof.
  intros Hself Hty Hfname Hfile Hname Ha.
  assert (Hl : (l < length (heap st))%nat) by (by eapply lookup_lt_Some).
  replace ((clear (VRef l) None;;; getattr (VRef l) name) st)
    with ((clear (VRef l) None;;; getattr (VRef l) name) (with_self st l CacheBackend attrs []))
    by (by rewrite with_self_id).
  unfold clear.
  erewrite (mbind_ok _ _ _ _ tt).
  2:{ do 6 step (with_self_setattr_raw _ _ _ Hl _ _ _ _).
      by apply with_self_setattr_raw. }
  cbv beta. unfold getattr.
  step_by (eapply class_of_at; by apply with_self_lookup).
  unfold array_attrs in Hname.
  repeat (apply elem_of_cons in Hname as [->|Hname];
          [eexists; split;
           [unfold CacheBackend_lamb, _load_lamb, CacheBackend_seds, _load_seds,
              CacheBackend_cov_diag, _load_cov_diag,
              CacheBackend_cov_offdiag, _load_cov_offdiag;
            erewrite (mbind_ok _ _ _ _ tt);
            [|eapply (load_array_miss _ _ _ _ _ _ _ f fl a Hl);
              [by simplify_map_eq|by simplify_map_eq|by simplify_map_eq|exact Hfile|
               destruct fl; cbn in Ha;
               first [apply fits_data_image; [by repeat constructor|exact Ha]
                     |by apply h5_dataset_at
                     |by injection Ha as ->]]];
            cbv beta; cbn [length]; rewrite Nat.add_0_r;
            apply with_self_getattr_raw; [done|by simplify_map_eq]
           |split; [by simplify_map_eq|];
            intros slot Hslot Hne; unfold cache_slots in Hslot;
            repeat (apply elem_of_cons in Hslot as [->|Hslot]; [by simplify_map_eq|]);
            by apply elem_of_nil in Hslot]|]).
  by apply elem_of_nil in Hname.
Qed.

Lemma clear_then_reload_witness :
  exists attrs' : gmap string value,
    (clear (VRef 0) None;;; getattr (VRef 0) "seds") example_cache_loaded
      = (Ok (VRef (length (heap example_cache_loaded))),
         with_self example_cache_loaded 0 CacheBackend attrs'
           [Ndarray (Mat [[1%Q; 2%Q]; [3%Q; 4%Q]])])
    /\ attrs' !! ("_" +:+ "seds") = Some (VRef (length (heap example_cache_loaded)))
    /\ forall slot : string,
        slot ∈ cache_slots -> slot <> "_" +:+ "seds" -> attrs' !! slot = Some VNone.
Proof.
  eapply (clear_then_reload example_cache_loaded 0 _ "grid.hd5" (HdfFile example_hdf) "seds").
  - vm_compute. reflexivity.
  - vm_compute. reflexivity.
  - vm_compute. reflexivity.
  - reflexivity.
  - by repeat constructor.
  - reflexivity.
Defined.


(** ** A [MemoryBackend] read from a file *)

Lemma deref_new (h t : list obj) (d : gmap string file) (k : nat) (o : obj) :
  t !! k = Some o ->
  deref (VRef (length h + k)) {| heap := h ++ t; disk := d |}
    = (Ok (Some o), {| heap := h ++ t; disk := d |}).
Proof.
  intros Hk. unfold deref. cbn [heap]. rewrite lookup_app_r by lia.
  replace (length h + k - length h)%nat with k by lia. by rewrite Hk.
Qed.

Lemma update_new (h t : list obj) (d : gmap string file) (k : nat) (o : obj) :
  update (length h + k) o {| heap := h ++ t; disk := d |}
    = (Ok tt, {| heap := h ++ <[k := o]> t; disk := d |}).
Proof. unfold update. cbn [heap disk]. by rewrite insert_app_r. Qed.

Lemma lookup_new (h t : list obj) (k : nat) : (h ++ t) !! (length h + k)%nat = t !! k.
Proof. rewrite lookup_app_r by lia. f_equal. lia. Qed.

Lemma table_meta_at (st : state) (l : loc) (cols : columns) (meta : value) :
  heap st !! l = Some (Table cols meta) -> table_meta (VRef l) st = (Ok meta, st).
Proof. intros Hl. unfold table_meta. by rewrite (mbind_ok _ _ _ _ _ (deref_at _ _ _ Hl)). Qed.

Lemma dict_setitem_at (st : state) (l : loc) (m : gmap string value) (k : string) (v : value) :
  heap st !! l = Some (Dict m) ->
  dict_setitem (VRef l) k v st
    = (Ok tt, {| heap := <[l := Dict (<[k := v]> m)]> (heap st); disk := disk st |}).
Proof. intros Hl. unfold dict_setitem. by rewrite (mbind_ok _ _ _ _ _ (deref_at _ _ _ Hl)). Qed.

Section FromHDF.

Variables (h : list obj) (d : gmap string file) (f : string) (hf : hdf).
Variables (sa la : array) (cols : columns) (tattrs : list (string * value)).
Variables (ha aa : loc) (ae : gmap string value).
Hypothesis Hty : _get_type (VStr f) = Ok "hdf".
Hypothesis Hfile : d !! f = Some (HdfFile hf).
Hypothesis Hseds : datasets hf !! "seds" = Some sa.
Hypothesis Hlamb : datasets hf !! "lamb" = Some la.
Hypothesis Hgrid : grid_table hf = Some (cols, tattrs).
Hypothesis Hha : h !! ha = Some (Dict ∅).
Hypothesis Haa : h !! aa = Some (Dict ae).

Lemma Table_read_hdf5_end (t : list obj) :
  Table_read_hdf5 (VStr f) {| heap := h ++ t; disk := d |}
    = (Ok (VRef (length h + S (length t))),
       {| heap := h ++ t ++ [Dict (list_to_map tattrs); Table cols (VRef (length h + length t))];
          disk := d |}).
Proof.
  unfold Table_read_hdf5.
  step_by (apply h5_open_at; exact Hfile).
  rewrite Hgrid.
  step (alloc_end _ _ _ _).
  rewrite (alloc_end h (t ++ [_])), length_app, <- app_assoc. cbn [length app].
  by rewrite Nat.add_1_r.
Qed.

Lemma _from_File_hdf_without_covdiag (attrs0 : gmap string value) (o0 : obj) :
  datasets hf !! "covdiag" = None ->
  _from_File (VRef (length h)) (VStr f)
      {| heap := h ++ [Instance MemoryBackend attrs0; o0]; disk := d |}
    = ((if decodable (list_to_map tattrs) then Ok tt else Raise undecodable),
       {| heap := h ++ [Instance MemoryBackend
                          (<["_header" := VRef (length h + 4)]>
                             (<["grid" := VRef (length h + 5)]>
                                (<["cov_offdiag" := VNone]>
                                   (<["cov_diag" := VNone]>
                                      (<["lamb" := VRef (length h + 3)]>
                                         (<["seds" := VRef (length h + 2)]> attrs0))))));
                        o0;
                        Ndarray sa;
                        Ndarray la;
                        Dict (decoded (list_to_map tattrs));
                        Table cols (VRef (length h + 4))];
          disk := d |}).
Proof.
  intros Hcov. unfold _from_File.
  unfold lift at 1. rewrite Hty. unfold mbind at 1. cbn [String.eqb Ascii.eqb Bool.eqb].
  erewrite (mbind_ok _ _ _
              {| heap := h ++ [Instance MemoryBackend
                                 (<["grid" := VRef (length h + 5)]>
                                    (<["cov_offdiag" := VNone]>
                                       (<["cov_diag" := VNone]>
                                          (<["lamb" := VRef (length h + 3)]>
                                             (<["seds" := VRef (length h + 2)]> attrs0)))));
                               o0;
                               Ndarray sa;
                               Ndarray la;
                               Dict (list_to_map tattrs);
                               Table cols (VRef (length h + 4))];
                 disk := d |} tt).
  2:{ step_by (apply h5_open_at; exact Hfile).
      rewrite (h5_dataset_at _ _ _ Hseds).
      step (alloc_end _ _ _ _). cbn [length app].
      step_by (apply setattr_plain_end; [by repeat constructor|done]).
      rewrite (h5_dataset_at _ _ _ Hlamb).
      step (alloc_end _ _ _ _). cbn [length app].
      step_by (apply setattr_plain_end; [by repeat constructor|done]).
      unfold h5_has. rewrite Hcov. cbn [present orb andb String.eqb Ascii.eqb Bool.eqb].
      step_by (apply setattr_plain_end; [by repeat constructor|done]).
      step_by (apply setattr_plain_end; [by repeat constructor|done]).
      step (Table_read_hdf5_end _). cbn [length app].
      apply setattr_plain_end; [by repeat constructor|done]. }
  cbv beta.
  step_by (eapply getattr_at; [apply lookup_at_end|by repeat constructor|done|by simplify_map_eq]).
  step_by (eapply table_meta_at; cbn [heap]; by rewrite lookup_new).
  step (setattr_raw_end _ _ _ _ _ _ _).
  step_by (apply getattr_raw_end; by simplify_map_eq).
  step_by (eapply dict_entries_at; cbn [heap]; by rewrite lookup_new).
  unfold decoded, decodable.
  destruct (list_to_map tattrs !! "filters") as [[| |b|]|] eqn:Hf; try reflexivity.
  unfold decode, lift. destruct (valid_utf8 b); [|reflexivity].
  unfold mbind at 1.
  erewrite dict_setitem_at by (cbn [heap]; by rewrite lookup_new).
  cbn [heap disk]. by rewrite insert_app_r.
Qed.

End FromHDF.

(** What the constructor does around [_from_File], with the header it
    is given empty. *)
Lemma MemoryBackend_new_file (h : list obj) (d d' : gmap string file) (f : string)
    (ha aa : loc) (ae attrs1 : gmap string value) (t : list obj) (hv : value)
    (seds' grid' cov_diag' cov_offdiag' : value) :
  h !! ha = Some (Dict ∅) -> h !! aa = Some (Dict ae) ->
  _from_File (VRef (length h)) (VStr f)
      {| heap := h ++ [Instance MemoryBackend (init_attrs (length h)); Dict ∅]; disk := d |}
    = (Ok tt, {| heap := h ++ Instance MemoryBackend attrs1 :: Dict ∅ :: t; disk := d' |}) ->
  attrs1 !! "_header" = Some hv -> is_none hv = false ->
  attrs1 !! "_aliases" = Some (VRef (S (length h))) ->
  MemoryBackend_new (VStr f) seds' grid' cov_diag' cov_offdiag' (VRef ha) (VRef aa)
      {| heap := h; disk := d |}
    = (Ok (VRef (length h)),
       {| heap := h ++ Instance MemoryBackend (<["fname" := VStr ":memory:"]> attrs1)
                       :: Dict (ae ∪ ∅) :: t;
          disk := d' |}).
Proof.
  intros Hha Haa Hfile Hhv Hnone Hal.
  unfold MemoryBackend_new.
  step (alloc_fresh _ _ _).
  erewrite (mbind_ok _ _ _ _ tt); [reflexivity|].
  unfold MemoryBackend_init.
  step (GridBackend_init_end _ _ _). fold (init_attrs (length h)).
  unfold deref at 1. unfold mbind at 1. cbv beta iota.
  step Hfile.
  step_by (by apply getattr_raw_end). rewrite Hnone.
  erewrite (mbind_ok _ _ _ _ tt).
  2:{ step_by (eapply dict_entries_at; cbn [heap]; by apply lookup_app_l_Some).
      by rewrite bool_decide_eq_true_2. }
  cbv beta.
  step_by (by apply getattr_raw_end).
  step (deref_after_end _ _ _ _ _). cbv beta iota.
  erewrite (mbind_ok _ _ _ _ tt); [apply setattr_raw_end|].
  step_by (eapply dict_entries_at; cbn [heap]; by apply lookup_app_l_Some).
  unfold update. cbn [heap disk]. by rewrite insert_after_end.
Qed.

Lemma MemoryBackend_new_file_raises (h : list obj) (d : gmap string file) (f : string)
    (e : exn) (st' : state) (seds' grid' cov_diag' cov_offdiag' header aliases : value) :
  _from_File (VRef (length h)) (VStr f)
      {| heap := h ++ [Instance MemoryBackend (init_attrs (length h)); Dict ∅]; disk := d |}
    = (Raise e, st') ->
  MemoryBackend_new (VStr f) seds' grid' cov_diag' cov_offdiag' header aliases
      {| heap := h; disk := d |}
    = (Raise e, st').
Proof.
  intros Hfile. unfold MemoryBackend_new.
  step (alloc_fresh _ _ _).
  erewrite mbind_raise; [reflexivity|].
  unfold MemoryBackend_init.
  step (GridBackend_init_end _ _ _). fold (init_attrs (length h)).
  unfold deref at 1. unfold mbind at 1. cbv beta iota.
  by erewrite mbind_raise.
Qed.

(** An HDF file with [covdiag] and without [covoffdiag] cannot be read:
    the test made before [covoffdiag] is read is on [covdiag]. *)
Lemma _from_File_hdf_covdiag_only (h : list obj) (d : gmap string file) (f : string)
    (hf : hdf) (sa la cda : array) (attrs0 : gmap string value) (o0 : obj) :
  _get_type (VStr f) = Ok "hdf" -> d !! f = Some (HdfFile hf) ->
  datasets hf !! "seds" = Some sa -> datasets hf !! "lamb" = Some la ->
  datasets hf !! "covdiag" = Some cda -> datasets hf !! "covoffdiag" = None ->
  exists st' : state,
    _from_File (VRef (length h)) (VStr f)
        {| heap := h ++ [Instance MemoryBackend attrs0; o0]; disk := d |}
      = (Raise (KeyError "Unable to open object (object 'covoffdiag' doesn't exist)"), st').
Proof.
  intros Hty Hfile Hseds Hlamb Hcd Hco. eexists. unfold _from_File.
  unfold lift at 1. rewrite Hty. unfold mbind at 1. cbn [String.eqb Ascii.eqb Bool.eqb].
  erewrite mbind_raise; [reflexivity|].
  step_by (apply h5_open_at; exact Hfile).
  rewrite (h5_dataset_at _ _ _ Hseds).
  step (alloc_end _ _ _ _). cbn [length app].
  step_by (apply setattr_plain_end; [by repeat constructor|done]).
  rewrite (h5_dataset_at _ _ _ Hlamb).
  step (alloc_end _ _ _ _). cbn [length app].
  step_by (apply setattr_plain_end; [by repeat constructor|done]).
  unfold h5_has. rewrite Hcd. cbn [present orb].
  rewrite (h5_dataset_at _ _ _ Hcd).
  erewrite (mbind_ok _ _ _ _ tt).
  2:{ step (alloc_end _ _ _ _). cbn [length app].
      apply setattr_plain_end; [by repeat constructor|done]. }
  cbv beta.
  erewrite mbind_raise; [reflexivity|].
  erewrite mbind_raise; [reflexivity|].
  unfold h5_dataset. rewrite Hco. reflexivity.
Qed.

(** X11. From an HDF file the two covariance terms depend on the dataset
    [covdiag] alone: without it both attributes are [None], whether the
    file holds [covoffdiag] or not, and with it and without [covoffdiag]
    the file cannot be read. In the first case the constructor returns
    the new backend unless the table has a [filters] attribute in bytes
    that cannot be decoded, which is found after the attributes are set. *)
Theorem MemoryBackend_hdf_covariance (st : state) (f : string) (hf : hdf) (sa la : array)
    (cols : columns) (tattrs : list (string * value)) (ha aa : loc) (ae : gmap string value)
    (seds' grid' cov_diag' cov_offdiag' : value) :
  _get_type (VStr f) = Ok "hdf" -> disk st !! f = Some (HdfFile hf) ->
  datasets hf !! "seds" = Some sa -> datasets hf !! "lamb" = Some la ->
  grid_table hf = Some (cols, tattrs) ->
  heap st !! ha = Some (Dict ∅) -> heap st !! aa = Some (Dict ae) ->
  (datasets hf !! "covdiag" = None ->
   exists (st' : state) (attrs : gmap string value),
     MemoryBackend_new (VStr f) seds' grid' cov_diag' cov_offdiag' (VRef ha) (VRef aa) st
       = ((if decodable (list_to_map tattrs) then Ok (VRef (length (heap st)))
           else Raise undecodable), st')
     /\ attrs_at st' (length (heap st)) = Some attrs
     /\ attrs !! "cov_diag" = Some VNone /\ attrs !! "cov_offdiag" = Some VNone)
  /\ (is_Some (datasets hf !! "covdiag") -> datasets hf !! "covoffdiag" = None ->
      exists st' : state,
        MemoryBackend_new (VStr f) seds' grid' cov_diag' cov_offdiag' (VRef ha) (VRef aa) st
          = (Raise (KeyError "Unable to open object (object 'covoffdiag' doesn't exist)"),
             st')).
Proof.
  intros Hty Hfile Hseds Hlamb Hgrid Hha Haa. destruct st as [h d]. cbn [heap disk] in *.
  split.
  - intros Hcov.
    pose proof (_from_File_hdf_without_covdiag h d f hf sa la cols tattrs Hty Hfile Hseds
                  Hlamb Hgrid (init_attrs (length h)) (Dict ∅) Hcov) as Hfrom.
    destruct (decodable (list_to_map tattrs)).
    + eexists _, _. split; [|split].
      * eapply MemoryBackend_new_file; [exact Hha|exact Haa|exact Hfrom| | |].
        -- by simplify_map_eq.
        -- done.
        -- unfold init_attrs. by simplify_map_eq.
      * unfold attrs_at. cbn [heap]. by rewrite lookup_at_end.
      * split; by simplify_map_eq.
    + eexists _, _. split; [|split].
      * eapply MemoryBackend_new_file_raises. exact Hfrom.
      * unfold attrs_at. cbn [heap]. by rewrite lookup_at_end.
      * split; by simplify_map_eq.
  - intros [cda Hcd] Hco.
    destruct (_from_File_hdf_covdiag_only h d f hf sa la cda (init_attrs (length h)) (Dict ∅)
                Hty Hfile Hseds Hlamb Hcd Hco) as [st' Hraise].
    exists st'. by apply MemoryBackend_new_file_raises.
Qed.

Lemma MemoryBackend_hdf_covariance_witness :
  (exists (st' : state) (attrs : gmap string value),
      MemoryBackend_new (VStr "grid.hd5") VNone VNone VNone VNone (VRef 0) (VRef 0)
          {| heap := [Dict ∅]; disk := {["grid.hd5" := HdfFile example_hdf_offdiag]} |}
        = (Ok (VRef 1), st')
      /\ attrs_at st' 1 = Some attrs
      /\ attrs !! "cov_diag" = Some VNone /\ attrs !! "cov_offdiag" = Some VNone)
  /\ (exists st' : state,
        MemoryBackend_new (VStr "grid.hd5") VNone VNone VNone VNone (VRef 0) (VRef 0)
            {| heap := [Dict ∅]; disk := {["grid.hd5" := HdfFile example_hdf_diag]} |}
          = (Raise (KeyError "Unable to open object (object 'covoffdiag' doesn't exist)"),
             st')).
Proof.
  split.
  - refine (proj1 (MemoryBackend_hdf_covariance
                     {| heap := [Dict ∅]; disk := {["grid.hd5" := HdfFile example_hdf_offdiag]} |}
                     "grid.hd5" example_hdf_offdiag _ _ _ _ 0 0 ∅ VNone VNone VNone VNone
                     eq_refl eq_refl eq_refl eq_refl eq_refl eq_refl eq_refl) eq_refl).
  - refine (proj2 (MemoryBackend_hdf_covariance
                     {| heap := [Dict ∅]; disk := {["grid.hd5" := HdfFile example_hdf_diag]} |}
                     "grid.hd5" example_hdf_diag _ _ _ _ 0 0 ∅ VNone VNone VNone VNone
                     eq_refl eq_refl eq_refl eq_refl eq_refl eq_refl eq_refl) _ eq_refl).
    by eexists.
Defined.

(** ** Writing, then reading *)

Lemma array_at_inv (st : state) (v : value) (a : array) :
  array_at st v = Some a -> exists l : loc, v = VRef l /\ heap st !! l = Some (Ndarray a).
Proof.
  destruct v as [| | |l]; try discriminate. unfold array_at.
  destruct (heap st !! l) as [[]|] eqn:Hl; try discriminate.
  intros [= ->]. by exists l.
Qed.

Lemma columns_at_inv (st : state) (v : value) (cols : columns) :
  columns_at st v = Some cols ->
  exists (l : loc) (meta : value), v = VRef l /\ heap st !! l = Some (Table cols meta).
Proof.
  destruct v as [| | |l]; try discriminate. unfold columns_at.
  destruct (heap st !! l) as [[]|] eqn:Hl; try discriminate.
  intros [= ->]. by eexists l, _.
Qed.

Lemma dict_at_inv (st : state) (v : value) (m : gmap string value) :
  dict_at st v = Some m -> exists l : loc, v = VRef l /\ heap st !! l = Some (Dict m).
Proof.
  destruct v as [| | |l]; try discriminate. unfold dict_at.
  destruct (heap st !! l) as [[]|] eqn:Hl; try discriminate.
  intros [= ->]. by exists l.
Qed.

Lemma grid_contents_inv (st : state) (self : loc) (la sa : array) (cols : columns)
    (hm : gmap string value) :
  grid_contents st self = Some (la, sa, cols, hm) ->
  exists (cls : class) (attrs : gmap string value) (ll sl gl hl : loc) (meta : value),
    heap st !! self = Some (Instance cls attrs)
    /\ attrs !! "lamb" = Some (VRef ll) /\ heap st !! ll = Some (Ndarray la)
    /\ attrs !! "seds" = Some (VRef sl) /\ heap st !! sl = Some (Ndarray sa)
    /\ attrs !! "grid" = Some (VRef gl) /\ heap st !! gl = Some (Table cols meta)
    /\ attrs !! "_header" = Some (VRef hl) /\ heap st !! hl = Some (Dict hm).
Proof.
  unfold grid_contents, attrs_at. intros H.
  destruct (heap st !! self) as [[| | | | | |cls attrs]|] eqn:Hself; try discriminate.
  cbn in H.
  destruct (attrs !! "lamb") as [lamb|] eqn:Hlamb; [|discriminate]. cbn in H.
  destruct (array_at st lamb) as [la'|] eqn:Hla; [|discriminate]. cbn in H.
  destruct (attrs !! "seds") as [seds|] eqn:Hseds; [|discriminate]. cbn in H.
  destruct (array_at st seds) as [sa'|] eqn:Hsa; [|discriminate]. cbn in H.
  destruct (attrs !! "grid") as [grid|] eqn:Hgrid; [|discriminate]. cbn in H.
  destruct (columns_at st grid) as [cols'|] eqn:Hcols; [|discriminate]. cbn in H.
  destruct (attrs !! "_header") as [header|] eqn:Hheader; [|discriminate]. cbn in H.
  destruct (dict_at st header) as [hm'|] eqn:Hhm; [|discriminate]. cbn in H.
  injection H as -> -> -> ->.
  apply array_at_inv in Hla as (ll & -> & Hla).
  apply array_at_inv in Hsa as (sl & -> & Hsa).
  apply columns_at_inv in Hcols as (gl & meta & -> & Hcols).
  apply dict_at_inv in Hhm as (hl & -> & Hhm).
  by exists cls, attrs, ll, sl, gl, hl, meta.
Qed.

Lemma grid_contents_intro (st : state) (self : loc) (cls : class)
    (attrs : gmap string value) (ll sl gl hl : loc) (meta : value)
    (la sa : array) (cols : columns) (hm : gmap string value) :
  heap st !! self = Some (Instance cls attrs) ->
  attrs !! "lamb" = Some (VRef ll) -> heap st !! ll = Some (Ndarray la) ->
  attrs !! "seds" = Some (VRef sl) -> heap st !! sl = Some (Ndarray sa) ->
  attrs !! "grid" = Some (VRef gl) -> heap st !! gl = Some (Table cols meta) ->
  attrs !! "_header" = Some (VRef hl) -> heap st !! hl = Some (Dict hm) ->
  grid_contents st self = Some (la, sa, cols, hm).
Proof.
  intros Hself Hlamb Hla Hseds Hsa Hgrid Hta Hheader Hhm.
  unfold grid_contents, attrs_at. rewrite Hself. cbn.
  rewrite Hlamb. cbn. rewrite Hla. cbn.
  rewrite Hseds. cbn. rewrite Hsa. cbn.
  rewrite Hgrid. cbn. rewrite Hta. cbn.
  rewrite Hheader. cbn. by rewrite Hhm.
Qed.

(** X12. What [writeHDF] writes for a [MemoryBackend] without covariance
    terms, whose header names no filters and holds plain texts only (each
    entry a [str] without U+0000), is what [MemoryBackend] reads back from
    the file: the same wavelengths, SEDs, columns and header entries, in
    new objects. *)
Theorem writeHDF_then_read (S : hdfstore) (st : state) (l ha aa : loc)
    (attrs ae hm : gmap string value) (la sa : array) (cols : columns)
    (name : string) (append : bool) :
  heap st !! l = Some (Instance MemoryBackend attrs) ->
  attrs !! "cov_diag" = Some VNone -> attrs !! "cov_offdiag" = Some VNone ->
  grid_contents st l = Some (la, sa, cols, hm) ->
  hm !! "filters" = None -> hm !! "FILTERS" = None -> text_header hm ->
  _get_type (VStr name) = Ok "hdf" ->
  heap st !! ha = Some (Dict ∅) -> heap st !! aa = Some (Dict ae) ->
  exists st' : state,
    (writeHDF S (VRef l) (VStr name) append;;;
     MemoryBackend_new (VStr name) VNone VNone VNone VNone (VRef ha) (VRef aa)) st
      = (Ok (VRef (length (heap st))), st')
    /\ grid_contents st' (length (heap st)) = Some (la, sa, cols, hm).
Proof.
  intros Hself Hcd Hco Hcontents Hf1 Hf2 Htext Hty Hha Haa.
  destruct (grid_contents_inv _ _ _ _ _ _ Hcontents)
    as (cls & attrs' & ll & sl & gl & hl & meta & Hself' & Hlamb & Hla & Hseds & Hsa
        & Hgrid & Hta & Hheader & Hhm).
  rewrite Hself in Hself'. injection Hself' as <- <-.
  set (h1 := <[gl := Table cols (VRef hl)]> (heap st)).
  set (hf := {| datasets := <["lamb" := la]> (<["seds" := sa]> ∅);
                grid_table := Some (cols, map_to_list hm) |}).
  assert (Hlen : length h1 = length (heap st)) by apply length_insert.
  assert (Hha1 : h1 !! ha = Some (Dict ∅)) by (by eapply lookup_insert_other).
  assert (Haa1 : h1 !! aa = Some (Dict ae)) by (by eapply lookup_insert_other).
  assert (Hdec : decodable (list_to_map (map_to_list hm)) = true).
  { rewrite list_to_map_to_list. unfold decodable. by rewrite Hf1. }
  eexists. split.
  - erewrite (mbind_ok _ _ _ _ tt);
      [|by eapply (writeHDF_without_cov S st l attrs ll sl gl hl la sa cols meta hm)].
    cbv beta. fold h1 hf. rewrite <- Hlen.
    eapply (MemoryBackend_new_file h1 _ _ name ha aa ae); [exact Hha1|exact Haa1| | | |].
    + pose proof (_from_File_hdf_without_covdiag h1 (<[name := HdfFile hf]> (disk st)) name hf
                    sa la cols (map_to_list hm) Hty (lookup_insert_eq _ _ _) eq_refl eq_refl
                    eq_refl (init_attrs (length h1)) (Dict ∅) eq_refl) as Hfrom.
      rewrite Hdec in Hfrom. exact Hfrom.
    + by simplify_map_eq.
    + done.
    + unfold init_attrs. by simplify_map_eq.
  - rewrite <- Hlen.
    eapply (grid_contents_intro _ _ _ _ (length h1 + 3) (length h1 + 2) (length h1 + 5)
              (length h1 + 4)); cbn [heap].
    + apply lookup_at_end.
    + by simplify_map_eq.
    + by rewrite lookup_new.
    + by simplify_map_eq.
    + by rewrite lookup_new.
    + by simplify_map_eq.
    + by rewrite lookup_new.
    + by simplify_map_eq.
    + rewrite lookup_new. cbn. rewrite list_to_map_to_list. unfold decoded. by rewrite Hf1.
Qed.

Lemma writeHDF_then_read_witness :
  exists st' : state,
    (writeHDF no_store (VRef 6) (VStr "grid.hd5") false;;;
     MemoryBackend_new (VStr "grid.hd5") VNone VNone VNone VNone (VRef 4) (VRef 4))
        example_named
      = (Ok (VRef (length (heap example_named))), st')
    /\ grid_contents st' (length (heap example_named))
       = Some (Vec [1%Q; 2%Q], Mat [[1%Q; 2%Q]; [3%Q; 4%Q]], [("logA", [6%Q; 7%Q])],
               <["NAME" := VStr "grid"]> ∅).
Proof.
  assert (Htext : text_header (<["NAME" := VStr "grid"]> ∅)).
  { apply map_Forall_insert_2; [reflexivity|apply map_Forall_empty]. }
  exact (writeHDF_then_read no_store example_named 6 4 4 example_attrs ∅
           (<["NAME" := VStr "grid"]> ∅)
           _ _ _ "grid.hd5" false eq_refl eq_refl eq_refl eq_refl eq_refl eq_refl Htext
           eq_refl eq_refl eq_refl).
Defined.

Lemma Table_of_recarray (h t : list obj) (d : gmap string file) (k : nat) (cols : columns) :
  t !! k = Some (Recarray cols) ->
  Table_of (VRef (length h + k)) {| heap := h ++ t; disk := d |}
    = (Ok (VRef (length h + S (length t))),
       {| heap := h ++ t ++ [Dict ∅; Table cols (VRef (length h + length t))]; disk := d |}).
Proof.
  intros Hk. unfold Table_of.
  step_by (eapply deref_at; cbn [heap]; by rewrite lookup_new). cbv beta iota.
  step (alloc_end _ _ _ _).
  rewrite (alloc_end h (t ++ [_])), length_app, <- app_assoc. cbn [length app].
  by rewrite Nat.add_1_r.
Qed.

Ltac not_in_list :=
  let H := fresh in
  intros H; repeat (apply elem_of_cons in H as [H|H]; [discriminate H|]);
  by apply elem_of_nil in H.

Section FromFITS.

Variables (h : list obj) (d : gmap string file) (f : string) (x : fits).
Variables (sa : array) (cols : columns) (cards : gmap string value).
Hypothesis Hty : _get_type (VStr f) = Ok "fits".
Hypothesis Hfile : d !! f = Some (FitsFile x).
Hypothesis Hseds : seds_hdu x = Some sa.
Hypothesis Hcd : covdiag_hdu x = None.
Hypothesis Hco : covoffdiag_hdu x = None.
Hypothesis Hgrid : table_hdu x = Some ("GRID", cols, cards).

(** From a FITS file of the new layout the table is made of the data of
    the [GRID] extension alone: its [meta], which becomes the header, is
    empty whatever cards the extension carries. *)
Lemma _from_File_fits_without_cov (attrs0 : gmap string value) (o0 : obj) :
  _from_File (VRef (length h)) (VStr f)
      {| heap := h ++ [Instance MemoryBackend attrs0; o0]; disk := d |}
    = (Ok tt,
       {| heap := h ++ [Instance MemoryBackend
                          (<["_header" := VRef (length h + 5)]>
                             (<["grid" := VRef (length h + 6)]>
                                (<["cov_offdiag" := VNone]>
                                   (<["cov_diag" := VNone]>
                                      (<["seds" := VRef (length h + 3)]>
                                         (<["lamb" := VRef (length h + 2)]> attrs0))))));
                        o0;
                        Ndarray (primary x);
                        Ndarray sa;
                        Recarray cols;
                        Dict ∅;
                        Table cols (VRef (length h + 5))];
          disk := d |}).
Proof.
  assert (Hext : extnames x = ["seds"; "grid"]).
  { unfold extnames. by rewrite Hseds, Hcd, Hco, Hgrid. }
  unfold _from_File.
  unfold lift at 1. rewrite Hty. unfold mbind at 1. cbn [String.eqb Ascii.eqb Bool.eqb].
  erewrite (mbind_ok _ _ _
              {| heap := h ++ [Instance MemoryBackend
                                 (<["grid" := VRef (length h + 6)]>
                                    (<["cov_offdiag" := VNone]>
                                       (<["cov_diag" := VNone]>
                                          (<["seds" := VRef (length h + 3)]>
                                             (<["lamb" := VRef (length h + 2)]> attrs0)))));
                               o0;
                               Ndarray (primary x);
                               Ndarray sa;
                               Recarray cols;
                               Dict ∅;
                               Table cols (VRef (length h + 5))];
                 disk := d |} tt).
  2:{ step_by (apply fits_open_at; exact Hfile).
      rewrite Hext.
      rewrite (bool_decide_eq_true_2 ("seds" ∈ ["seds"; "grid"])) by (by repeat constructor).
      rewrite (bool_decide_eq_false_2 ("covdiag" ∈ ["seds"; "grid"])) by not_in_list.
      rewrite (bool_decide_eq_false_2 ("covoffdiag" ∈ ["seds"; "grid"])) by not_in_list.
      step (alloc_end _ _ _ _). cbn [length app].
      step_by (apply setattr_plain_end; [by repeat constructor|done]).
      rewrite (fits_data_image x "seds" sa) by (by repeat constructor || exact Hseds).
      step (alloc_end _ _ _ _). cbn [length app].
      step_by (apply setattr_plain_end; [by repeat constructor|done]).
      step_by (apply setattr_plain_end; [by repeat constructor|done]).
      step_by (apply setattr_plain_end; [by repeat constructor|done]).
      assert (Hdata : fits_data x "grid" = alloc (Recarray cols)).
      { unfold fits_data. by rewrite Hgrid. }
      rewrite Hdata.
      step (alloc_end _ _ _ _). cbn [length app].
      step_by (apply (Table_of_recarray h _ d 4); reflexivity).
      cbn [length app].
      apply setattr_plain_end; [by repeat constructor|done]. }
  cbv beta.
  step_by (eapply getattr_at; [apply lookup_at_end|by repeat constructor|done|by simplify_map_eq]).
  step_by (eapply table_meta_at; cbn [heap]; by rewrite lookup_new).
  step (setattr_raw_end _ _ _ _ _ _ _).
  step_by (apply getattr_raw_end; by simplify_map_eq).
  step_by (eapply dict_entries_at; cbn [heap]; by rewrite lookup_new).
  reflexivity.
Qed.

End FromFITS.

(** X13. What [writeFITS] writes for a [MemoryBackend] without covariance
    terms is read back by [MemoryBackend] with the same wavelengths, SEDs
    and columns, and with an empty header: the cards written for the
    [meta] of the table are not read. *)
Theorem writeFITS_then_read (st : state) (l ha aa gl ml : loc)
    (attrs ae hm m : gmap string value) (la sa : array) (cols : columns)
    (name : string) (overwrite : bool) :
  heap st !! l = Some (Instance MemoryBackend attrs) ->
  attrs !! "cov_diag" = Some VNone -> attrs !! "cov_offdiag" = Some VNone ->
  grid_contents st l = Some (la, sa, cols, hm) ->
  attrs !! "grid" = Some (VRef gl) -> heap st !! gl = Some (Table cols (VRef ml)) ->
  heap st !! ml = Some (Dict m) ->
  present (disk st !! name) && negb overwrite = false ->
  _get_type (VStr name) = Ok "fits" ->
  heap st !! ha = Some (Dict ∅) -> heap st !! aa = Some (Dict ae) ->
  exists st' : state,
    (writeFITS (VRef l) (VStr name) overwrite;;;
     MemoryBackend_new (VStr name) VNone VNone VNone VNone (VRef ha) (VRef aa)) st
      = (Ok (VRef (length (heap st))), st')
    /\ grid_contents st' (length (heap st)) = Some (la, sa, cols, ∅).
Proof.
  intros Hself Hcd Hco Hcontents Hgrid Hta Hm Hnew Hty Hha Haa.
  destruct (grid_contents_inv _ _ _ _ _ _ Hcontents)
    as (cls & attrs' & ll & sl & gl' & hl & meta & Hself' & Hlamb & Hla & Hseds & Hsa
        & Hgrid' & Hta' & Hheader & Hhm).
  rewrite Hself in Hself'. injection Hself' as <- <-.
  assert (Hcls : MemoryBackend <> CacheBackend) by done.
  eexists. split.
  - erewrite (mbind_ok _ _ _ _ tt);
      [|by eapply (writeFITS_without_cov st l MemoryBackend attrs ll sl gl ml la sa cols m)].
    cbv beta.
    eapply (MemoryBackend_new_file (heap st) _ _ name ha aa ae); [exact Hha|exact Haa| | | |].
    + eapply (_from_File_fits_without_cov (heap st) _ name _ sa cols (header_cards m));
        [exact Hty|apply lookup_insert_eq|done|done|done|done].
    + by simplify_map_eq.
    + done.
    + unfold init_attrs. by simplify_map_eq.
  - eapply (grid_contents_intro _ _ _ _ (length (heap st) + 2) (length (heap st) + 3)
              (length (heap st) + 6) (length (heap st) + 5)); cbn [heap].
    + apply lookup_at_end.
    + by simplify_map_eq.
    + by rewrite lookup_new.
    + by simplify_map_eq.
    + by rewrite lookup_new.
    + by simplify_map_eq.
    + by rewrite lookup_new.
    + by simplify_map_eq.
    + by rewrite lookup_new.
Qed.

Lemma writeFITS_then_read_witness :
  grid_contents example_named 6
    = Some (Vec [1%Q; 2%Q], Mat [[1%Q; 2%Q]; [3%Q; 4%Q]], [("logA", [6%Q; 7%Q])],
            <["NAME" := VStr "grid"]> ∅)
  /\ exists st' : state,
      (writeFITS (VRef 6) (VStr "grid.fits") false;;;
       MemoryBackend_new (VStr "grid.fits") VNone VNone VNone VNone (VRef 4) (VRef 4))
          example_named
        = (Ok (VRef (length (heap example_named))), st')
      /\ grid_contents st' (length (heap example_named))
         = Some (Vec [1%Q; 2%Q], Mat [[1%Q; 2%Q]; [3%Q; 4%Q]], [("logA", [6%Q; 7%Q])], ∅).
Proof.
  split; [reflexivity|].
  exact (writeFITS_then_read example_named 6 4 4 3 2 example_attrs ∅
           (<["NAME" := VStr "grid"]> ∅) (<["NAME" := VStr "grid"]> ∅)
           _ _ _ "grid.fits" false eq_refl eq_refl eq_refl eq_refl eq_refl eq_refl eq_refl
           eq_refl eq_refl eq_refl eq_refl).
Defined.

Section FromOldFITS.

Variables (h : list obj) (d : gmap string file) (f : string) (x : fits).
Variables (rows : list (list Q)) (r : list Q).
Variables (tname : string) (cols : columns) (cards : gmap string value).
Hypothesis Hty : _get_type (VStr f) = Ok "fits".
Hypothesis Hfile : d !! f = Some (FitsFile x).
Hypothesis Hold : "seds" ∉ extnames x.
Hypothesis Hprimary : primary x = Mat rows.
Hypothesis Hlast : last rows = Some r.
Hypothesis Hgrid : table_hdu x = Some (tname, cols, cards).

Lemma Table_read_fits_end (t : list obj) :
  Table_read_fits (VStr f) {| heap := h ++ t; disk := d |}
    = (Ok (VRef (length h + S (length t))),
       {| heap := h ++ t ++ [Dict (table_cards tname cards);
                             Table cols (VRef (length h + length t))];
          disk := d |}).
Proof.
  unfold Table_read_fits.
  step_by (apply fits_open_at; exact Hfile).
  rewrite Hgrid.
  step (alloc_end _ _ _ _).
  rewrite (alloc_end h (t ++ [_])), length_app, <- app_assoc. cbn [length app].
  by rewrite Nat.add_1_r.
Qed.

(** From a FITS file of the old layout: the last row of the primary array
    is the wavelengths, the other rows are the SEDs, the header is the
    cards of the table with its name, and no covariance attribute is set. *)
Lemma _from_File_fits_old (attrs0 : gmap string value) (o0 : obj) :
  _from_File (VRef (length h)) (VStr f)
      {| heap := h ++ [Instance MemoryBackend attrs0; o0]; disk := d |}
    = ((if decodable (table_cards tname cards) then Ok tt else Raise undecodable),
       {| heap := h ++ [Instance MemoryBackend
                          (<["_header" := VRef (length h + 4)]>
                             (<["grid" := VRef (length h + 5)]>
                                (<["lamb" := VRef (length h + 3)]>
                                   (<["seds" := VRef (length h + 2)]> attrs0))));
                        o0;
                        Ndarray (Mat (removelast rows));
                        Ndarray (Vec r);
                        Dict (decoded (table_cards tname cards));
                        Table cols (VRef (length h + 4))];
          disk := d |}).
Proof.
  unfold _from_File.
  unfold lift at 1. rewrite Hty. unfold mbind at 1. cbn [String.eqb Ascii.eqb Bool.eqb].
  erewrite (mbind_ok _ _ _
              {| heap := h ++ [Instance MemoryBackend
                                 (<["grid" := VRef (length h + 5)]>
                                    (<["lamb" := VRef (length h + 3)]>
                                       (<["seds" := VRef (length h + 2)]> attrs0)));
                               o0;
                               Ndarray (Mat (removelast rows));
                               Ndarray (Vec r);
                               Dict (table_cards tname cards);
                               Table cols (VRef (length h + 4))];
                 disk := d |} tt).
  2:{ step_by (apply fits_open_at; exact Hfile).
      rewrite (bool_decide_eq_false_2 _ Hold).
      step_by (apply fits_open_at; exact Hfile).
      rewrite Hprimary. cbn [old_format_seds old_format_lamb]. rewrite Hlast.
      step (alloc_end _ _ _ _). cbn [length app].
      step_by (apply setattr_plain_end; [by repeat constructor|done]).
      unfold lift at 1. unfold mbind at 1.
      step (alloc_end _ _ _ _). cbn [length app].
      step_by (apply setattr_plain_end; [by repeat constructor|done]).
      step (Table_read_fits_end _). cbn [length app].
      apply setattr_plain_end; [by repeat constructor|done]. }
  cbv beta.
  step_by (eapply getattr_at; [apply lookup_at_end|by repeat constructor|done|by simplify_map_eq]).
  step_by (eapply table_meta_at; cbn [heap]; by rewrite lookup_new).
  step (setattr_raw_end _ _ _ _ _ _ _).
  step_by (apply getattr_raw_end; by simplify_map_eq).
  step_by (eapply dict_entries_at; cbn [heap]; by rewrite lookup_new).
  unfold decoded, decodable.
  destruct (table_cards tname cards !! "filters") as [[| |b|]|] eqn:Hf; try reflexivity.
  unfold decode, lift. destruct (valid_utf8 b); [|reflexivity].
  unfold mbind at 1.
  erewrite dict_setitem_at by (cbn [heap]; by rewrite lookup_new).
  cbn [heap disk]. by rewrite insert_app_r.
Qed.

End FromOldFITS.

(** X14. A FITS file without a [SEDS] extension is read in the old layout:
    the wavelengths are the last row of the primary array, the SEDs are
    the rows before it, the header is what [Table.read] keeps of the
    header of the table, its name under [EXTNAME] and the cards that do
    not describe its layout, and the instance gets no covariance
    attribute. The constructor returns the new backend unless the header
    has a [filters] entry in bytes that cannot be decoded, which is found
    after the attributes are set. *)
Theorem MemoryBackend_old_layout (st : state) (f : string) (x : fits)
    (rows : list (list Q)) (r : list Q) (tname : string) (cols : columns)
    (cards ae : gmap string value) (ha aa : loc) (seds' grid' cov_diag' cov_offdiag' : value) :
  _get_type (VStr f) = Ok "fits" -> disk st !! f = Some (FitsFile x) ->
  "seds" ∉ extnames x -> primary x = Mat rows -> last rows = Some r ->
  table_hdu x = Some (tname, cols, cards) ->
  heap st !! ha = Some (Dict ∅) -> heap st !! aa = Some (Dict ae) ->
  exists (st' : state) (attrs : gmap string value),
    MemoryBackend_new (VStr f) seds' grid' cov_diag' cov_offdiag' (VRef ha) (VRef aa) st
      = ((if decodable (table_cards tname cards) then Ok (VRef (length (heap st)))
          else Raise undecodable), st')
    /\ attrs_at st' (length (heap st)) = Some attrs
    /\ grid_contents st' (length (heap st))
       = Some (Vec r, Mat (removelast rows), cols, decoded (table_cards tname cards))
    /\ attrs !! "cov_diag" = None /\ attrs !! "cov_offdiag" = None.
Proof.
  intros Hty Hfile Hold Hprimary Hlast Hgrid Hha Haa.
  destruct st as [h d]. cbn [heap disk] in *.
  pose proof (_from_File_fits_old h d f x rows r tname cols cards Hty Hfile Hold Hprimary
                Hlast Hgrid (init_attrs (length h)) (Dict ∅)) as Hfrom.
  destruct (decodable (table_cards tname cards)).
  - eexists _, _. split; [|split; [|split]].
    + eapply MemoryBackend_new_file; [exact Hha|exact Haa|exact Hfrom| | |].
      * by simplify_map_eq.
      * done.
      * unfold init_attrs. by simplify_map_eq.
    + unfold attrs_at. cbn [heap]. by rewrite lookup_at_end.
    + eapply (grid_contents_intro _ _ _ _ (length h + 3) (length h + 2) (length h + 5)
                (length h + 4)); cbn [heap].
      * apply lookup_at_end.
      * by simplify_map_eq.
      * by rewrite lookup_new.
      * by simplify_map_eq.
      * by rewrite lookup_new.
      * by simplify_map_eq.
      * by rewrite lookup_new.
      * by simplify_map_eq.
      * by rewrite lookup_new.
    + unfold init_attrs. split; by simplify_map_eq.
  - eexists _, _. split; [|split; [|split]].
    + eapply MemoryBackend_new_file_raises. exact Hfrom.
    + unfold attrs_at. cbn [heap]. by rewrite lookup_at_end.
    + eapply (grid_contents_intro _ _ _ _ (length h + 3) (length h + 2) (length h + 5)
                (length h + 4)); cbn [heap].
      * apply lookup_at_end.
      * by simplify_map_eq.
      * by rewrite lookup_new.
      * by simplify_map_eq.
      * by rewrite lookup_new.
      * by simplify_map_eq.
      * by rewrite lookup_new.
      * by simplify_map_eq.
      * by rewrite lookup_new.
    + unfold init_attrs. split; by simplify_map_eq.
Qed.

Lemma MemoryBackend_old_layout_witness :
  exists (st' : state) (attrs : gmap string value),
    MemoryBackend_new (VStr "old.fits") VNone VNone VNone VNone (VRef 0) (VRef 0)
        {| heap := [Dict ∅]; disk := {["old.fits" := FitsFile example_old_fits]} |}
      = (Ok (VRef 1), st')
    /\ attrs_at st' 1 = Some attrs
    /\ grid_contents st' 1
       = Some (Vec [10%Q; 20%Q], Mat [[1%Q; 2%Q]; [3%Q; 4%Q]],
               [("logA", [6%Q; 7%Q])],
               <["EXTNAME" := VStr "GRID"]> (<["FILTERS" := VStr "F1 F2"]> ∅))
    /\ attrs !! "cov_diag" = None /\ attrs !! "cov_offdiag" = None.
Proof.
  refine (MemoryBackend_old_layout
            {| heap := [Dict ∅]; disk := {["old.fits" := FitsFile example_old_fits]} |}
            "old.fits" example_old_fits _ _ "GRID" _ _ ∅ 0 0 VNone VNone VNone VNone
            eq_refl eq_refl _ eq_refl eq_refl eq_refl eq_refl eq_refl).
  vm_compute. intros H. inversion H as [|? ? ? H']. inversion H'.
Defined.

(** ** Writing what cannot be written *)

Section WriteNoCovAttribute.

Variables (S : hdfstore) (st : state) (l : loc) (cls : class) (attrs : gmap string value).
Variables (ll sl gl : loc) (la sa : array) (cols : columns) (meta : value).
Hypothesis Hself : heap st !! l = Some (Instance cls attrs).
Hypothesis Hcls : cls <> CacheBackend.
Hypothesis Hlamb : attrs !! "lamb" = Some (VRef ll).
Hypothesis Hseds : attrs !! "seds" = Some (VRef sl).
Hypothesis Hgrid : attrs !! "grid" = Some (VRef gl).
Hypothesis Hcd : attrs !! "cov_diag" = None.
Hypothesis Hla : heap st !! ll = Some (Ndarray la).
Hypothesis Hsa : heap st !! sl = Some (Ndarray sa).
Hypothesis Hta : heap st !! gl = Some (Table cols meta).

Lemma getattr_cov_diag_missing (st' : state) :
  heap st' = heap st ->
  getattr (VRef l) "cov_diag" st'
    = (Raise (AttributeError "object has no attribute 'cov_diag'"), st').
Proof.
  intros Hheap. rewrite <- Hheap in Hself.
  rewrite (getattr_plain_at _ _ _ _ Hself) by (by repeat constructor || done).
  by apply (getattr_raw_missing _ _ _ _ Hself).
Qed.

Lemma writeFITS_no_cov_attribute (fname : value) (overwrite : bool) :
  writeFITS (VRef l) fname overwrite st
    = (Raise (AttributeError "object has no attribute 'cov_diag'"), st).
Proof.
  unfold writeFITS.
  step (full_data_set_at _ _ _ _ Hself _ _ _ Hcls Hlamb Hseds Hgrid). cbn [is_none negb andb].
  step_by (eapply getattr_at; [exact Hself|by repeat constructor|done|done]).
  step (is_table_at _ _ _ _ Hta). cbn [negb].
  step_by (eapply getattr_at; [exact Hself|by repeat constructor|done|done]).
  step (array_data_at _ _ _ Hla).
  step_by (eapply getattr_at; [exact Hself|by repeat constructor|done|done]).
  step (array_data_at _ _ _ Hsa).
  erewrite mbind_raise; [reflexivity|].
  unfold optional_image. erewrite mbind_raise; [reflexivity|].
  by apply getattr_cov_diag_missing.
Qed.

Lemma writeHDF_no_cov_attribute (name : string) (append : bool) :
  writeHDF S (VRef l) (VStr name) append st
    = (Raise (AttributeError "object has no attribute 'cov_diag'"),
       {| heap := heap st;
          disk := <[name := HdfFile {| datasets := <["lamb" := la]> (<["seds" := sa]> ∅);
                                       grid_table := None |}]> (disk st) |}).
Proof.
  unfold writeHDF.
  step (full_data_set_at _ _ _ _ Hself _ _ _ Hcls Hlamb Hseds Hgrid). cbn [is_none negb andb].
  step_by (eapply getattr_at; [exact Hself|by repeat constructor|done|done]).
  step (is_table_at _ _ _ _ Hta). cbn [negb].
  erewrite (mbind_ok (write_disk _ _)) by reflexivity. cbv beta.
  step_by (eapply getattr_at; [exact Hself|by repeat constructor|done|done]).
  step_by (eapply slice_all_array; exact Hsa).
  step_by (eapply array_data_at; exact Hsa).
  step_by (apply h5_setitem_at; cbn [disk]; apply lookup_insert_eq).
  cbn [heap disk datasets grid_table]. rewrite insert_insert_eq.
  step_by (eapply getattr_at; [exact Hself|by repeat constructor|done|done]).
  step_by (eapply slice_all_array; exact Hla).
  step_by (eapply array_data_at; exact Hla).
  step_by (apply h5_setitem_at; cbn [disk]; apply lookup_insert_eq).
  cbn [heap disk datasets grid_table]. rewrite insert_insert_eq.
  erewrite mbind_raise; [reflexivity|].
  unfold optional_dataset. erewrite mbind_raise; [reflexivity|].
  by apply getattr_cov_diag_missing.
Qed.

End WriteNoCovAttribute.

(** X15. A backend that holds arrays and a table and has no attribute
    [cov_diag], as a [MemoryBackend] made from a backend or from a FITS
    file of the old layout, cannot be written: the FITS writer raises an
    [AttributeError] before it writes, and the HDF writer raises it after
    it has replaced the file by one that holds [seds] and [lamb] only. *)
Theorem write_without_cov_attribute (S : hdfstore) (st : state) (l : loc) (cls : class)
    (attrs : gmap string value) (ll sl gl : loc) (la sa : array) (cols : columns)
    (meta : value) (name : string) (flag : bool) :
  heap st !! l = Some (Instance cls attrs) -> cls <> CacheBackend ->
  attrs !! "lamb" = Some (VRef ll) -> attrs !! "seds" = Some (VRef sl) ->
  attrs !! "grid" = Some (VRef gl) -> attrs !! "cov_diag" = None ->
  heap st !! ll = Some (Ndarray la) -> heap st !! sl = Some (Ndarray sa) ->
  heap st !! gl = Some (Table cols meta) ->
  writeFITS (VRef l) (VStr name) flag st
    = (Raise (AttributeError "object has no attribute 'cov_diag'"), st)
  /\ writeHDF S (VRef l) (VStr name) flag st
    = (Raise (AttributeError "object has no attribute 'cov_diag'"),
       {| heap := heap st;
          disk := <[name := HdfFile {| datasets := <["lamb" := la]> (<["seds" := sa]> ∅);
                                       grid_table := None |}]> (disk st) |}).
Proof.
  intros. split.
  - by eapply writeFITS_no_cov_attribute.
  - by eapply writeHDF_no_cov_attribute.
Qed.

Lemma write_without_cov_attribute_witness :
  writeFITS (VRef 8) (VStr "copy.hd5") false example_converted
    = (Raise (AttributeError "object has no attribute 'cov_diag'"), example_converted)
  /\ writeHDF no_store (VRef 8) (VStr "copy.hd5") false example_converted
    = (Raise (AttributeError "object has no attribute 'cov_diag'"),
       {| heap := heap example_converted;
          disk := <["copy.hd5" :=
                      HdfFile {| datasets := <["lamb" := Vec [1%Q; 2%Q]]>
                                               (<["seds" := Mat [[1%Q; 2%Q]; [3%Q; 4%Q]]]> ∅);
                                 grid_table := None |}]> (disk example_converted) |}).
Proof.
  eapply (write_without_cov_attribute no_store example_converted 8 MemoryBackend _ 0 1 3).
  - vm_compute. reflexivity.
  - discriminate.
  - vm_compute. reflexivity.
  - vm_compute. reflexivity.
  - vm_compute. reflexivity.
  - vm_compute. reflexivity.
  - vm_compute. reflexivity.
  - vm_compute. reflexivity.
  - vm_compute. reflexivity.
Defined.

(** X16. [write] never replaces a FITS file: when the name is taken, the
    backend is read in full and then [OSError] is raised, the file staying
    as it was; [writeFITS] replaces it when it is told to overwrite. *)
Theorem write_keeps_existing_fits (S : hdfstore) (st : state) (l : loc) (cls : class)
    (attrs : gmap string value) (ll sl gl ml : loc) (la sa : array) (cols : columns)
    (m : gmap string value) (name : string) (old : file) :
  heap st !! l = Some (Instance cls attrs) -> cls <> CacheBackend ->
  attrs !! "lamb" = Some (VRef ll) -> attrs !! "seds" = Some (VRef sl) ->
  attrs !! "grid" = Some (VRef gl) ->
  attrs !! "cov_diag" = Some VNone -> attrs !! "cov_offdiag" = Some VNone ->
  heap st !! ll = Some (Ndarray la) -> heap st !! sl = Some (Ndarray sa) ->
  heap st !! gl = Some (Table cols (VRef ml)) -> heap st !! ml = Some (Dict m) ->
  _get_type (VStr name) = Ok "fits" -> disk st !! name = Some old ->
  write S (VRef l) (VStr name) st
    = (Raise (OSError ("File " +:+ name +:+ " already exists.")), st)
  /\ exists new : fits,
      writeFITS (VRef l) (VStr name) true st
        = (Ok tt, {| heap := heap st; disk := <[name := FitsFile new]> (disk st) |})
      /\ primary new = la /\ seds_hdu new = Some sa.
Proof.
  intros Hself Hcls Hlamb Hseds Hgrid Hcd Hco Hla Hsa Hta Hm Hty Hold. split.
  - unfold write. unfold lift at 1. rewrite Hty. unfold mbind at 1.
    cbn [String.eqb Ascii.eqb Bool.eqb].
    unfold writeFITS.
    step (full_data_set_at _ _ _ _ Hself _ _ _ Hcls Hlamb Hseds Hgrid).
    cbn [is_none negb andb].
    step_by (eapply getattr_at; [exact Hself|by repeat constructor|done|done]).
    step (is_table_at _ _ _ _ Hta). cbn [negb].
    step_by (eapply getattr_at; [exact Hself|by repeat constructor|done|done]).
    step (array_data_at _ _ _ Hla).
    step_by (eapply getattr_at; [exact Hself|by repeat constructor|done|done]).
    step (array_data_at _ _ _ Hsa).
    step_by (eapply optional_image_none; [exact Hself|by repeat constructor|done|done]).
    step_by (eapply optional_image_none; [exact Hself|by repeat constructor|done|done]).
    step_by (eapply getattr_at; [exact Hself|by repeat constructor|done|done]).
    step (table_contents_at _ _ _ _ _ Hta Hm).
    unfold writeto, mbind, read_disk. by rewrite Hold.
  - eexists. split; [|split].
    + eapply writeFITS_without_cov; try done. by rewrite andb_false_r.
    + done.
    + done.
Qed.

Lemma write_keeps_existing_fits_witness :
  write no_store (VRef 6) (VStr "grid.fits")
      {| heap := heap (example_grid example_attrs); disk := disk example_files |}
    = (Raise (OSError ("File " +:+ "grid.fits" +:+ " already exists.")),
       {| heap := heap (example_grid example_attrs); disk := disk example_files |})
  /\ exists new : fits,
      writeFITS (VRef 6) (VStr "grid.fits") true
          {| heap := heap (example_grid example_attrs); disk := disk example_files |}
        = (Ok tt, {| heap := heap (example_grid example_attrs);
                     disk := <["grid.fits" := FitsFile new]> (disk example_files) |})
      /\ primary new = Vec [1%Q; 2%Q] /\ seds_hdu new = Some (Mat [[1%Q; 2%Q]; [3%Q; 4%Q]]).
Proof.
  eapply (write_keeps_existing_fits no_store
            {| heap := heap (example_grid example_attrs); disk := disk example_files |}
            6 MemoryBackend example_attrs 0 1 3 2 _ _ _ ∅ "grid.fits" (FitsFile example_fits)).
  - reflexivity.
  - discriminate.
  - reflexivity.
  - reflexivity.
  - reflexivity.
  - reflexivity.
  - reflexivity.
  - reflexivity.
  - reflexivity.
  - reflexivity.
  - reflexivity.
  - reflexivity.
  - reflexivity.
Defined.

(** ** The header of an [HDFBackend] *)

Lemma mbind_inv {A B} (c : M A) (k : A -> M B) (st st' : state) (b : B) :
  mbind c k st = (Ok b, st') ->
  exists (a : A) (st1 : state), c st = (Ok a, st1) /\ k a st1 = (Ok b, st').
Proof.
  unfold mbind. destruct (c st) as [[a|e] st1]; [|discriminate].
  intros H. by exists a, st1.
Qed.

(** The loop adds to the header only keys it keeps. *)
Lemma header_loop_keys (self : value) (attrs : list (string * value)) :
  forall (header header' : gmap string value) (st st' : state),
    header_loop self attrs header st = (Ok header', st') ->
    (forall k : string, is_Some (header !! k) -> header_key k) ->
    forall k : string, is_Some (header' !! k) -> header_key k.
Proof.
  induction attrs as [|[k0 v0] rest IH]; intros header header' st st' Hloop Hinv.
  - injection Hloop as <- _. exact Hinv.
  - cbn [header_loop] in Hloop.
    apply mbind_inv in Hloop as (u & st1 & _ & Hrest).
    eapply IH; [exact Hrest|].
    intros k Hk.
    destruct (negb (bool_decide (k0 ∈ exclude)) && negb (prefix5 k0 =? "FIELD")%string
              && negb (prefix5 k0 =? "ALIAS")%string) eqn:Hkeep; [|by apply Hinv].
    destruct (decide (k = k0)) as [->|Hne].
    + apply andb_prop in Hkeep as [Hkeep Halias].
      apply andb_prop in Hkeep as [Hex Hfield].
      apply negb_true_iff in Hex, Hfield, Halias.
      apply bool_decide_eq_false in Hex.
      apply String.eqb_neq in Hfield, Halias. done.
    + rewrite lookup_insert_ne in Hk by done. by apply Hinv.
Qed.

Lemma node_attrs_state (node : value) (st st' : state) (r : result (list (string * value))) :
  node_attrs node st = (r, st') -> st' = st.
Proof.
  unfold node_attrs, mbind, deref, read_disk, ret, raise.
  destruct node as [| | |l]; try (intros [= _ <-]; done).
  destruct (heap st !! l) as [[| | | | |fname path|]|]; try (intros [= _ <-]; done).
  destruct (disk st !! fname) as [[|f]|]; try (intros [= _ <-]; done).
  destruct (path =? "/grid")%string; by intros [= _ <-].
Qed.

Lemma dict_setitem_disk (dv : value) (k : string) (v : value) (st st' : state)
    (r : result unit) :
  dict_setitem dv k v st = (r, st') -> disk st' = disk st.
Proof.
  unfold dict_setitem, mbind, deref, update, raise.
  destruct dv as [| | |l]; try (intros [= _ <-]; done).
  destruct (heap st !! l) as [[]|]; by intros [= _ <-].
Qed.

Lemma header_loop_disk (self : value) (attrs : list (string * value)) :
  forall (header : gmap string value) (st st' : state) (r : result (gmap string value)),
    header_loop self attrs header st = (r, st') -> disk st' = disk st.
Proof.
  induction attrs as [|[k0 v0] rest IH]; intros header st st' r Hloop.
  - by injection Hloop as _ <-.
  - cbn [header_loop] in Hloop. unfold mbind at 1 in Hloop.
    match type of Hloop with
    | context [match ?c st with _ => _ end] => destruct (c st) as [[u|e] st1] eqn:Hstep
    end.
    + apply IH in Hloop. rewrite Hloop. clear Hloop IH.
      destruct (prefix5 k0 =? "ALIAS")%string; [|by injection Hstep as _ <-].
      destruct v0 as [|s| |]; try (by injection Hstep as _ <-).
      destruct (split "=" s) as [|c0 [|c1 [|]]]; try (by injection Hstep as _ <-).
      unfold mbind at 1 in Hstep.
      destruct (getattr_raw self "_aliases" st) as [[a|e] st0] eqn:Hget;
        [|injection Hstep as _ <-; by rewrite (getattr_raw_state _ _ _ _ _ Hget)].
      rewrite (dict_setitem_disk _ _ _ _ _ _ Hstep).
      by rewrite (getattr_raw_state _ _ _ _ _ Hget).
    + injection Hloop as _ <-.
      destruct (prefix5 k0 =? "ALIAS")%string; [|by injection Hstep as _ <-].
      destruct v0 as [|s| |]; try (by injection Hstep as _ <-).
      destruct (split "=" s) as [|c0 [|c1 [|]]]; try (by injection Hstep as _ <-).
      unfold mbind at 1 in Hstep.
      destruct (getattr_raw self "_aliases" st) as [[a|e'] st0] eqn:Hget;
        [|injection Hstep as _ <-; by rewrite (getattr_raw_state _ _ _ _ _ Hget)].
      rewrite (dict_setitem_disk _ _ _ _ _ _ Hstep).
      by rewrite (getattr_raw_state _ _ _ _ _ Hget).
Qed.

Lemma dict_setitem_length (dv : value) (k : string) (v : value) (st st' : state)
    (r : result unit) :
  dict_setitem dv k v st = (r, st') -> length (heap st') = length (heap st).
Proof.
  unfold dict_setitem, mbind, deref, update, raise.
  destruct dv as [| | |l]; try (intros [= _ <-]; done).
  destruct (heap st !! l) as [[]|]; intros [= _ <-]; try done.
  apply length_insert.
Qed.

(** The loop makes no object. *)
Lemma header_loop_length (self : value) (attrs : list (string * value)) :
  forall (header : gmap string value) (st st' : state) (r : result (gmap string value)),
    header_loop self attrs header st = (r, st') -> length (heap st') = length (heap st).
Proof.
  induction attrs as [|[k0 v0] rest IH]; intros header st st' r Hloop.
  - by injection Hloop as _ <-.
  - cbn [header_loop] in Hloop. unfold mbind at 1 in Hloop.
    match type of Hloop with
    | context [match ?c st with _ => _ end] => destruct (c st) as [[u|e] st1] eqn:Hstep
    end.
    + apply IH in Hloop. rewrite Hloop. clear Hloop IH.
      destruct (prefix5 k0 =? "ALIAS")%string; [|by injection Hstep as _ <-].
      destruct v0 as [|s| |]; try (by injection Hstep as _ <-).
      destruct (split "=" s) as [|c0 [|c1 [|]]]; try (by injection Hstep as _ <-).
      unfold mbind at 1 in Hstep.
      destruct (getattr_raw self "_aliases" st) as [[a|e] st0] eqn:Hget;
        [|injection Hstep as _ <-; by rewrite (getattr_raw_state _ _ _ _ _ Hget)].
      rewrite (dict_setitem_length _ _ _ _ _ _ Hstep).
      by rewrite (getattr_raw_state _ _ _ _ _ Hget).
    + injection Hloop as _ <-.
      destruct (prefix5 k0 =? "ALIAS")%string; [|by injection Hstep as _ <-].
      destruct v0 as [|s| |]; try (by injection Hstep as _ <-).
      destruct (split "=" s) as [|c0 [|c1 [|]]]; try (by injection Hstep as _ <-).
      unfold mbind at 1 in Hstep.
      destruct (getattr_raw self "_aliases" st) as [[a|e'] st0] eqn:Hget;
        [|injection Hstep as _ <-; by rewrite (getattr_raw_state _ _ _ _ _ Hget)].
      rewrite (dict_setitem_length _ _ _ _ _ _ Hstep).
      by rewrite (getattr_raw_state _ _ _ _ _ Hget).
Qed.

Lemma setattr_raw_inv (self : value) (name : string) (v : value) (st st' : state) :
  setattr_raw self name v st = (Ok tt, st') ->
  exists (l : loc) (cls : class) (attrs : gmap string value),
    self = VRef l /\ heap st !! l = Some (Instance cls attrs)
    /\ st' = {| heap := <[l := Instance cls (<[name := v]> attrs)]> (heap st); disk := disk st |}.
Proof.
  unfold setattr_raw, mbind, deref, update, raise.
  destruct self as [| | |l]; try discriminate.
  destruct (heap st !! l) as [[| | | | | |cls attrs]|] eqn:Hl; try discriminate.
  intros [= <-]. by exists l, cls, attrs.
Qed.

(** X17. The header an [HDFBackend] builds from the attributes of its table
    holds [NAME] and none of the keys left out: the four excluded names
    and the keys that start with [FIELD] or [ALIAS]. It is a new dict,
    the one object made, kept in [_header], and no file is changed. *)
Theorem HDFBackend_header_keys (self v : value) (st st' : state) :
  getattr_raw self "_header" st = (Ok VNone, st) ->
  HDFBackend_header self st = (Ok v, st') ->
  exists hd : gmap string value,
    dict_at st' v = Some hd
    /\ is_Some (hd !! "NAME")
    /\ (forall k : string, is_Some (hd !! k) -> header_key k)
    /\ getattr_raw self "_header" st' = (Ok v, st')
    /\ disk st' = disk st
    /\ v = VRef (length (heap st)) /\ length (heap st') = S (length (heap st)).
Proof.
  intros Hcur Hheader. unfold HDFBackend_header in Hheader.
  rewrite (mbind_ok _ _ _ _ _ Hcur) in Hheader. cbn [is_none] in Hheader.
  apply mbind_inv in Hheader as (grid & st1 & Hgrid & Hheader).
  pose proof (getattr_raw_state _ _ _ _ _ Hgrid) as ->.
  apply mbind_inv in Hheader as (attrs & st2 & Hattrs & Hheader).
  apply mbind_inv in Hheader as (header & st3 & Hloop & Hheader).
  destruct (header !! "NAME") as [name|] eqn:Hname; [|discriminate].
  set (header' := if empty_name name && negb (empty_name (default VNone (header !! "TITLE")))
                  then <["NAME" := default VNone (header !! "TITLE")]> header else header)
    in Hheader.
  apply mbind_inv in Hheader as (h & st4 & Halloc & Hheader).
  apply mbind_inv in Hheader as ([] & st5 & Hset & Hget).
  pose proof (getattr_raw_state _ _ _ _ _ Hget) as ->.
  unfold alloc in Halloc. injection Halloc as <- <-.
  apply setattr_raw_inv in Hset as (l & cls & sattrs & -> & Hself & ->).
  cbn [heap disk] in *.
  assert (Hl : (l < length (heap st3))%nat).
  { pose proof (lookup_lt_Some _ _ _ Hself) as Hlt. rewrite length_app in Hlt. cbn in Hlt.
    destruct (decide (l = length (heap st3))) as [->|]; [|lia].
    rewrite lookup_app_r, Nat.sub_diag in Hself by lia. discriminate. }
  assert (Hv : v = VRef (length (heap st3))).
  { unfold getattr_raw, mbind, deref in Hget. cbn [heap] in Hget.
    rewrite list_lookup_insert_eq in Hget by (rewrite length_app; lia).
    rewrite lookup_insert_eq in Hget. by injection Hget as <-. }
  assert (Hlen3 : length (heap st3) = length (heap st)).
  { rewrite (header_loop_length _ _ _ _ _ _ Hloop).
    by rewrite (node_attrs_state _ _ _ _ Hattrs). }
  exists header'. split; [|split; [|split; [|split; [|split; [|split]]]]].
  - rewrite Hv. unfold dict_at. cbn [heap].
    rewrite list_lookup_insert_ne by lia.
    by rewrite lookup_app_r, Nat.sub_diag by lia.
  - subst header'. destruct (_ && _); [by rewrite lookup_insert_eq|by rewrite Hname].
  - assert (Hkeys : forall k, is_Some (header !! k) -> header_key k).
    { eapply header_loop_keys; [exact Hloop|]. intros k [? Hk]. by rewrite lookup_empty in Hk. }
    intros k Hk. subst header'. destruct (_ && _); [|by apply Hkeys].
    destruct (decide (k = "NAME")) as [->|Hne]; [by apply Hkeys|].
    rewrite lookup_insert_ne in Hk by done. by apply Hkeys.
  - exact Hget.
  - rewrite (header_loop_disk _ _ _ _ _ _ Hloop).
    by rewrite (node_attrs_state _ _ _ _ Hattrs).
  - by rewrite Hv, Hlen3.
  - rewrite length_insert, length_app, Hlen3. cbn [length]. lia.
Qed.

Lemma HDFBackend_header_keys_witness :
  (exists hd : gmap string value,
      dict_at (HDFBackend_header (VRef 0) example_hdf_header).2 (VRef 3) = Some hd
      /\ is_Some (hd !! "NAME")
      /\ (forall k : string, is_Some (hd !! k) -> header_key k)
      /\ getattr_raw (VRef 0) "_header" (HDFBackend_header (VRef 0) example_hdf_header).2
         = (Ok (VRef 3), (HDFBackend_header (VRef 0) example_hdf_header).2)
      /\ disk (HDFBackend_header (VRef 0) example_hdf_header).2 = disk example_hdf_header
      /\ VRef 3 = VRef (length (heap example_hdf_header))
      /\ length (heap (HDFBackend_header (VRef 0) example_hdf_header).2)
         = S (length (heap example_hdf_header)))
  /\ dict_at (HDFBackend_header (VRef 0) example_hdf_header).2 (VRef 3)
     = Some (<["NAME" := VStr "grid"]>
               (<["TITLE" := VStr "grid"]> (<["FILTERS" := VStr "F1 F2"]> ∅)))
  /\ dict_at (HDFBackend_header (VRef 0) example_hdf_header).2 (VRef 1)
     = Some (<["age" := VStr "logA"]> ∅).
Proof.
  split; [|split].
  - apply (HDFBackend_header_keys (VRef 0) (VRef 3) example_hdf_header).
    + reflexivity.
    + vm_compute. reflexivity.
  - vm_compute. reflexivity.
  - vm_compute. reflexivity.
Defined.

(** ** The filters of a [MemoryBackend] *)

(** The words read from bytes are decoded one by one. *)
Lemma decode_all_bytes (ws : list string) :
  decode_all (map VBytes ws)
    = if forallb valid_utf8 ws then Ok (map VStr ws) else Raise undecodable.
Proof.
  induction ws as [|w ws IH]; [done|].
  cbn [map decode_all forallb]. unfold decode at 1.
  destruct (valid_utf8 w); cbn [bind andb]; [|done].
  rewrite IH. by destruct (forallb valid_utf8 ws).
Qed.

(** X18. The filters of a [MemoryBackend] are the words of the header entry
    [filters], or of [FILTERS] when that one is missing, [None] or
    empty, in a new list of [str]. The words of a [str] are separated by
    the white space of Unicode; those of [bytes] by the white space of
    ASCII, and they are decoded, each of them, so that the first one that
    is not UTF-8 raises [UnicodeDecodeError]. An entry without a word
    raises [IndexError]. Nothing but the new list is changed. *)
Theorem MemoryBackend_filters_words (st : state) (l hl : loc) (cls : class)
    (attrs hm : gmap string value) (r : value) :
  heap st !! l = Some (Instance cls attrs) -> attrs !! "_header" = Some (VRef hl) ->
  heap st !! hl = Some (Dict hm) ->
  py_or (default VNone (hm !! "filters")) (default VNone (hm !! "FILTERS")) = r ->
  (forall s : string,
      r = VStr s ->
      MemoryBackend_filters (VRef l) st
        = match words s with
          | [] => (Raise (IndexError "list index out of range"), st)
          | ws => (Ok (VRef (length (heap st))),
                   {| heap := heap st ++ [PyList (map VStr ws)]; disk := disk st |})
          end)
  /\ (forall b : string,
        r = VBytes b ->
        MemoryBackend_filters (VRef l) st
          = match bytes_words b with
            | [] => (Raise (IndexError "list index out of range"), st)
            | ws =>
                if forallb valid_utf8 ws
                then (Ok (VRef (length (heap st))),
                      {| heap := heap st ++ [PyList (map VStr ws)]; disk := disk st |})
                else (Raise undecodable, st)
            end).
Proof.
  intros Hself Hheader Hhm Hr.
  split.
  - intros s Hs. unfold MemoryBackend_filters.
    step (getattr_raw_at _ _ _ _ Hself _ _ Hheader).
    step (dict_get_at _ _ _ _ Hhm).
    step (getattr_raw_at _ _ _ _ Hself _ _ Hheader).
    step (dict_get_at _ _ _ _ Hhm).
    rewrite Hr, Hs. cbn [is_none].
    unfold py_split, ret at 1. unfold mbind at 1.
    by destruct (words s) as [|w ws].
  - intros b Hb. unfold MemoryBackend_filters.
    step (getattr_raw_at _ _ _ _ Hself _ _ Hheader).
    step (dict_get_at _ _ _ _ Hhm).
    step (getattr_raw_at _ _ _ _ Hself _ _ Hheader).
    step (dict_get_at _ _ _ _ Hhm).
    rewrite Hr, Hb. cbn [is_none].
    unfold py_split, ret at 1. unfold mbind at 1.
    destruct (bytes_words b) as [|w ws] eqn:Hw; [done|].
    cbn [map]. change (VBytes w :: map VBytes ws) with (map VBytes (w :: ws)).
    unfold lift, mbind. rewrite decode_all_bytes.
    by destruct (forallb valid_utf8 (w :: ws)).
Qed.

Lemma MemoryBackend_filters_words_witness :
  MemoryBackend_filters (VRef 0) example_filters
    = (Ok (VRef (length (heap example_filters))),
       {| heap := heap example_filters ++ [PyList [VStr "F1"; VStr "F2"]];
          disk := disk example_filters |}).
Proof.
  exact (proj2 (MemoryBackend_filters_words example_filters 0 1 MemoryBackend _ _
                  (VBytes "F1  F2") eq_refl eq_refl eq_refl eq_refl) "F1  F2" eq_refl).
Defined.

(** ** A [CacheBackend] on a file that lacks an array *)

Lemma lower_upper_ascii (c : ascii) : lower_ascii (upper_ascii c) = lower_ascii c.
Proof. by destruct c as [[] [] [] [] [] [] [] []]. Qed.

Lemma lower_upper (s : string) : lower (upper s) = lower s.
Proof.
  unfold lower, upper. induction s as [|c s IH]; [done|].
  cbn [map_string]. by rewrite lower_upper_ascii, IH.
Qed.

Lemma upper_eq_lower (a b : string) : upper a = upper b -> lower a = lower b.
Proof. intros H. by rewrite <- (lower_upper a), <- (lower_upper b), H. Qed.

Lemma fits_data_missing (x : fits) (key : string) :
  key ∈ ["seds"; "covdiag"; "covoffdiag"] -> key ∉ extnames x ->
  forall st : state,
    fits_data x key st = (Raise (KeyError ("Extension " +:+ key +:+ " not found.")), st).
Proof.
  intros Hkey Hnot st. unfold extnames in Hnot.
  assert (Himage : (if (upper key =? "SEDS")%string then seds_hdu x
                    else if (upper key =? "COVDIAG")%string then covdiag_hdu x
                    else if (upper key =? "COVOFFDIAG")%string then covoffdiag_hdu x
                    else None) = None).
  { apply elem_of_cons in Hkey as [->|Hkey].
    { change (upper "seds") with "SEDS". cbn [String.eqb Ascii.eqb Bool.eqb].
      destruct (seds_hdu x); [|done]. exfalso. apply Hnot. cbn [present app].
      by repeat constructor. }
    apply elem_of_cons in Hkey as [->|Hkey].
    { change (upper "covdiag") with "COVDIAG". cbn [String.eqb Ascii.eqb Bool.eqb].
      destruct (covdiag_hdu x); [|done]. exfalso. apply Hnot. cbn [present].
      apply elem_of_app. right. apply elem_of_app. left. by repeat constructor. }
    apply elem_of_cons in Hkey as [->|Hkey].
    { change (upper "covoffdiag") with "COVOFFDIAG". cbn [String.eqb Ascii.eqb Bool.eqb].
      destruct (covoffdiag_hdu x); [|done]. exfalso. apply Hnot. cbn [present].
      apply elem_of_app. right. apply elem_of_app. right. apply elem_of_app. left.
      by repeat constructor. }
    by apply elem_of_nil in Hkey. }
  unfold fits_data. rewrite Himage.
  destruct (table_hdu x) as [[[tname cols] cards]|]; [|done].
  destruct (String.eqb_spec (upper key) (upper tname)) as [Heq|]; [|done].
  exfalso. apply Hnot. apply upper_eq_lower in Heq.
  assert (Hlow : lower key = key).
  { repeat (apply elem_of_cons in Hkey as [->|Hkey]; [done|]). by apply elem_of_nil in Hkey. }
  rewrite Hlow in Heq. rewrite Heq.
  do 3 (apply elem_of_app; right). by repeat constructor.
Qed.

(** X19. A [CacheBackend] raises [KeyError] for the SEDs or a covariance term
    its file does not hold, and stays as it was; [MemoryBackend] reads
    such a file with [None] for the covariance terms. *)
Theorem CacheBackend_missing_array (st : state) (l : loc) (attrs : gmap string value)
    (f : string) (fl : file) (name : string) :
  heap st !! l = Some (Instance CacheBackend attrs) ->
  attrs !! ("_" +:+ name) = Some VNone ->
  attrs !! "_type" = Some (VStr (type_of_file fl)) -> attrs !! "fname" = Some (VStr f) ->
  disk st !! f = Some fl ->
  name ∈ ["seds"; "cov_diag"; "cov_offdiag"] -> file_has fl (stored_name name) = false ->
  exists msg : string, getattr (VRef l) name st = (Raise (KeyError msg), st).
Proof.
  intros Hself Hslot Hty Hfname Hfile Hname Hhas.
  assert (Hload : forall (slot : string) (from_fits : fits -> M value) (from_hdf : hdf -> M value)
                    (msg : string),
             attrs !! slot = Some VNone ->
             (forall st', match fl with
                          | FitsFile x => from_fits x st'
                          | HdfFile x => from_hdf x st'
                          end = (Raise (KeyError msg), st')) ->
             load_array (VRef l) slot from_fits from_hdf st = (Raise (KeyError msg), st)).
  { intros slot from_fits from_hdf msg Hs Hfrom. unfold load_array.
    step (getattr_raw_at _ _ _ _ Hself _ _ Hs). cbn [is_none].
    step (getattr_raw_at _ _ _ _ Hself _ _ Hty).
    destruct fl as [x|x]; cbn [type_of_file].
    - step (getattr_raw_at _ _ _ _ Hself _ _ Hfname).
      step (fits_open_at _ _ _ Hfile).
      by erewrite mbind_raise.
    - step (getattr_raw_at _ _ _ _ Hself _ _ Hfname).
      step (h5_open_at _ _ _ Hfile).
      by erewrite mbind_raise. }
  assert (Hfrom : forall key : string,
             key ∈ ["seds"; "covdiag"; "covoffdiag"] -> file_has fl key = false ->
             exists msg : string,
               forall st', match fl with
                           | FitsFile x => fits_data x key st'
                           | HdfFile x => h5_dataset x key st'
                           end = (Raise (KeyError msg), st')).
  { intros key Hkey Hk. destruct fl as [x|x]; cbn [file_has] in Hk.
    - eexists. intros st'. apply fits_data_missing; [done|].
      by apply bool_decide_eq_false in Hk.
    - eexists. intros st'. unfold h5_has in Hk. apply orb_false_elim in Hk as [Hk _].
      unfold h5_dataset. by destruct (datasets x !! key). }
  unfold getattr. rewrite (mbind_ok _ _ _ _ _ (class_of_at _ _ _ _ Hself)).
  repeat (apply elem_of_cons in Hname as [->|Hname];
          [unfold stored_name in Hhas; cbn [String.eqb Ascii.eqb Bool.eqb] in Hhas;
           edestruct (fun H => Hfrom _ H Hhas) as [msg Hmsg]; [by repeat constructor|];
           exists msg;
           unfold CacheBackend_seds, _load_seds, CacheBackend_cov_diag, _load_cov_diag,
             CacheBackend_cov_offdiag, _load_cov_offdiag;
           erewrite mbind_raise; [reflexivity|];
           by apply Hload|]).
  by apply elem_of_nil in Hname.
Qed.

Lemma CacheBackend_missing_array_witness :
  exists msg : string,
    getattr (VRef 0) "cov_diag" example_cache = (Raise (KeyError msg), example_cache).
Proof.
  eapply (CacheBackend_missing_array example_cache 0 _ "grid.hd5" (HdfFile example_hdf)).
  - vm_compute. reflexivity.
  - vm_compute. reflexivity.
  - vm_compute. reflexivity.
  - vm_compute. reflexivity.
  - reflexivity.
  - by repeat constructor.
  - reflexivity.
Defined.

(** ** The filters of an [HDFBackend] *)

(** X20. With its header built, an [HDFBackend] takes its filters from the
    entry [FILTERS], or from [filters] when that one is missing, [None]
    or empty: the words of the entry go to a new list, the list is kept
    in [_filters], and the next access gives the same list and changes
    nothing. *)
Theorem HDFBackend_filters_cached (st : state) (l hl : loc) (attrs hm : gmap string value)
    (s : string) :
  heap st !! l = Some (Instance HDFBackend attrs) ->
  attrs !! "_filters" = Some VNone -> attrs !! "_header" = Some (VRef hl) ->
  heap st !! hl = Some (Dict hm) ->
  py_or (default VNone (hm !! "FILTERS")) (default VNone (hm !! "filters")) = VStr s ->
  exists st' : state,
    getattr (VRef l) "filters" st = (Ok (VRef (length (heap st))), st')
    /\ heap st' !! length (heap st) = Some (PyList (map VStr (words s)))
    /\ getattr (VRef l) "filters" st' = (Ok (VRef (length (heap st))), st')
    /\ disk st' = disk st.
Proof.
  intros Hself Hfilters Hheader Hhm Hor.
  assert (Hl : (l < length (heap st))%nat) by (by eapply lookup_lt_Some).
  assert (Hne : hl <> l) by (intros ->; congruence).
  set (attrs1 := <["_filters" := VStr s]> attrs).
  set (attrs2 := <["_filters" := VRef (length (heap st))]> attrs1).
  set (ws := PyList (map VStr (words s))).
  assert (Hhead : forall a t, a !! "_header" = Some (VRef hl) ->
             HDFBackend_header (VRef l) (with_self st l HDFBackend a t)
               = (Ok (VRef hl), with_self st l HDFBackend a t)).
  { intros a t Ha. unfold HDFBackend_header.
    step (with_self_getattr_raw _ _ _ Hl _ _ _ _ Ha). cbn [is_none].
    by apply with_self_getattr_raw. }
  assert (Hget : forall a t, (a !! "_header" = Some (VRef hl)) ->
             dict_get (VRef hl) "FILTERS" (with_self st l HDFBackend a t)
               = (Ok (default VNone (hm !! "FILTERS")), with_self st l HDFBackend a t)
             /\ dict_get (VRef hl) "filters" (with_self st l HDFBackend a t)
               = (Ok (default VNone (hm !! "filters")), with_self st l HDFBackend a t)).
  { intros a t _. split; apply dict_get_at; by apply with_self_old. }
  exists (with_self st l HDFBackend attrs2 [ws]). split; [|split; [|split]].
  - rewrite <- (with_self_id _ _ _ _ Hself) at 1.
    unfold getattr. step_by (eapply class_of_at; by apply with_self_lookup).
    unfold HDFBackend_filters.
    step (with_self_getattr_raw _ _ _ Hl _ _ _ _ Hfilters). cbn [is_none].
    erewrite (mbind_ok _ _ _ _ tt).
    2:{ step (Hhead _ _ Hheader).
        step (proj1 (Hget attrs [] Hheader)).
        step (Hhead _ _ Hheader).
        step (proj2 (Hget attrs [] Hheader)).
        rewrite Hor.
        step (with_self_setattr_raw _ _ _ Hl _ _ _ _). cbn [is_none].
        unfold py_split, ret at 1. unfold mbind at 1.
        step (with_self_alloc _ _ _ _ _ _). cbn [length app]. rewrite Nat.add_0_r.
        by apply with_self_setattr_raw. }
    cbv beta. fold attrs1 attrs2 ws.
    apply with_self_getattr_raw; [done|]. subst attrs2. by rewrite lookup_insert_eq.
  - rewrite <- (Nat.add_0_r (length (heap st))). by rewrite with_self_new.
  - unfold getattr. step_by (eapply class_of_at; by apply with_self_lookup).
    unfold HDFBackend_filters.
    assert (H2 : attrs2 !! "_filters" = Some (VRef (length (heap st))))
      by (subst attrs2; by rewrite lookup_insert_eq).
    step (with_self_getattr_raw _ _ _ Hl _ _ _ _ H2). cbn [is_none].
    unfold ret at 1. unfold mbind at 1.
    by apply with_self_getattr_raw.
  - done.
Qed.

Lemma HDFBackend_filters_cached_witness :
  exists st' : state,
    getattr (VRef 0) "filters" example_hdf_header_built
      = (Ok (VRef (length (heap example_hdf_header_built))), st')
    /\ heap st' !! length (heap example_hdf_header_built)
       = Some (PyList (map VStr (words "F1 F2")))
    /\ getattr (VRef 0) "filters" st'
       = (Ok (VRef (length (heap example_hdf_header_built))), st')
    /\ disk st' = disk example_hdf_header_built.
Proof.
  eapply (HDFBackend_filters_cached example_hdf_header_built 0 3).
  - vm_compute. reflexivity.
  - vm_compute. reflexivity.
  - vm_compute. reflexivity.
  - vm_compute. reflexivity.
  - vm_compute. reflexivity.
Defined.

(** ** The filters of a [CacheBackend] *)

Lemma CacheBackend_header_loaded (st : state) (l gl : loc) (attrs : gmap string value)
    (cols : columns) (meta : value) :
  heap st !! l = Some (Instance CacheBackend attrs) -> attrs !! "_grid" = Some (VRef gl) ->
  heap st !! gl = Some (Table cols meta) ->
  CacheBackend_header (VRef l) st
    = (Raise (AttributeError "'Table' object has no attribute 'header'"), st).
Proof.
  intros Hself Hgrid Hta. unfold CacheBackend_header.
  erewrite (mbind_ok _ _ _ _ tt).
  2:{ unfold _load_grid. by step (getattr_raw_at _ _ _ _ Hself _ _ Hgrid). }
  cbv beta. step (getattr_raw_at _ _ _ _ Hself _ _ Hgrid).
  by step (deref_at _ _ _ Hta).
Qed.

Lemma fits_header_get_grid (x : fits) (tname : string) (cols : columns)
    (cards : gmap string value) (key : string) (st : state) :
  table_hdu x = Some (tname, cols, cards) -> upper tname = "GRID" ->
  upper key <> "EXTNAME" ->
  fits_header_get x "grid" key st = (Ok (default VNone (cards !! upper key)), st).
Proof.
  intros Hta Hname Hkey. unfold fits_header_get.
  change (upper "grid") with "GRID". cbn [String.eqb Ascii.eqb Bool.eqb andb orb].
  rewrite Hta, Hname. unfold table_cards. by rewrite lookup_insert_ne.
Qed.

(** X21. The filters of a [CacheBackend] whose slot is empty. On an HDF file
    they are asked of [self.header], which raises [AttributeError] as
    soon as the table is loaded, so they are never given. On a FITS file
    they are the words of the card [FILTERS] of the [GRID] extension, in
    a new list kept in [_filters]. *)
Theorem CacheBackend_filters_by_type (st : state) (l : loc) (attrs : gmap string value) :
  heap st !! l = Some (Instance CacheBackend attrs) -> attrs !! "_filters" = Some VNone ->
  (forall (gl : loc) (cols : columns) (meta : value),
      attrs !! "_type" = Some (VStr "hdf") ->
      attrs !! "_grid" = Some (VRef gl) -> heap st !! gl = Some (Table cols meta) ->
      getattr (VRef l) "filters" st
        = (Raise (AttributeError "'Table' object has no attribute 'header'"), st))
  /\ (forall (f : string) (x : fits) (tname : string) (cols : columns)
        (cards : gmap string value) (s : string),
        attrs !! "_type" = Some (VStr "fits") -> attrs !! "fname" = Some (VStr f) ->
        disk st !! f = Some (FitsFile x) ->
        table_hdu x = Some (tname, cols, cards) -> upper tname = "GRID" ->
        cards !! "FILTERS" = Some (VStr s) -> s <> "" ->
        exists attrs' : gmap string value,
          getattr (VRef l) "filters" st
            = (Ok (VRef (length (heap st))),
               with_self st l CacheBackend attrs' [PyList (map VStr (words s))])
          /\ attrs' !! "_filters" = Some (VRef (length (heap st)))).
Proof.
  intros Hself Hfilters.
  assert (Hl : (l < length (heap st))%nat) by (by eapply lookup_lt_Some).
  split.
  - intros gl cols meta Hty Hgrid Hta. unfold getattr.
    step (class_of_at _ _ _ _ Hself).
    unfold CacheBackend_filters. erewrite mbind_raise; [reflexivity|].
    unfold _load_filters.
    step (getattr_raw_at _ _ _ _ Hself _ _ Hfilters). cbn [is_none].
    step (getattr_raw_at _ _ _ _ Hself _ _ Hty).
    erewrite mbind_raise; [reflexivity|].
    erewrite mbind_raise; [reflexivity|].
    by eapply CacheBackend_header_loaded.
  - intros f x tname cols cards s Hty Hfname Hfile Hta Hname Hcard Hs.
    eexists. split.
    + rewrite <- (with_self_id _ _ _ _ Hself) at 1.
      unfold getattr. step_by (eapply class_of_at; by apply with_self_lookup).
      unfold CacheBackend_filters.
      erewrite (mbind_ok _ _ _ _ tt).
      2:{ unfold _load_filters.
          step (with_self_getattr_raw _ _ _ Hl _ _ _ _ Hfilters). cbn [is_none].
          step (with_self_getattr_raw _ _ _ Hl _ _ _ _ Hty).
          erewrite (mbind_ok _ _ _ _ (VStr s, VStr s)).
          2:{ step (with_self_getattr_raw _ _ _ Hl _ _ _ _ Hfname).
              step_by (apply fits_open_at; exact Hfile).
              step_by (eapply fits_header_get_grid; [exact Hta|exact Hname|done]).
              step_by (eapply fits_header_get_grid; [exact Hta|exact Hname|done]).
              change (upper "FILTERS") with "FILTERS". change (upper "filters") with "FILTERS".
              rewrite Hcard. reflexivity. }
          cbv beta. cbn [fst snd].
          assert (Hor : py_or (VStr s) (VStr s) = VStr s) by (by destruct s).
          rewrite Hor.
          step (with_self_setattr_raw _ _ _ Hl _ _ _ _). cbn [is_none].
          unfold py_split, ret at 1. unfold mbind at 1.
          step (with_self_alloc _ _ _ _ _ _). cbn [length app]. rewrite Nat.add_0_r.
          by apply with_self_setattr_raw. }
      cbv beta. apply with_self_getattr_raw; [done|]. by rewrite lookup_insert_eq.
    + by rewrite lookup_insert_eq.
Qed.

Lemma CacheBackend_filters_by_type_witness :
  getattr (VRef 0) "filters" example_cache_loaded
    = (Raise (AttributeError "'Table' object has no attribute 'header'"), example_cache_loaded)
  /\ exists attrs' : gmap string value,
      getattr (VRef 0) "filters" example_cache_fits
        = (Ok (VRef (length (heap example_cache_fits))),
           with_self example_cache_fits 0 CacheBackend attrs'
             [PyList (map VStr (words "F1 F2"))])
      /\ attrs' !! "_filters" = Some (VRef (length (heap example_cache_fits))).
Proof.
  split.
  - eassert (H1 : heap example_cache_loaded !! 0%nat = Some (Instance CacheBackend _))
      by (vm_compute; reflexivity).
    eapply (proj1 (CacheBackend_filters_by_type example_cache_loaded 0 _ H1 _) 3).
    + vm_compute. reflexivity.
    + vm_compute. reflexivity.
    + vm_compute. reflexivity.
  - eassert (H1 : heap example_cache_fits !! 0%nat = Some (Instance CacheBackend _))
      by (vm_compute; reflexivity).
    eapply (proj2 (CacheBackend_filters_by_type example_cache_fits 0 _ H1 _)
              "grid.fits" example_fits "GRID").
    + vm_compute. reflexivity.
    + vm_compute. reflexivity.
    + reflexivity.
    + reflexivity.
    + reflexivity.
    + reflexivity.
    + discriminate.
  Unshelve.
  all: vm_compute; reflexivity.
Defined.

End GridTheory.
